(** * Verification of the lightweight PPTX recovery pipeline

    Shallow embedding of [lightweight_pptx_recovery.py]: the media carver,
    the text-file loader, the slide segmenter, the image distributor, the
    package assembler and the splitter of [main], followed by the theorems
    that settle the specification's claims about them.

    Conventions of the embedding.
    - A Python [int] is a [Z]; [//] and [%] are [Z.div] and [Z.modulo]
      (both floor towards minus infinity, as Python's), and raise
      [ZeroDivisionError] on a zero divisor.
    - A Python [str] is a [string] of the code points U+0000..U+00FF; the
      character classes below are Python's on that range.
    - A [bytes] object is a [list Byte.byte].
    - A [dict] is a [gmap]; the slide dictionary is keyed by slide number.
    - A function that can raise returns an [outcome]. *)

From Stdlib Require Import ZArith Ascii String List Lia DecimalString DecimalZ Strings.Byte.
From stdpp Require Import base list gmap strings sorting.

Local Open Scope Z_scope.

(** ** Exceptions *)

Module Exn.

Inductive exn : Type :=
  | ZeroDivisionError
  | OSError.

Inductive outcome (A : Type) : Type :=
  | Return (a : A)
  | Raise (e : exn).
Global Arguments Return {A} a.
Global Arguments Raise {A} e.

Definition bind {A B : Type} (m : outcome A) (k : A → outcome B) : outcome B :=
  match m with
  | Return a => k a
  | Raise e => Raise e
  end.

(** [x ← m; k] sequences two computations and propagates an exception. *)
Global Instance outcome_ret : MRet outcome := @Return.
Global Instance outcome_bind : MBind outcome := λ A B k m, bind m k.

(** A [for] loop whose body can raise: the first exception ends it. *)
Fixpoint for_each {S A : Type} (body : S → A → outcome S) (st : S) (l : list A)
    : outcome S :=
  match l with
  | [] => Return st
  | x :: l' => st' ← body st x; for_each body st' l'
  end.

(** [a // b] and [a % b]. *)
Definition floordiv (a b : Z) : outcome Z :=
  if decide (b = 0) then Raise ZeroDivisionError else Return (a / b).
Definition pymod (a b : Z) : outcome Z :=
  if decide (b = 0) then Raise ZeroDivisionError else Return (a mod b).

End Exn.

(** ** Sequences: slices and ranges *)

Module PySeq.

(** Python clamps a slice bound into [0..len], counting a negative bound
    from the end. *)
Definition clamp_index (len i : Z) : Z :=
  if decide (i < 0) then Z.max 0 (i + len) else Z.min i len.

(** [l[a:b]] *)
Definition slice {A : Type} (l : list A) (a b : Z) : list A :=
  let len := Z.of_nat (length l) in
  let a' := clamp_index len a in
  let b' := clamp_index len b in
  take (Z.to_nat (b' - a')) (drop (Z.to_nat a') l).

(** [l[:b]] *)
Definition slice_to {A : Type} (l : list A) (b : Z) : list A :=
  slice l 0 b.

(** [range(n)] *)
Definition range (n : Z) : list Z := seqZ 0 n.

(** [range(start, stop, step)] for a positive [step]. *)
Definition range_step (start stop step : Z) : list Z :=
  (fun k => start + k * step) <$> seqZ 0 ((stop - start + step - 1) / step).

(** [len(l)] *)
Definition len {A : Type} (l : list A) : Z := Z.of_nat (length l).

(** [l[i]] for an index [0 <= i < len(l)]; every index the program uses
    is in that range. *)
Definition item {A : Type} `{Inhabited A} (l : list A) (i : Z) : A :=
  l !!! Z.to_nat i.

(** [enumerate(l)] *)
Definition enumerate {A : Type} (l : list A) : list (Z * A) :=
  zip (seqZ 0 (len l)) l.

(** [sorted(l)] and [l.sort()] on integers. *)
Definition sorted (l : list Z) : list Z := merge_sort Z.le l.

End PySeq.

(** ** Strings *)

Module PyStr.

Definition ord (c : ascii) : N := N_of_ascii c.

Definition in_range (lo hi : N) (c : ascii) : bool :=
  ((lo <=? ord c) && (ord c <=? hi))%N.

(** [str.isspace] on one character, also the class [\s] of [re]. *)
Definition isspace (c : ascii) : bool :=
  in_range 9 13 c || in_range 28 32 c || (ord c =? 133)%N || (ord c =? 160)%N.

(** The class [\d] of [re]: decimal digits. *)
Definition isdecimal (c : ascii) : bool := in_range 48 57 c.

(** [str.isupper] and [str.islower] on one character. *)
Definition isupper_char (c : ascii) : bool :=
  in_range 65 90 c || in_range 192 214 c || in_range 216 222 c.
Definition islower_char (c : ascii) : bool :=
  in_range 97 122 c || (ord c =? 170)%N || (ord c =? 181)%N
  || (ord c =? 186)%N || in_range 223 246 c || in_range 248 255 c.

(** ASCII lower-casing, which is all that case-insensitive matching of
    the literal [Slide] needs on this range. *)
Definition ascii_lower (c : ascii) : ascii :=
  if in_range 65 90 c then ascii_of_N (ord c + 32) else c.

Definition len (s : string) : Z := Z.of_nat (String.length s).

Fixpoint take (n : nat) (s : string) : string :=
  match n, s with
  | O, _ => EmptyString
  | S _, EmptyString => EmptyString
  | S n', String c s' => String c (take n' s')
  end.

Fixpoint drop (n : nat) (s : string) : string :=
  match n, s with
  | O, _ => s
  | S _, EmptyString => EmptyString
  | S n', String _ s' => drop n' s'
  end.

(** [s[:n]] for a literal [n >= 0]. *)
Definition slice_to (s : string) (n : nat) : string := take n s.

Fixpoint lstrip (s : string) : string :=
  match s with
  | EmptyString => EmptyString
  | String c s' => if isspace c then lstrip s' else s
  end.

Fixpoint rstrip (s : string) : string :=
  match s with
  | EmptyString => EmptyString
  | String c s' =>
      match rstrip s' with
      | EmptyString => if isspace c then EmptyString else String c EmptyString
      | r => String c r
      end
  end.

Definition strip (s : string) : string := rstrip (lstrip s).

Definition endswith (s suf : string) : bool :=
  String.prefix (String.rev suf) (String.rev s).

(** [str.isupper]: no lower-case character and at least one upper-case
    one. *)
Fixpoint isupper_go (cased : bool) (s : string) : bool :=
  match s with
  | EmptyString => cased
  | String c s' =>
      if islower_char c then false
      else isupper_go (cased || isupper_char c) s'
  end.
Definition isupper (s : string) : bool := isupper_go false s.

(** [str.split()] without arguments: the maximal runs of non-space
    characters. *)
Fixpoint split_go (cur : option string) (s : string) : list string :=
  match s with
  | EmptyString => option_list (String.rev <$> cur)
  | String c s' =>
      if isspace c
      then option_list (String.rev <$> cur) ++ split_go None s'
      else split_go (Some (String c (default EmptyString cur))) s'
  end.
Definition split (s : string) : list string := split_go None s.

(** [s.replace(old, new)] for a one-character [old]. *)
Fixpoint replace_char (old : ascii) (new : string) (s : string) : string :=
  match s with
  | EmptyString => EmptyString
  | String c s' =>
      if decide (c = old) then new +:+ replace_char old new s'
      else String c (replace_char old new s')
  end.

(** [str(n)], as interpolated by an f-string. *)
Definition of_int (n : Z) : string := NilEmpty.string_of_int (Z.to_int n).

Definition newline : ascii := ascii_of_nat 10.
Definition nl : string := String newline EmptyString.

Fixpoint map_chars (f : ascii → ascii) (s : string) : string :=
  match s with
  | EmptyString => EmptyString
  | String c s' => String (f c) (map_chars f s')
  end.

End PyStr.

(** ** Media carver: [extract_images_from_binary] *)

Module Carver.

Abbreviation bytes := (list byte).

Definition png_header : bytes := [x89; x50; x4e; x47; x0d; x0a; x1a; x0a].
Definition iend_marker : bytes := [x49; x45; x4e; x44; xae; x42; x60; x82].
Definition jpg_header : bytes := [xff; xd8; xff].
Definition eoi_marker : bytes := [xff; xd9].

Fixpoint is_prefix (sub data : bytes) : bool :=
  match sub, data with
  | [], _ => true
  | _ :: _, [] => false
  | b :: sub', d :: data' => Byte.eqb b d && is_prefix sub' data'
  end.

(** Leftmost occurrence of [sub] in [data], where the head of [data] has
    index [i]; [-1] when there is none. *)
Fixpoint find_from (sub data : bytes) (i : Z) : Z :=
  if is_prefix sub data then i
  else match data with
       | [] => -1
       | _ :: data' => find_from sub data' (i + 1)
       end.

(** [data.find(sub, start)] for [start >= 0]. *)
Definition find (data sub : bytes) (start : Z) : Z :=
  if decide (PySeq.len data < start) then -1
  else find_from sub (drop (Z.to_nat start) data) start.

(** One candidate of a scan: the byte range [c_start, c_end) between a
    start signature and the end of the first end marker after it, and the
    file it was written to when the decoder accepted it. *)
Record candidate : Type := Candidate {
  c_start : Z;
  c_end : Z;
  c_file : option string
}.

Record scan_state : Type := ScanState {
  st_count : Z;
  st_store : gmap string bytes;
  st_cands : list candidate
}.

Section Scan.

(** [Image.open(io.BytesIO(image_data))] followed by the write of the
    file: [true] when the [try] block completes. The decoder is the
    imaging library's and is not part of this program. *)
Variable image_ok : bytes → bool.

Variable data : bytes.

(** The signature of the format, its end marker, its file extension, and
    the number of images already in the store when the scan starts. *)
Variables (header marker : bytes) (ext : string) (base : Z).

(** The body of the [while True] loop for a match at [pos]. *)
Definition scan_body (pos : Z) (st : scan_state) : scan_state :=
  let end_pos := find data marker pos in
  if decide (end_pos ≠ -1) then
    let end_pos := end_pos + PySeq.len marker in
    let image_data := PySeq.slice data pos end_pos in
    if image_ok image_data then
      let name := "image_" +:+ PyStr.of_int (base + st_count st + 1) +:+ ext in
      {| st_count := st_count st + 1;
         st_store := <[name := image_data]> (st_store st);
         st_cands := st_cands st ++ [Candidate pos end_pos (Some name)] |}
    else
      {| st_count := st_count st;
         st_store := st_store st;
         st_cands := st_cands st ++ [Candidate pos end_pos None] |}
  else st.

(** The [while True] loop, searching from [pos]; [None] when the fuel
    runs out before the loop breaks. *)
Fixpoint scan_loop (fuel : nat) (pos : Z) (st : scan_state) : option scan_state :=
  match fuel with
  | O => None
  | S fuel' =>
      let pos := find data header pos in
      if decide (pos = -1) then Some st
      else scan_loop fuel' (pos + 1) (scan_body pos st)
  end.

(** Every iteration moves [pos] forward by at least one and [pos]
    never exceeds [len(data) + 1], so this fuel is enough. *)
Definition scan (st : scan_state) : option scan_state :=
  scan_loop (length data + 2) 0 st.

End Scan.

(** The PNG scan followed by the JPEG scan; the JPEG files are numbered
    after the PNG files. [media_dir] is what [extract_dir/ppt/media]
    holds when the function is called: the directory is created with
    [exist_ok=True] and never emptied, so with [--extract-dir] it may
    hold the files of an earlier run. Returns [png_count + jpg_count]
    with the media directory after the scans and the candidates of each
    scan. *)
Definition extract_images_from_binary (image_ok : bytes → bool) (data : bytes)
    (media_dir : gmap string bytes)
    : option (Z * gmap string bytes * list candidate * list candidate) :=
  png ← scan image_ok data png_header iend_marker ".png" 0
          (ScanState 0 media_dir []);
  jpg ← scan image_ok data jpg_header eoi_marker ".jpg" (st_count png)
          (ScanState 0 (st_store png) []);
  Some (st_count png + st_count jpg, st_store jpg, st_cands png, st_cands jpg).

(** [sub] occurs in [data] at offset [p]. *)
Definition occurs_at (sub data : bytes) (p : Z) : Prop :=
  0 ≤ p ≤ PySeq.len data ∧ is_prefix sub (drop (Z.to_nat p) data) = true.

(** The byte ranges of successive candidates do not overlap: what a scan
    that resumes at the previous match's end would give. *)
Definition ranges_disjoint (cands : list candidate) : Prop :=
  ∀ (i : nat) c1 c2,
    cands !! i = Some c1 → cands !! S i = Some c2 → c_end c1 ≤ c_start c2.

(** What a scan from [pos] that resumes one byte after the previous
    match's start gives: the candidates start, in increasing order, at
    exactly the offsets from [pos] on where the signature occurs and an
    end marker follows, and each ends with the first end marker found
    from its start. *)
Definition tried_from (header marker data : bytes) (pos : Z)
    (cands : list candidate) : Prop :=
  StronglySorted Z.lt (c_start <$> cands)
  ∧ (∀ p, p ∈ c_start <$> cands
          ↔ pos ≤ p ∧ occurs_at header data p ∧ find data marker p ≠ -1)
  ∧ Forall (λ c, c_end c = find data marker (c_start c) + PySeq.len marker) cands.

End Carver.

(** ** Text-file input path: [load_extracted_text_file] *)

Module TextFile.
Import PyStr.

(** Length of the part of the white-space run at the head of [s] that
    ends with the run's last newline: what the greedy [\s*\n] consumes
    after backtracking. [None] when the run has no newline. *)
Fixpoint blank_tail (s : string) : option nat :=
  match s with
  | EmptyString => None
  | String c s' =>
      if isspace c then
        match blank_tail s' with
        | Some n => Some (S n)
        | None => if decide (c = newline) then Some 1%nat else None
        end
      else None
  end.

(** [re.split(r'\n\s*\n', content)]: [skip] characters of a match are
    still to be dropped and [cur] holds the current piece, reversed. *)
Fixpoint re_split_go (skip : nat) (cur : string) (s : string) : list string :=
  match s with
  | EmptyString => [String.rev cur]
  | String c s' =>
      match skip with
      | S k => re_split_go k cur s'
      | O =>
          if decide (c = newline) then
            match blank_tail s' with
            | Some n => String.rev cur :: re_split_go n EmptyString s'
            | None => re_split_go 0 (String c cur) s'
            end
          else re_split_go 0 (String c cur) s'
      end
  end.
Definition re_split_blank_lines (content : string) : list string :=
  re_split_go 0 EmptyString content.

(** The paragraphs of an already decoded file content:
    [[p.strip() for p in paragraphs if p.strip()]]. *)
Definition load_extracted_text_file (content : string) : list string :=
  let paragraphs := re_split_blank_lines content in
  omap (fun p => if decide (strip p = EmptyString) then None else Some (strip p))
       paragraphs.

(** The text of the two-paragraph scenario. *)
Definition overview_details : string :=
  "Overview:" +:+ nl +:+ "Intro line." +:+ nl +:+ nl +:+
  "Details:" +:+ nl +:+ "More text here that is long enough.".

End TextFile.

(** ** Slide segmenter: [is_likely_title], [organize_text_into_slides] *)

Module Segmenter.
Import PyStr.

Record slide_data : Type := SlideData {
  title : string;
  content : list string;
  images : list string
}.

(** [re.match(r'^Slide\s+\d+', text, re.IGNORECASE)]: white space and
    digits are disjoint, so the match succeeds exactly when the maximal
    white-space run after the word is non-empty and a digit follows it. *)
Definition re_match_slide_number (text : string) : bool :=
  if decide (map_chars ascii_lower (take 5 text) = "slide") then
    let rest := drop 5 text in
    let rest' := lstrip rest in
    (len rest' <? len rest) &&
    match rest' with
    | String c _ => isdecimal c
    | EmptyString => false
    end
  else false.

(** [sum(1 for word in words if word and word[0].isupper())] *)
Definition count_uppercase_words (words : list string) : Z :=
  foldl (fun n word =>
           match word with
           | String c _ => if isupper_char c then n + 1 else n
           | EmptyString => n
           end) 0 words.

(** The float test [uppercase_words / len(words) >= 0.7] is the integer
    test [7 * len(words) <= 10 * uppercase_words]: a text under 60
    characters has at most 30 words, and no quotient of such integers
    is within a rounding error of 0.7 without being equal to 7/10. *)
Definition is_likely_title (text : string) : bool :=
  if re_match_slide_number text then true
  else if len text <? 60 then
    if endswith (rstrip text) ":" then true
    else if isupper text then true
    else
      let words := split text in
      if (2 <=? PySeq.len words) &&
         (7 * PySeq.len words <=? 10 * count_uppercase_words words)
      then true else false
  else false.

(** The first loop: skip short paragraphs and exact duplicates. *)
Fixpoint filter_paragraphs (seen : gset string) (paragraphs : list string)
    : list string :=
  match paragraphs with
  | [] => []
  | para :: rest =>
      if len (strip para) <? 5 then filter_paragraphs seen rest
      else if decide (para ∈ seen) then filter_paragraphs seen rest
      else para :: filter_paragraphs ({[para]} ∪ seen) rest
  end.

(** The initial pass over [enumerate(paragraphs)]. *)
Definition initial_title_indices (paragraphs : list string) : list Z :=
  foldl (fun title_indices '(i, para) =>
           if is_likely_title para
              || ((0 <? i) && (len para <? 50)
                  && (len (PySeq.item paragraphs (i - 1)) <? 3))
           then title_indices ++ [i] else title_indices)
        [] (PySeq.enumerate paragraphs).

(** The widening pass, run when fewer than [max_slides // 2] titles were
    found. *)
Definition widen_title_indices (paragraphs : list string) (title_indices : list Z)
    : list Z :=
  foldl (fun title_indices '(i, para) =>
           if endswith (strip para) ":" || endswith (strip para) "."
           then if decide (i ∈ title_indices) then title_indices
                else title_indices ++ [i]
           else title_indices)
        title_indices (PySeq.enumerate paragraphs).

Definition title_indices_of (paragraphs : list string) (max_slides : Z) : list Z :=
  let title_indices := initial_title_indices paragraphs in
  let title_indices :=
    if PySeq.len title_indices <? max_slides / 2
    then widen_title_indices paragraphs title_indices
    else title_indices in
  PySeq.sorted title_indices.

(** [f"Slide {current_slide}"] *)
Definition slide_title (current_slide : Z) : string :=
  "Slide " +:+ of_int current_slide.

(** The loop state: the dictionary and [current_slide]. *)
Definition seg_state : Type := gmap Z slide_data * Z.

(** Body of the fixed-size chunk loop for the chunk starting at [i]. *)
Definition chunk_body (paragraphs : list string) (paras_per_slide : Z)
    (st : seg_state) (i : Z) : seg_state :=
  let '(slides_content, current_slide) := st in
  let slide_paras := PySeq.slice paragraphs i (i + paras_per_slide) in
  match slide_paras with
  | [] => st
  | first :: rest =>
      let title :=
        if len first <? 60 then first else slide_title current_slide in
      let content := if decide (first = title) then rest else slide_paras in
      if decide (content = [] ∧ title = slide_title current_slide) then st
      else (<[current_slide := SlideData title content []]> slides_content,
            current_slide + 1)
  end.

(** Body of the title-boundary loop for the [i]-th boundary. *)
Definition title_body (paragraphs : list string) (title_indices : list Z)
    (st : seg_state) (i : Z) : seg_state :=
  let '(slides_content, current_slide) := st in
  let start_idx := PySeq.item title_indices i in
  let end_idx :=
    if i + 1 <? PySeq.len title_indices
    then PySeq.item title_indices (i + 1)
    else PySeq.len paragraphs in
  let title := PySeq.item paragraphs start_idx in
  let content := PySeq.slice paragraphs (start_idx + 1) end_idx in
  match content with
  | [] => st
  | _ => (<[current_slide := SlideData title content []]> slides_content,
          current_slide + 1)
  end.

(** [sorted(slides_content.keys())] *)
Definition sorted_keys {V : Type} (m : gmap Z V) : list Z :=
  PySeq.sorted ((map_to_list m).*1).

(** [{k: slides_content[k] for k in slides_to_keep}] *)
Definition restrict_to {V : Type} (m : gmap Z V) (keep : list Z) : gmap Z V :=
  list_to_map (omap (fun k => (fun v => (k, v)) <$> m !! k) keep).

(** The keys of [m] are exactly the dense range [1..k]. *)
Definition dense {V : Type} (m : gmap Z V) (k : Z) : Prop :=
  0 ≤ k ∧ ∀ n, is_Some (m !! n) ↔ 1 ≤ n ≤ k.

(** Whether the segmenter abandons the title boundaries for fixed-size
    chunks: [not title_indices or len(title_indices) < 5]. *)
Definition uses_chunks (title_indices : list Z) : bool :=
  bool_decide (title_indices = []) || (PySeq.len title_indices <? 5).

(** The paragraphs the segmenter works on: filtered, then capped at
    [max_slides * 8]. *)
Definition preprocess (paragraphs : list string) (max_slides : Z) : list string :=
  let filtered_paragraphs := filter_paragraphs ∅ paragraphs in
  let max_paragraphs := max_slides * 8 in
  if max_paragraphs <? PySeq.len filtered_paragraphs
  then PySeq.slice_to filtered_paragraphs max_paragraphs
  else filtered_paragraphs.

(** The [if]/[else] around the two loops: fixed-size chunks when fewer
    than 5 boundaries exist, title boundaries otherwise. Returns the
    dictionary and [current_slide]. *)
Definition segment_loops (paragraphs : list string) (max_slides : Z) : seg_state :=
  let title_indices := title_indices_of paragraphs max_slides in
  if uses_chunks title_indices then
    let paras_per_slide :=
      Z.max 1 (Z.min 8 (PySeq.len paragraphs / Z.max 1 (Z.min max_slides 15))) in
    foldl (chunk_body paragraphs paras_per_slide) (∅, 1)
          (PySeq.range_step 0 (PySeq.len paragraphs) paras_per_slide)
  else
    foldl (title_body paragraphs title_indices) (∅, 1)
          (PySeq.range (PySeq.len title_indices)).

Definition organize_text_into_slides (paragraphs : list string) (max_slides : Z)
    : gmap Z slide_data :=
  let paragraphs := preprocess paragraphs max_slides in
  let slides_content := (segment_loops paragraphs max_slides).1 in
  if max_slides <? Z.of_nat (size slides_content) then
    let slides_to_keep := PySeq.slice_to (sorted_keys slides_content) max_slides in
    restrict_to slides_content slides_to_keep
  else slides_content.

(** *** Invariants of the two loops *)

(** The numbering invariant of both loops: the keys written so far are
    [1 .. current_slide - 1]. *)
Definition numbered (st : seg_state) : Prop := dense st.1 (st.2 - 1).

(** What the chunk loop guarantees of a group with an empty body: its
    title is a fragment under 60 characters, not the text [Slide <n>] of
    its own number. *)
Definition titled_when_empty (paragraphs : list string) (m : gmap Z slide_data)
    : Prop :=
  ∀ n sd, m !! n = Some sd → content sd = [] →
    title sd ≠ slide_title n ∧ PyStr.len (title sd) < 60 ∧ title sd ∈ paragraphs.

(** What the title-boundary loop guarantees: no group has an empty body. *)
Definition bodies_nonempty (m : gmap Z slide_data) : Prop :=
  ∀ n sd, m !! n = Some sd → content sd ≠ [].

End Segmenter.

(** ** Image distributor: [distribute_images] *)

Module Distributor.
Import Exn Segmenter.

(** [f"image_{img_num}.png"] *)
Definition png_name (img_num : Z) : string :=
  "image_" +:+ PyStr.of_int img_num +:+ ".png".

(** [slides_content[slide_num]['images'].append(img_file)] *)
Definition append_image (img_file : string) (sd : slide_data) : slide_data :=
  SlideData (title sd) (content sd) (images sd ++ [img_file]).

Definition distribute_body (slide_numbers : list Z)
    (slides_content : gmap Z slide_data) (i : Z) : outcome (gmap Z slide_data) :=
  let img_num := i + 1 in
  slide_idx ← pymod i (PySeq.len slide_numbers);
  let slide_num := PySeq.item slide_numbers slide_idx in
  let img_file := png_name img_num in
  mret (alter (append_image img_file) slide_num slides_content).

Definition distribute_images (slides_content : gmap Z slide_data) (image_count : Z)
    : outcome (gmap Z slide_data) :=
  let slide_numbers := sorted_keys slides_content in
  for_each (distribute_body slide_numbers) slides_content (PySeq.range image_count).

(** The names of the images [1..image_count] whose turn, counted from
    zero, falls on index [k] of [slide_count] slides. *)
Definition images_for_index (slide_count : Z) (k : nat) (image_count : Z)
    : list string :=
  png_name <$> filter (λ i, (i - 1) mod slide_count = Z.of_nat k) (seqZ 1 image_count).


(** The dictionary after the first [j] images: the slide at index [k] of
    the sorted slide numbers has gained the images whose turn fell on
    [k], and no key was added. *)
Definition distributed (slides_content : gmap Z slide_data) (j : nat)
    (m : gmap Z slide_data) : Prop :=
  let slide_numbers := sorted_keys slides_content in
  let n := PySeq.len slide_numbers in
  (∀ (k : nat) num sd,
     slide_numbers !! k = Some num → slides_content !! num = Some sd →
     m !! num = Some (SlideData (title sd) (content sd)
                        (images sd ++ images_for_index n k (Z.of_nat j))))
  ∧ (∀ num, slides_content !! num = None → m !! num = None).

End Distributor.

(** ** Package assembler: [create_placeholder_slide], [create_pptx_structure] *)

Module Assembler.
Import Segmenter.

(** The generated parts are modelled by the values interpolated into the
    XML templates, one record per emitted element. *)

(** A [<p:sp>] text shape: [id], [name], vertical offset and run text. *)
Record text_shape : Type := TextShape {
  ts_id : Z;
  ts_name : string;
  ts_y : Z;
  ts_text : string
}.

(** A [<p:pic>]: [id], [name], the [r:embed] of its [<a:blip>] and its
    offset. *)
Record picture : Type := Picture {
  pic_id : Z;
  pic_name : string;
  pic_embed : string;
  pic_x : Z;
  pic_y : Z
}.

Record slide_part : Type := SlidePart {
  sp_title : string;
  sp_texts : list text_shape;
  sp_pics : list picture
}.

(** A [<Relationship>] of image type in a slide's relationship part. *)
Record relationship : Type := Relationship {
  rel_id : string;
  rel_target : string
}.

(** The escape of one character, and of a text character by character:
    what the specification asks of the three replacements together. *)
Definition escape_char (c : ascii) : string :=
  if decide (c = "&"%char) then "&amp;"
  else if decide (c = "<"%char) then "&lt;"
  else if decide (c = ">"%char) then "&gt;"
  else String c EmptyString.

Fixpoint escape_all (s : string) : string :=
  match s with
  | EmptyString => EmptyString
  | String c s' => escape_char c +:+ escape_all s'
  end.

(** [.replace('&', '&amp;').replace('<', '&lt;').replace('>', '&gt;')] *)
Definition sanitize (s : string) : string :=
  PyStr.replace_char ">" "&gt;"
    (PyStr.replace_char "<" "&lt;" (PyStr.replace_char "&" "&amp;" s)).

(** The sanitized text, cut to [limit] characters when longer. *)
Definition limit_text (limit : nat) (s : string) : string :=
  if Z.of_nat limit <? PyStr.len s
  then PyStr.slice_to s (limit - 3) +:+ "..."
  else s.

Definition title_text (title : string) : string :=
  limit_text 100 (sanitize title).

Definition body_text (para : string) : string :=
  limit_text 1000 (sanitize para).

(** [f"rId{rid}"] *)
Definition rid_name (rid : Z) : string := "rId" +:+ PyStr.of_int rid.

Definition create_placeholder_slide (slide_num : Z) (title : string)
    (content_paragraphs images : list string)
    : slide_part * list relationship :=
  let title := title_text title in
  let max_content_paragraphs := Z.min 8 (PySeq.len content_paragraphs) in
  let texts :=
    (fun '(i, para) =>
       let y_pos := 1500000 + i * 600000 in
       let text := body_text para in
       TextShape (i + 3) ("Text " +:+ PyStr.of_int (i + 1)) y_pos text)
    <$> PySeq.enumerate (PySeq.slice_to content_paragraphs max_content_paragraphs) in
  let max_images := Z.min 4 (PySeq.len images) in
  let pics :=
    (fun '(i, img_file) =>
       let row := i / 2 in
       let col := i mod 2 in
       let x_pos := 1388800 + col * 4000000 in
       let y_pos := 5000000 + row * 2000000 in
       let rid := i + 1 in
       Picture (i + 20) ("Picture " +:+ PyStr.of_int (i + 1)) (rid_name rid)
               x_pos y_pos)
    <$> PySeq.enumerate (PySeq.slice_to images max_images) in
  let slide_rels :=
    (fun '(i, img_file) =>
       let rid := i + 1 in
       Relationship (rid_name rid) ("../media/" +:+ img_file))
    <$> PySeq.enumerate (PySeq.slice_to images max_images) in
  (SlidePart title texts pics, slide_rels).

(** A file of a package's [ppt/media] directory: a copy of a file of the
    media store, or the image drawn by [create_placeholder_image], whose
    caption is the file name it stands for. *)
Inductive media_file : Type :=
  | Copied (image_data : Carver.bytes)
  | PlaceholderImage (img_name : string).

(** What the directory [part_<n>] holds when [create_pptx_structure] is
    called: it is created with [exist_ok=True] and never emptied, and
    with [--extract-dir] it is kept after the run, so it may hold the
    slide files ([slide<k>.xml] with its relationship part, by [k]) and
    the media files of an earlier call. *)
Record part_dir : Type := PartDir {
  pd_slides : gmap Z (slide_part * list relationship);
  pd_media : gmap string media_file
}.

(** A directory that was just created. *)
Definition empty_dir : part_dir := PartDir ∅ ∅.

Record package : Type := Package {
  pk_part_num : Z;
  (** slide part names overridden in [[Content_Types].xml] *)
  pk_overrides : list string;
  (** [(id, r:id)] of each [<p:sldId>] of [presentation.xml] *)
  pk_slide_ids : list (Z * string);
  (** [(Id, Target)] of each entry of [presentation.xml.rels] *)
  pk_pres_rels : list (string * string);
  (** [slide<i+1>.xml] with [slide<i+1>.xml.rels] as this call writes
      them, in order *)
  pk_slides : list (slide_part * list relationship);
  (** the slide files of an earlier call that this call does not
      overwrite, by the number in their name *)
  pk_stale_slides : gmap Z (slide_part * list relationship);
  (** the files of [ppt/media], by name *)
  pk_media : gmap string media_file
}.

(** The file that the copy loop leaves under the name [img_file]. *)
Definition media_for (store : gmap string Carver.bytes) (img_file : string)
    : media_file :=
  match store !! img_file with
  | Some image_data => Copied image_data
  | None => PlaceholderImage img_file
  end.

(** One step of the copy loop. *)
Definition copy_image (store : gmap string Carver.bytes)
    (media : gmap string media_file) (img_file : string) : gmap string media_file :=
  match store !! img_file with
  | Some image_data => <[img_file := Copied image_data]> media
  | None => <[img_file := PlaceholderImage img_file]> media
  end.

(** The slide written for [slide_num], with the images it uses. *)
Definition slide_for (current_slides : gmap Z slide_data) (slide_num : Z)
    : (slide_part * list relationship) * list string :=
  match current_slides !! slide_num with
  | None =>
      (create_placeholder_slide slide_num
         ("Recovered Slide " +:+ PyStr.of_int slide_num) [] [], [])
  | Some slide_data =>
      (create_placeholder_slide slide_num (title slide_data)
         (content slide_data) (images slide_data), images slide_data)
  end.

(** [store] is the content of [extract_dir/ppt/media] and [old] that of
    [extract_dir/part_<part_num>] when the function is called. Every
    file the function writes is opened for writing, so it replaces a
    file of the same name; the other files of [old] stay. The iteration
    order of [set(all_used_images)] is not fixed by the language; the
    loop writes one file per name, so every order gives the same
    directory, and the model takes the names in order of first use. *)
Definition create_pptx_structure (store : gmap string Carver.bytes)
    (old : part_dir)
    (slides_content : gmap Z slide_data) (part_num start_slide end_slide : Z)
    : package :=
  let slide_range := seqZ start_slide (end_slide + 1 - start_slide) in
  let overrides :=
    (fun '(i, slide_num) => "/ppt/slides/slide" +:+ PyStr.of_int (i + 1) +:+ ".xml")
    <$> PySeq.enumerate slide_range in
  let slide_ids :=
    (fun '(i, slide_num) => (256 + i, rid_name (1000 + i)))
    <$> PySeq.enumerate slide_range in
  let pres_rels :=
    (fun '(i, slide_num) =>
       (rid_name (1000 + i), "slides/slide" +:+ PyStr.of_int (i + 1) +:+ ".xml"))
    <$> PySeq.enumerate slide_range in
  let current_slides := restrict_to slides_content slide_range in
  let written := slide_for current_slides <$> slide_range in
  let all_used_images := mjoin (written.*2) in
  let stale_slides :=
    filter (λ kv, ¬ (1 ≤ kv.1 ≤ PySeq.len slide_range)) (pd_slides old) in
  let media :=
    foldl (copy_image store) (pd_media old) (remove_dups all_used_images) in
  Package part_num overrides slide_ids pres_rels (written.*1) stale_slides media.

End Assembler.

(** ** The pipeline: [create_pptx] and [main] *)

Module Pipeline.
Import Exn Segmenter Assembler.

(** The numeric options, and whether [--extract-dir] was given. *)
Record args : Type := Args {
  max_slides : Z;
  slides_per_file : Z;
  max_files : Z;
  extract_dir_given : bool
}.

(** The file system's part in a run: whether writing the directory of
    part [n], or zipping it, raises; and what the directory [part_<n>]
    of a working directory given with [--extract-dir] holds before the
    run. *)
Record io_env : Type := IoEnv {
  build_raises : Z → bool;
  zip_raises : Z → bool;
  part_dirs : Z → part_dir
}.

(** The directory [part_<n>] before the run: a directory made by
    [tempfile.mkdtemp] is new, so nothing is in it. *)
Definition part_dir_before (a : args) (env : io_env) (n : Z) : part_dir :=
  if extract_dir_given a then part_dirs env n else empty_dir.

(** What a run does, in order. *)
Inductive event : Type :=
  | BuiltPackage (pk : package)
  | WroteArchive (part_num : Z)
  | LoggedFailedFile (part_num : Z)
  | RemovedPartDir (part_num : Z)
  | LoggedNoSlideContent
  | RemovedWorkDir.

(** The part numbers of the archives a run wrote. *)
Definition written_parts (log : list event) : list Z :=
  omap (λ e, match e with WroteArchive n => Some n | _ => None end) log.

(** [create_pptx] returns [True] or raises; it has no path that returns
    [False]. *)
Definition create_pptx (env : io_env) (part_num : Z) : outcome bool :=
  if zip_raises env part_num then Raise OSError else Return true.

(** The splitter's arithmetic: [(slides_per_file, num_files)]. *)
Definition split_plan (total_slides slides_per_file max_files : Z)
    : outcome (Z * Z) :=
  let slides_per_file := Z.min slides_per_file total_slides in
  q ← floordiv (total_slides + slides_per_file - 1) slides_per_file;
  let desired_files := Z.min max_files q in
  slides_per_file ← floordiv (total_slides + desired_files - 1) desired_files;
  num_files ← floordiv (total_slides + slides_per_file - 1) slides_per_file;
  mret (slides_per_file, num_files).

(** [slide_numbers[i * slides_per_file:min((i+1) * slides_per_file, total_slides)]] *)
Definition file_slide_numbers_of (slide_numbers : list Z) (slides_per_file i : Z)
    : list Z :=
  PySeq.slice slide_numbers (i * slides_per_file)
    (Z.min ((i + 1) * slides_per_file) (PySeq.len slide_numbers)).

(** [{slide_mapping[num]: slides_content[num] for num in file_slide_numbers}]
    with [slide_mapping = {original: i+1 for i, original in enumerate(...)}] *)
Definition file_content_of (slides_content : gmap Z slide_data)
    (file_slide_numbers : list Z) : gmap Z slide_data :=
  list_to_map
    (omap (fun '(i, num) => (fun v => (i + 1, v)) <$> slides_content !! num)
          (PySeq.enumerate file_slide_numbers)).

Section Run.

Variables (a : args) (env : io_env).
Variable store : gmap string Carver.bytes.
Variable slides_content : gmap Z slide_data.
Variable slide_numbers : list Z.
Variable slides_per_file' : Z.

(** The [for i in range(num_files)] loop; the log is threaded through
    and an exception ends the loop. *)
Fixpoint archive_loop (indices : list Z) (log : list event)
    : list event * outcome unit :=
  match indices with
  | [] => (log, Return ())
  | i :: rest =>
      let file_slide_numbers :=
        file_slide_numbers_of slide_numbers slides_per_file' i in
      match file_slide_numbers with
      | [] => archive_loop rest log
      | _ =>
          let file_content := file_content_of slides_content file_slide_numbers in
          if build_raises env (i + 1) then (log, Raise OSError)
          else
            let pptx_dir :=
              create_pptx_structure store
                (part_dir_before a env (i + 1))
                file_content (i + 1) 1
                (PySeq.len file_slide_numbers) in
            let log := log ++ [BuiltPackage pptx_dir] in
            match create_pptx env (i + 1) with
            | Raise e => (log, Raise e)
            | Return false =>
                archive_loop rest (log ++ [LoggedFailedFile (i + 1)])
            | Return true =>
                let log := log ++ [WroteArchive (i + 1)] in
                let log :=
                  if extract_dir_given a then log
                  else log ++ [RemovedPartDir (i + 1)] in
                archive_loop rest log
            end
      end
  end.

End Run.

(** The body of the [try] block, from the results of the carver
    ([image_count] and the media [store]) and of the text extraction
    ([text_paragraphs]). *)
Definition main_try (a : args) (env : io_env) (image_count : Z)
    (store : gmap string Carver.bytes) (text_paragraphs : list string)
    : list event * outcome Z :=
  let max_slides := Z.min 100 (max_slides a) in
  let slides_content := organize_text_into_slides text_paragraphs max_slides in
  match Distributor.distribute_images slides_content image_count with
  | Raise e => ([], Raise e)
  | Return slides_content =>
      let slide_numbers := sorted_keys slides_content in
      let total_slides := PySeq.len slide_numbers in
      if decide (total_slides = 0) then ([LoggedNoSlideContent], Return 1)
      else
        match split_plan total_slides (slides_per_file a) (max_files a) with
        | Raise e => ([], Raise e)
        | Return (slides_per_file, num_files) =>
            match archive_loop a env store slides_content slide_numbers
                    slides_per_file (PySeq.range num_files) [] with
            | (log, Raise e) => (log, Raise e)
            | (log, Return _) => (log, Return 0)
            end
        end
  end.

(** [main]: the [try] block, then the [finally] clause, which removes the
    working directory unless the caller supplied it. *)
Definition main (a : args) (env : io_env) (image_count : Z)
    (store : gmap string Carver.bytes) (text_paragraphs : list string)
    : list event * outcome Z :=
  let '(log, result) := main_try a env image_count store text_paragraphs in
  let log := if extract_dir_given a then log else log ++ [RemovedWorkDir] in
  (log, result).

End Pipeline.

(** ** Further definitions used by the additional properties *)

Module Geometry.

(** The literals of the templates: the slide size declared by
    [<p:sldSz>] in [presentation.xml], the extent [<a:ext>] of every
    picture, and the ids of the group shape and of the title shape. *)
Definition slide_cx : Z := 12192000.
Definition slide_cy : Z := 6858000.
Definition pic_cx : Z := 3000000.
Definition pic_cy : Z := 2000000.
Definition group_shape_id : Z := 1.
Definition title_shape_id : Z := 2.

(** A picture lies between the left and the right edge of the slide. *)
Definition within_width (pic : Assembler.picture) : Prop :=
  0 ≤ Assembler.pic_x pic ∧ Assembler.pic_x pic + pic_cx ≤ slide_cx.

(** A picture starts on the slide and extends below its bottom edge. *)
Definition overhangs_bottom (pic : Assembler.picture) : Prop :=
  0 ≤ Assembler.pic_y pic ∧ Assembler.pic_y pic < slide_cy
  ∧ slide_cy < Assembler.pic_y pic + pic_cy.

(** A picture starts below the bottom edge of the slide. *)
Definition below_slide (pic : Assembler.picture) : Prop :=
  slide_cy < Assembler.pic_y pic.

End Geometry.

Module Chars.

(** [c in s] for a character [c]. *)
Fixpoint mem_char (c : ascii) (s : string) : bool :=
  match s with
  | EmptyString => false
  | String c' s' => bool_decide (c' = c) || mem_char c s'
  end.

(** Every character of [s] satisfies [P]. *)
Fixpoint all_chars (P : ascii → bool) (s : string) : bool :=
  match s with
  | EmptyString => true
  | String c s' => P c && all_chars P s'
  end.

End Chars.

Module Renumbering.

(** The entry that [file_content] gets for the element [num] at index [i]
    of [file_slide_numbers]. *)
Definition remap_entry (slides_content : gmap Z Segmenter.slide_data)
    : Z * Z → option (Z * Segmenter.slide_data) :=
  λ '(i, num), (λ v, (i + 1, v)) <$> slides_content !! num.

End Renumbering.

Module CarverFiles.
Import Carver.

(** [f"image_{n}<ext>"] *)
Definition file_name (ext : string) (n : Z) : string :=
  "image_" +:+ PyStr.of_int n +:+ ext.

(** The file names of the accepted candidates, in order. *)
Definition written (cands : list candidate) : list string := omap c_file cands.

(** The bytes of a candidate: [data[c_start:c_end]]. *)
Definition blob (data : bytes) (c : candidate) : bytes :=
  PySeq.slice data (c_start c) (c_end c).

(** The effect of one candidate on the media store. *)
Definition write_candidate (data : bytes) (store : gmap string bytes)
    (c : candidate) : gmap string bytes :=
  match c_file c with
  | Some name => <[name := blob data c]> store
  | None => store
  end.

(** What a scan adds to a state: the candidates [new], one file per
    accepted candidate, numbered on from the count it started with. *)
Definition scan_adds (image_ok : bytes → bool) (data : bytes) (ext : string)
    (base : Z) (st : scan_state) (new : list candidate) (st' : scan_state) : Prop :=
  st_cands st' = st_cands st ++ new
  ∧ st_count st' = st_count st + PySeq.len (written new)
  ∧ (∀ (k : nat) name,
       written new !! k = Some name →
       name = file_name ext (base + st_count st + Z.of_nat k + 1))
  ∧ st_store st' = foldl (write_candidate data) (st_store st) new
  ∧ Forall (λ c, is_Some (c_file c) ↔ image_ok (blob data c) = true) new.

End CarverFiles.

Module Boundaries.
Import Segmenter.

(** The test of the initial pass on one enumerated fragment. *)
Definition boundary_test (paragraphs : list string) (x : Z * string) : bool :=
  is_likely_title x.2
  || ((0 <? x.1) && (PyStr.len x.2 <? 50)
      && (PyStr.len (PySeq.item paragraphs (x.1 - 1)) <? 3)).

(** The test of the widening pass on one fragment. *)
Definition ends_sentence (para : string) : bool :=
  PyStr.endswith (PyStr.strip para) ":" || PyStr.endswith (PyStr.strip para) ".".

(** Every text of a slide dictionary is taken from [paragraphs], except a
    title [Slide <n>] under its own number; no group has images. *)
Definition from_input (paragraphs : list string) (m : gmap Z slide_data) : Prop :=
  ∀ n sd, m !! n = Some sd →
    Forall (λ p, p ∈ paragraphs) (content sd)
    ∧ (title sd ∈ paragraphs ∨ title sd = slide_title n)
    ∧ images sd = [].

End Boundaries.

(** ** Text extractor: [extract_text_from_binary]

    The extractor is modelled on [text_data], the text that decoding the
    file gave; the patterns and the clean-up are the code's. *)

Module Extractor.
Import PyStr.

(** Offset of the first occurrence of [pat] in [s], if any. *)
Fixpoint find_sub (pat : string) (s : string) : option nat :=
  match s with
  | EmptyString => if String.prefix pat EmptyString then Some 0%nat else None
  | String _ s' =>
      if String.prefix pat s then Some 0%nat else S <$> find_sub pat s'
  end.

(** The match of [<a:t[^>]*>(.*?)</a:t>] (with [re.DOTALL]) that starts
    at the head of [s]: its group and its length. The attribute part
    [[^>]*] runs up to the first [>], the lazy group up to the first
    closing tag after it. *)
Definition tag_match (s : string) : option (string * nat) :=
  if String.prefix "<a:t" s then
    let rest := drop 4 s in
    match find_sub ">" rest with
    | Some j =>
        let body := drop (S j) rest in
        match find_sub "</a:t>" body with
        | Some k => Some (take k body, (4 + j + 1 + k + 6)%nat)
        | None => None
        end
    | None => None
    end
  else None.

(** [re.findall(pattern, text_data, re.DOTALL)]: the groups of the
    matches, leftmost first and not overlapping; [skip] characters of
    the last match are still to be passed. *)
Fixpoint findall_tags (skip : nat) (s : string) : list string :=
  match s with
  | EmptyString => []
  | String _ s' =>
      match skip with
      | S k => findall_tags k s'
      | O =>
          match tag_match s with
          | Some (group, n) => group :: findall_tags (Nat.pred n) s'
          | None => findall_tags 0 s'
          end
      end
  end.

(** The character class of the plain-text pattern: ASCII letters and
    digits, the white space of [\s], and the eleven punctuation marks
    full stop, comma, semicolon, colon, question mark, exclamation mark,
    apostrophe, double quote, hyphen, underscore and ampersand. *)
Definition plain_char (c : ascii) : bool :=
  in_range 65 90 c || in_range 97 122 c || in_range 48 57 c || isspace c
  || bool_decide (ord c ∈ [46; 44; 59; 58; 63; 33; 39; 34; 45; 95; 38]%N).

(** A finished run of class characters ([cur], reversed) is a match when
    it has at least 10 characters. *)
Definition plain_run (cur : string) : list string :=
  if (10 <=? String.length cur)%nat then [String.rev cur] else [].

(** [re.findall(plain_text_pattern, text_data)]: the maximal runs of
    class characters that have at least 10 characters. *)
Fixpoint findall_plain (cur : string) (s : string) : list string :=
  match s with
  | EmptyString => plain_run cur
  | String c s' =>
      if plain_char c then findall_plain (String c cur) s'
      else plain_run cur ++ findall_plain EmptyString s'
  end.

Definition startswith (s pre : string) : bool := String.prefix pre s.

(** The first loop: strip, skip what is too short or looks like code. *)
Definition tag_texts (matches : list string) : list string :=
  omap (fun m =>
          let text := strip m in
          if (len text <? 3) || startswith text "<?xml" then None
          else Some text)
       matches.

(** The second loop. *)
Definition plain_texts (plain_matches : list string) : list string :=
  omap (fun m => if 10 <=? len (strip m) then Some (strip m) else None)
       plain_matches.

(** The last loop: remove duplicates, keeping first occurrences. *)
Fixpoint unique (seen : gset string) (text_content : list string) : list string :=
  match text_content with
  | [] => []
  | text :: rest =>
      if decide (text ∈ seen) then unique seen rest
      else text :: unique ({[text]} ∪ seen) rest
  end.

(** The first occurrence of [pat] in [s] followed by [pat] is the one
    that follows [s]: none starts inside [s]. *)
Definition first_after (pat s : string) : Prop :=
  find_sub pat (s +:+ pat) = Some (String.length s).

Definition extract_text_from_binary (text_data : string) : list string :=
  let text_content :=
    tag_texts (findall_tags 0 text_data)
    ++ plain_texts (findall_plain EmptyString text_data) in
  unique ∅ text_content.

End Extractor.

(** * Properties *)

(** ** Slices *)

Section SliceFacts.
Context {A : Type}.
Implicit Types l : list A.

Lemma slice_nonneg l (a b : Z) :
  0 ≤ a ≤ b → b ≤ PySeq.len l →
  PySeq.slice l a b = take (Z.to_nat (b - a)) (drop (Z.to_nat a) l).
Proof.
  intros Ha Hb. unfold PySeq.slice, PySeq.clamp_index, PySeq.len in *.
  repeat case_decide; try lia.
  by rewrite !Z.min_l by lia.
Qed.

Lemma length_slice_nonneg l (a b : Z) :
  0 ≤ a ≤ b → b ≤ PySeq.len l → PySeq.len (PySeq.slice l a b) = b - a.
Proof.
  intros Ha Hb. rewrite slice_nonneg by done.
  unfold PySeq.len in *. rewrite length_take, length_drop. lia.
Qed.


Lemma slice_to_short l (b : Z) : PySeq.len l ≤ b → PySeq.slice_to l b = l.
Proof.
  intros Hb. unfold PySeq.slice_to, PySeq.slice, PySeq.clamp_index, PySeq.len in *.
  repeat case_decide; try lia.
  rewrite (Z.min_l 0), (Z.min_r b) by lia. change (Z.to_nat 0) with 0%nat.
  rewrite drop_0, Z.sub_0_r, Nat2Z.id. by rewrite firstn_all.
Qed.

Lemma slice_to_take l (b : Z) :
  0 ≤ b → PySeq.slice_to l b = take (Z.to_nat b) l.
Proof.
  intros Hb. unfold PySeq.slice_to, PySeq.slice, PySeq.clamp_index, PySeq.len.
  repeat case_decide; try lia.
  rewrite (Z.min_l 0) by lia. change (Z.to_nat 0) with 0%nat.
  rewrite drop_0, Z.sub_0_r.
  destruct (Z.le_ge_cases b (Z.of_nat (length l))).
  - by rewrite (Z.min_l b) by lia.
  - rewrite Z.min_r by lia. rewrite Nat2Z.id.
    rewrite !take_ge; [done | lia..].
Qed.


End SliceFacts.

(** ** The splitter *)

Section Splitter.
Import Exn Pipeline.

(** Ceiling division by a positive divisor: the quotient is the least
    multiple count that covers the dividend. *)
Lemma ceil_div_bounds (t d : Z) :
  1 ≤ t → 1 ≤ d →
  let q := (t + d - 1) / d in 1 ≤ q ∧ t ≤ q * d ∧ (q - 1) * d < t.
Proof.
  intros Ht Hd q. subst q.
  pose proof (Z.div_mod (t + d - 1) d ltac:(lia)) as Hdm.
  pose proof (Z.mod_pos_bound (t + d - 1) d ltac:(lia)) as Hm.
  nia.
Qed.


Lemma written_parts_app log1 log2 :
  written_parts (log1 ++ log2) = written_parts log1 ++ written_parts log2.
Proof. unfold written_parts. apply omap_app. Qed.

(** With a file system that never fails, the loop writes one archive per
    non-empty slice, numbered by the loop index plus one. *)
Lemma archive_loop_writes_all (a : args) (env : io_env) store slides_content
    (slide_numbers : list Z) (spf : Z) (indices : list Z) (log : list event) :
  (∀ n, build_raises env n = false) → (∀ n, zip_raises env n = false) →
  Forall (λ i, file_slide_numbers_of slide_numbers spf i ≠ []) indices →
  ∃ log',
    archive_loop a env store slides_content slide_numbers spf indices log
    = (log', Return ())
    ∧ written_parts log' = written_parts log ++ ((λ i, i + 1) <$> indices).
Proof.
  intros Hb Hz Hne. revert log.
  induction Hne as [|i indices Hi _ IH]; intros log.
  - exists log. split; [done|]. by rewrite app_nil_r.
  - simpl. destruct (file_slide_numbers_of slide_numbers spf i) eqn:Hs; [done|].
    rewrite Hb. unfold create_pptx. rewrite Hz.
    match goal with |- context [archive_loop _ _ _ _ _ _ _ ?l] =>
      destruct (IH l) as (log' & Hrun & Hparts) end.
    exists log'. split; [done|]. rewrite Hparts.
    destruct (extract_dir_given a);
      rewrite !written_parts_app; simpl; rewrite ?app_nil_r, <- ?app_assoc; done.
Qed.

End Splitter.




(** ** The segmenter *)

Section LoopInvariants.
Context {S A : Type}.

Lemma foldl_preserves (P : S → Prop) (f : S → A → S) (st : S) (l : list A) :
  P st → (∀ st x, P st → P (f st x)) → P (foldl f st l).
Proof. intros H0 Hstep. revert st H0. induction l; simpl; auto. Qed.

End LoopInvariants.

Lemma omap_cons_eq {A B : Type} (f : A → option B) (x : A) (l : list A) :
  omap f (x :: l)
  = match f x with Some y => y :: omap f l | None => omap f l end.
Proof. reflexivity. Qed.

Section DictFacts.
Context {V : Type}.
Implicit Types m : gmap Z V.
Import Segmenter.

Lemma restrict_to_lookup m (keep : list Z) (n : Z) :
  restrict_to m keep !! n = if decide (n ∈ keep) then m !! n else None.
Proof.
  unfold restrict_to. induction keep as [|k keep IH].
  - simpl. rewrite lookup_empty.
    by destruct (decide (n ∈ [])) as [?%elem_of_nil|].
  - assert (Hcons : ∀ P Q : Prop, (P ↔ Q) → ∀ (dP : Decision P) (dQ : Decision Q)
              (x y : option V), (if dP then x else y) = (if dQ then x else y)).
    { intros P Q HPQ [?|?] [?|?] x y; tauto. }
    rewrite omap_cons_eq. destruct (m !! k) as [v|] eqn:Hk; simpl.
    + destruct (decide (k = n)) as [->|Hne].
      * rewrite lookup_insert_eq. destruct (decide (n ∈ n :: keep)) as [|[]]; [done|left].
      * rewrite lookup_insert_ne by done. rewrite IH.
        apply Hcons. rewrite elem_of_cons.
        split; [by right | by intros [->|?]].
    + rewrite IH. destruct (decide (k = n)) as [->|Hne].
      * rewrite Hk. by repeat case_decide.
      * apply Hcons. rewrite elem_of_cons.
        split; [by right | by intros [->|?]].
Qed.

Lemma Sorted_seqZ (a : Z) (n : nat) : Sorted Z.le (seqZ a (Z.of_nat n)).
Proof.
  revert a. induction n as [|n IH]; intros a.
  - constructor.
  - rewrite seqZ_cons by lia. constructor.
    + replace (Z.pred (Z.of_nat (Datatypes.S n))) with (Z.of_nat n) by lia. apply IH.
    + replace (Z.pred (Z.of_nat (Datatypes.S n))) with (Z.of_nat n) by lia.
      destruct n; [constructor|]. rewrite seqZ_cons by lia. constructor. lia.
Qed.

(** The keys of a map whose domain is [1..k], sorted, are [1; ...; k]. *)
Lemma sorted_keys_dense m (k : Z) :
  dense m k → sorted_keys m = seqZ 1 k.
Proof.
  intros [Hk Hdom]. unfold sorted_keys, PySeq.sorted.
  apply (Sorted_unique Z.le).
  - apply Sorted_merge_sort. apply _.
  - rewrite <- (Z2Nat.id k) by done. apply Sorted_seqZ.
  - rewrite merge_sort_Permutation. apply NoDup_Permutation.
    + apply NoDup_fst_map_to_list.
    + apply NoDup_seqZ.
    + intros n. rewrite elem_of_seqZ, list_elem_of_fmap. split.
      * intros [[n' v] [-> Hin]]. apply elem_of_map_to_list in Hin.
        assert (is_Some (m !! n')) as Hs by (by eexists).
        apply Hdom in Hs. simpl. lia.
      * intros Hn. destruct (proj2 (Hdom n)) as [v Hv]; [lia|].
        exists (n, v). split; [done|]. by apply elem_of_map_to_list.
Qed.

Lemma size_dense m (k : Z) : dense m k → Z.of_nat (size m) = k.
Proof.
  intros Hd. pose proof (sorted_keys_dense m k Hd) as Hs.
  apply (f_equal length) in Hs. destruct Hd as [Hk _].
  unfold sorted_keys, PySeq.sorted in Hs.
  rewrite merge_sort_Permutation, length_fmap, length_map_to_list, length_seqZ in Hs.
  lia.
Qed.

End DictFacts.

Lemma take_seqZ (a k n : Z) :
  0 ≤ n ≤ k → take (Z.to_nat n) (seqZ a k) = seqZ a n.
Proof.
  intros Hn. replace k with (n + (k - n)) by lia.
  rewrite seqZ_app by lia.
  apply take_app_length'. rewrite length_seqZ. done.
Qed.

Lemma elem_of_slice {A : Type} (l : list A) (a b : Z) (x : A) :
  x ∈ PySeq.slice l a b → x ∈ l.
Proof.
  unfold PySeq.slice. intros Hx.
  apply subseteq_take in Hx. by apply subseteq_drop in Hx.
Qed.

Section SegmenterInvariants.
Import Segmenter.

Lemma dense_empty {V : Type} : dense (∅ : gmap Z V) 0.
Proof.
  split; [done|]. intros n. rewrite lookup_empty. split.
  - by intros [? ?].
  - lia.
Qed.

Lemma dense_insert {V : Type} (m : gmap Z V) (k : Z) (v : V) :
  dense m (k - 1) → dense (<[k := v]> m) k.
Proof.
  intros [Hk Hdom]. split; [lia|]. intros n.
  destruct (decide (k = n)) as [->|Hne].
  - rewrite lookup_insert_eq. split; [lia | by eexists].
  - rewrite lookup_insert_ne by done. rewrite Hdom. lia.
Qed.

Lemma chunk_body_numbered paragraphs pps st i :
  numbered st → numbered (chunk_body paragraphs pps st i).
Proof.
  destruct st as [m cs]. unfold numbered, chunk_body. simpl. intros Hd.
  destruct (PySeq.slice paragraphs i (i + pps)) as [|first rest]; [done|].
  case_decide; [done|]. simpl.
  replace (cs + 1 - 1) with cs by lia. by apply dense_insert.
Qed.

Lemma title_body_numbered paragraphs title_indices st i :
  numbered st → numbered (title_body paragraphs title_indices st i).
Proof.
  destruct st as [m cs]. unfold numbered, title_body. simpl. intros Hd.
  destruct (PySeq.slice paragraphs _ _); [done|]. simpl.
  replace (cs + 1 - 1) with cs by lia. by apply dense_insert.
Qed.

Lemma chunk_body_titled paragraphs pps st i :
  titled_when_empty paragraphs st.1 →
  titled_when_empty paragraphs (chunk_body paragraphs pps st i).1.
Proof.
  destruct st as [m cs]. unfold chunk_body. simpl. intros Hinv.
  destruct (PySeq.slice paragraphs i (i + pps)) as [|first rest] eqn:Hs; [done|].
  case_decide as Hskip; [done|]. simpl.
  intros n sd Hn Hempty.
  destruct (decide (cs = n)) as [->|Hne].
  - rewrite lookup_insert_eq in Hn. injection Hn as <-. simpl in *.
    assert (first ∈ paragraphs) as Hin.
    { apply (elem_of_slice _ i (i + pps)). rewrite Hs. left. }
    destruct (PyStr.len first <? 60) eqn:Hlen.
    + apply Z.ltb_lt in Hlen. rewrite decide_True in Hempty by done.
      subst rest. split_and!; [|done|done].
      intros Heq. apply Hskip. by rewrite decide_True.
    + destruct (decide (first = slide_title n)) as [Heq|Hneq]; [|done].
      exfalso. apply Hskip. done.
  - rewrite lookup_insert_ne in Hn by done. by apply Hinv.
Qed.

Lemma title_body_nonempty paragraphs title_indices st i :
  bodies_nonempty st.1 →
  bodies_nonempty (title_body paragraphs title_indices st i).1.
Proof.
  destruct st as [m cs]. unfold title_body. simpl. intros Hinv.
  destruct (PySeq.slice paragraphs _ _) as [|x xs] eqn:Hs; [done|]. simpl.
  intros n sd Hn.
  destruct (decide (cs = n)) as [->|Hne].
  - rewrite lookup_insert_eq in Hn. by injection Hn as <-.
  - rewrite lookup_insert_ne in Hn by done. by apply (Hinv n).
Qed.

End SegmenterInvariants.

Section SegmenterResult.
Import Segmenter.

Lemma segment_loops_numbered paragraphs max_slides :
  numbered (segment_loops paragraphs max_slides).
Proof.
  assert (numbered (∅, 1)) as H0 by apply dense_empty.
  unfold segment_loops. destruct (uses_chunks _).
  - apply foldl_preserves; [done|]. intros. by apply chunk_body_numbered.
  - apply foldl_preserves; [done|]. intros. by apply title_body_numbered.
Qed.

Lemma segment_loops_empty_bodies paragraphs max_slides :
  let title_indices := title_indices_of paragraphs max_slides in
  let m := (segment_loops paragraphs max_slides).1 in
  if uses_chunks title_indices then titled_when_empty paragraphs m
  else bodies_nonempty m.
Proof.
  unfold segment_loops. simpl. destruct (uses_chunks _).
  - apply (foldl_preserves (λ st, titled_when_empty paragraphs st.1)).
    + intros n sd Hn. simpl in Hn. by rewrite lookup_empty in Hn.
    + intros. by apply chunk_body_titled.
  - apply (foldl_preserves (λ st, bodies_nonempty st.1)).
    + intros n sd Hn. simpl in Hn. by rewrite lookup_empty in Hn.
    + intros. by apply title_body_nonempty.
Qed.

(** Every group the segmenter returns is a group of the loop, under the
    same number. *)
Lemma organize_lookup paragraphs max_slides n sd :
  organize_text_into_slides paragraphs max_slides !! n = Some sd →
  (segment_loops (preprocess paragraphs max_slides) max_slides).1 !! n = Some sd.
Proof.
  unfold organize_text_into_slides. simpl. destruct (_ <? _); [|done].
  rewrite restrict_to_lookup. by case_decide.
Qed.

End SegmenterResult.

(** C3. For every fragment sequence and every maxSlides >= 1, the slide
    numbers of the groups the segmenter returns, in sorted order, are the
    list 1, 2, ..., K for some 0 <= K <= maxSlides: a dense range without
    gaps or duplicates. *)
Theorem segmenter_numbers_dense (paragraphs : list string) (max_slides : Z) :
  1 ≤ max_slides →
  ∃ K, 0 ≤ K ≤ max_slides
    ∧ Segmenter.sorted_keys (Segmenter.organize_text_into_slides paragraphs max_slides)
      = seqZ 1 K
    ∧ Segmenter.dense (Segmenter.organize_text_into_slides paragraphs max_slides) K.
Proof.
  intros Hmax. unfold Segmenter.organize_text_into_slides.
  pose proof (segment_loops_numbered (Segmenter.preprocess paragraphs max_slides) max_slides)
    as Hnum.
  destruct (Segmenter.segment_loops _ _) as [m cs].
  unfold Segmenter.numbered in Hnum. simpl in *.
  pose proof (size_dense _ _ Hnum) as Hsize.
  pose proof (proj1 Hnum) as Hcs.
  destruct (max_slides <? Z.of_nat (size m)) eqn:Hcmp.
  - apply Z.ltb_lt in Hcmp. exists max_slides.
    rewrite (sorted_keys_dense _ _ Hnum), slice_to_take, take_seqZ by lia.
    assert (Segmenter.dense (Segmenter.restrict_to m (seqZ 1 max_slides)) max_slides)
      as Hd.
    { split; [lia|]. intros n. rewrite restrict_to_lookup.
      destruct Hnum as [_ Hdom]. case_decide as Hin.
      - apply elem_of_seqZ in Hin. rewrite Hdom. lia.
      - rewrite elem_of_seqZ in Hin. split; [by intros [? ?] | lia]. }
    split_and!; [lia | lia | by apply sorted_keys_dense | done].
  - apply Z.ltb_ge in Hcmp. exists (cs - 1).
    split_and!; [lia | lia | by apply sorted_keys_dense | done].
Qed.

Lemma segmenter_numbers_dense_witness :
  ∃ K, 0 ≤ K ≤ 3
    ∧ Segmenter.sorted_keys
        (Segmenter.organize_text_into_slides
           ["Intro Title"; "body text a"; "Second Title"; "body text b";
            "Third One:"; "xxxxx"; "Fourth Title"; "yyyyy"; "Fifth Title";
            "zzzzz"] 3)
      = seqZ 1 K.
Proof.
  destruct (segmenter_numbers_dense
              ["Intro Title"; "body text a"; "Second Title"; "body text b";
               "Third One:"; "xxxxx"; "Fourth Title"; "yyyyy"; "Fifth Title";
               "zzzzz"] 3) as (K & HK & Hkeys & _); [lia|].
  exists K. auto.
Defined.

Section ChunkLoop.
Import Segmenter.

Lemma slice_nonempty {A : Type} (l : list A) (a b : Z) :
  0 ≤ a → a < PySeq.len l → a < b → PySeq.slice l a b ≠ [].
Proof.
  intros Ha Hlen Hb. unfold PySeq.slice, PySeq.clamp_index, PySeq.len in *.
  rewrite !decide_False by lia. intros Hnil.
  apply (f_equal length) in Hnil.
  rewrite length_take, length_drop in Hnil. simpl in Hnil. lia.
Qed.

Lemma elem_of_range_step (stop step i : Z) :
  1 ≤ step → i ∈ PySeq.range_step 0 stop step → 0 ≤ i < stop.
Proof.
  intros Hstep (k & -> & Hk)%list_elem_of_fmap. apply elem_of_seqZ in Hk.
  destruct (decide (1 ≤ stop)) as [Hstop|Hstop].
  - destruct (ceil_div_bounds stop step Hstop Hstep) as (_ & _ & Hlast).
    replace (stop - 0 + step - 1) with (stop + step - 1) in Hk by lia. nia.
  - exfalso.
    assert ((stop - 0 + step - 1) / step < 1); [|lia].
    apply Z.div_lt_upper_bound; lia.
Qed.

Lemma chunk_loop_numbered paragraphs pps (l : list Z) st :
  numbered st → numbered (foldl (chunk_body paragraphs pps) st l).
Proof.
  intros Hnum. apply foldl_preserves; [done|].
  intros. by apply chunk_body_numbered.
Qed.

(** A group that is in the dictionary stays in it: the loop only writes
    under the current number, which is above every key. *)
Lemma chunk_loop_keeps paragraphs pps (l : list Z) st n g :
  numbered st → st.1 !! n = Some g →
  (foldl (chunk_body paragraphs pps) st l).1 !! n = Some g.
Proof.
  revert st. induction l as [|i l IH]; intros st Hnum Hn; [done|].
  simpl. apply IH; [by apply chunk_body_numbered|].
  destruct st as [m cs]. unfold chunk_body. simpl in *.
  destruct (PySeq.slice paragraphs i (i + pps)); [done|].
  destruct (decide _); [done|]. simpl.
  rewrite lookup_insert_ne; [done|]. intros ->.
  destruct Hnum as [_ Hdom]. simpl in Hdom.
  assert (is_Some (m !! n)) as Hsome by (by eexists).
  apply Hdom in Hsome. lia.
Qed.

(** The final cut keeps the groups numbered up to [max_slides]. *)
Lemma organize_lookup_kept paragraphs max_slides n sd :
  (segment_loops (preprocess paragraphs max_slides) max_slides).1 !! n = Some sd →
  n ≤ max_slides →
  organize_text_into_slides paragraphs max_slides !! n = Some sd.
Proof.
  intros Hn Hle. unfold organize_text_into_slides.
  pose proof (segment_loops_numbered (preprocess paragraphs max_slides) max_slides)
    as Hnum.
  destruct (segment_loops _ _) as [m cs].
  unfold numbered in Hnum. simpl in *.
  destruct (max_slides <? Z.of_nat (size m)) eqn:Hcmp; [|done].
  apply Z.ltb_lt in Hcmp. rewrite (size_dense _ _ Hnum) in Hcmp.
  assert (1 ≤ n) as Hn1.
  { destruct Hnum as [_ Hdom]. apply Hdom. by eexists. }
  rewrite restrict_to_lookup, (sorted_keys_dense _ _ Hnum).
  rewrite slice_to_take, take_seqZ by lia.
  rewrite decide_True; [done|]. apply elem_of_seqZ. lia.
Qed.

End ChunkLoop.

(** C4, as amended. (a) A slide group returned by the segmenter with an
    empty body comes from the fixed-size-chunk path, and its title is a
    fragment of the working set, under 60 characters and different from
    the text [Slide <n>] of its own number n; on the title-boundary path
    no returned group has an empty body. (b) On the fixed-size-chunk path
    every chunk is non-empty, and a chunk is dropped only when its body is
    empty and its title equals the text [Slide <n>] of the current number:
    then the dictionary and the current number are unchanged; every other
    chunk is stored under the current number with its title and body, is
    still there when the loop ends, and is returned when that number is
    at most max_slides. *)
Theorem segmenter_empty_body_groups (paragraphs : list string) (max_slides : Z) :
  let working := Segmenter.preprocess paragraphs max_slides in
  (∀ n sd,
     Segmenter.organize_text_into_slides paragraphs max_slides !! n = Some sd →
     Segmenter.content sd = [] →
     Segmenter.uses_chunks (Segmenter.title_indices_of working max_slides) = true
     ∧ Segmenter.title sd ≠ Segmenter.slide_title n
     ∧ PyStr.len (Segmenter.title sd) < 60
     ∧ Segmenter.title sd ∈ working)
  ∧ (Segmenter.uses_chunks (Segmenter.title_indices_of working max_slides) = true →
     let paras_per_slide :=
       Z.max 1 (Z.min 8 (PySeq.len working / Z.max 1 (Z.min max_slides 15))) in
     ∀ before i after,
       PySeq.range_step 0 (PySeq.len working) paras_per_slide = before ++ i :: after →
       let st := foldl (Segmenter.chunk_body working paras_per_slide) (∅, 1) before in
       ∃ first rest,
         PySeq.slice working i (i + paras_per_slide) = first :: rest
         ∧ let title :=
             if PyStr.len first <? 60 then first else Segmenter.slide_title st.2 in
           let content := if decide (first = title) then rest else first :: rest in
           if decide (content = [] ∧ title = Segmenter.slide_title st.2)
           then Segmenter.chunk_body working paras_per_slide st i = st
           else
             (Segmenter.segment_loops working max_slides).1 !! st.2
             = Some (Segmenter.SlideData title content [])
             ∧ (st.2 ≤ max_slides →
                Segmenter.organize_text_into_slides paragraphs max_slides !! st.2
                = Some (Segmenter.SlideData title content []))).
Proof.
  intros working. split.
  { intros n sd Hn%organize_lookup Hempty.
    pose proof (segment_loops_empty_bodies working max_slides) as Hinv.
    simpl in Hinv. fold working in Hn. destruct (Segmenter.uses_chunks _).
    - split; [done|]. by apply Hinv.
    - exfalso. by apply (Hinv n sd). }
  intros Huses pps before i after Hsplit st.
  assert (1 ≤ pps) as Hpps by (subst pps; lia).
  assert (0 ≤ i < PySeq.len working) as Hi.
  { apply (elem_of_range_step _ pps); [done|].
    rewrite Hsplit. apply elem_of_app. right. left. }
  destruct (PySeq.slice working i (i + pps)) as [|first rest] eqn:Hslice.
  { exfalso. revert Hslice. apply slice_nonempty; lia. }
  exists first, rest. split; [done|]. cbv zeta.
  assert (Segmenter.numbered st) as Hnum.
  { apply chunk_loop_numbered. apply dense_empty. }
  assert (Hfinal : (Segmenter.segment_loops working max_slides).1
                   = (foldl (Segmenter.chunk_body working pps)
                        (Segmenter.chunk_body working pps st i) after).1).
  { unfold Segmenter.segment_loops. rewrite Huses. fold pps.
    by rewrite Hsplit, foldl_app. }
  clearbody st. destruct st as [m cs]. cbn [snd] in *.
  destruct (decide _) as [Hdrop|Hkeep].
  - unfold Segmenter.chunk_body. rewrite Hslice. by rewrite decide_True.
  - assert (Hstep : Segmenter.chunk_body working pps (m, cs) i
                    = (<[cs := Segmenter.SlideData
                                 (if PyStr.len first <? 60 then first
                                  else Segmenter.slide_title cs)
                                 (if decide (first
                                             = (if PyStr.len first <? 60 then first
                                                else Segmenter.slide_title cs))
                                  then rest else first :: rest) []]> m, cs + 1)).
    { unfold Segmenter.chunk_body. rewrite Hslice. by rewrite decide_False. }
    assert ((Segmenter.segment_loops working max_slides).1 !! cs
            = Some (Segmenter.SlideData
                      (if PyStr.len first <? 60 then first
                       else Segmenter.slide_title cs)
                      (if decide (first
                                  = (if PyStr.len first <? 60 then first
                                     else Segmenter.slide_title cs))
                       then rest else first :: rest) [])) as Hstored.
    { rewrite Hfinal. apply chunk_loop_keeps.
      - by apply chunk_body_numbered.
      - rewrite Hstep. simpl. by rewrite lookup_insert_eq. }
    split; [done|]. intros Hcap. by apply organize_lookup_kept.
Qed.

Lemma segmenter_empty_body_groups_witness :
  Segmenter.title (Segmenter.SlideData "Hello world" [] [])
  ≠ Segmenter.slide_title 1
  ∧ Segmenter.organize_text_into_slides ["Slide 1"; "Hello world"] 10 !! 1
    = Some (Segmenter.SlideData "Hello world" [] []).
Proof.
  split.
  - pose proof (segmenter_empty_body_groups ["Hello world"] 10) as [H _].
    apply (H 1 (Segmenter.SlideData "Hello world" [] [])); reflexivity.
  - pose proof (segmenter_empty_body_groups ["Slide 1"; "Hello world"] 10) as [_ H].
    cbv zeta in H.
    destruct (H eq_refl [0] 1 [] eq_refl) as (first & rest & Hslice & Hchunk).
    vm_compute in Hslice. injection Hslice as <- <-.
    destruct (decide _) as [Hdrop|Hkeep] in Hchunk.
    + exfalso. destruct Hdrop as [_ Hdrop]. vm_compute in Hdrop. discriminate.
    + destruct Hchunk as [_ Hchunk]. apply Hchunk. vm_compute. discriminate.
Defined.

(** C4, as stated, fails on the fixed-size-chunk path: the single fragment
    [Hello world] is returned as a group with an empty body whose title is
    no [Slide <k>] text. *)
Lemma empty_body_without_placeholder_title :
  ∃ n sd,
    Segmenter.organize_text_into_slides ["Hello world"] 10 !! n = Some sd
    ∧ Segmenter.content sd = []
    ∧ ∀ k, Segmenter.title sd ≠ Segmenter.slide_title k.
Proof.
  exists 1, (Segmenter.SlideData "Hello world" [] []).
  split_and!; [reflexivity | reflexivity |].
  intros k. unfold Segmenter.slide_title. simpl. discriminate.
Qed.

(** ** The text-file scenario *)

(** C5, as amended. On the two-paragraph text, the text-file path (split
    on blank lines, strip, then segment with maxSlides = 10) yields exactly
    2 slide groups: group 1 is titled with the whole first paragraph,
    "Overview:\nIntro line.", group 2 with the whole second paragraph,
    "Details:\nMore text here that is long enough.", and both bodies are
    empty. The blank-line split keeps a two-line paragraph in one piece,
    and with 2 boundaries (fewer than 5) the segmenter chunks one fragment
    per slide, which makes each fragment a title. *)
Theorem text_file_scenario_groups :
  TextFile.load_extracted_text_file TextFile.overview_details
  = ["Overview:" +:+ PyStr.nl +:+ "Intro line.";
     "Details:" +:+ PyStr.nl +:+ "More text here that is long enough."]
  ∧ Segmenter.organize_text_into_slides
      (TextFile.load_extracted_text_file TextFile.overview_details) 10
    = <[1 := Segmenter.SlideData
               ("Overview:" +:+ PyStr.nl +:+ "Intro line.") [] []]>
      (<[2 := Segmenter.SlideData
                ("Details:" +:+ PyStr.nl +:+ "More text here that is long enough.")
                [] []]> ∅).
Proof. split; vm_compute; reflexivity. Qed.

(** C5, as stated, fails: the first group is not titled "Overview:" with
    body ["Intro line."], and the second is not titled "Details:". *)
Lemma text_file_scenario_not_split_by_line :
  Segmenter.organize_text_into_slides
    (TextFile.load_extracted_text_file TextFile.overview_details) 10 !! 1
  ≠ Some (Segmenter.SlideData "Overview:" ["Intro line."] [])
  ∧ Segmenter.organize_text_into_slides
      (TextFile.load_extracted_text_file TextFile.overview_details) 10 !! 2
    ≠ Some (Segmenter.SlideData "Details:" ["More text here that is long enough."] []).
Proof. split; vm_compute; discriminate. Qed.

(** ** The media carver *)

Section Find.
Import Carver.

Lemma find_from_spec (sub data : bytes) (i : Z) :
  (∃ k : nat,
     (k ≤ length data)%nat
     ∧ find_from sub data i = i + Z.of_nat k
     ∧ is_prefix sub (drop k data) = true
     ∧ ∀ j : nat, (j < k)%nat → is_prefix sub (drop j data) = false)
  ∨ (find_from sub data i = -1
     ∧ ∀ k : nat, (k ≤ length data)%nat → is_prefix sub (drop k data) = false).
Proof.
  revert i. induction data as [|d data IH]; intros i; simpl.
  - destruct (is_prefix sub []) eqn:Hp.
    + left. exists 0%nat. split_and!; [done | lia | done | lia].
    + right. split; [done|]. intros k Hk. by rewrite drop_nil.
  - destruct (is_prefix sub (d :: data)) eqn:Hp.
    + left. exists 0%nat. split_and!; [lia | lia | done | lia].
    + destruct (IH (i + 1)) as [(k & Hk & Hr & Hpk & Hmin)|[Hr Hnone]].
      * left. exists (S k). split_and!; [lia | lia | done |].
        intros [|j] Hj; [done|]. simpl. apply Hmin. lia.
      * right. split; [done|]. intros [|k] Hk; [done|]. simpl. apply Hnone. lia.
Qed.

(** [find] returns the leftmost occurrence at or after [start], or [-1]
    when there is none. *)
Lemma find_spec (data sub : bytes) (start : Z) :
  0 ≤ start →
  (find data sub start = -1 ∧ ∀ p, start ≤ p → ¬ occurs_at sub data p)
  ∨ (start ≤ find data sub start
     ∧ occurs_at sub data (find data sub start)
     ∧ ∀ p, start ≤ p < find data sub start → ¬ occurs_at sub data p).
Proof.
  intros Hstart. unfold find, occurs_at, PySeq.len. case_decide as Hlen.
  { left. split; [done|]. intros p Hp [Hrange _]. lia. }
  destruct (find_from_spec sub (drop (Z.to_nat start) data) start)
    as [(k & Hk & Hr & Hpk & Hmin)|[Hr Hnone]].
  - right. rewrite Hr. rewrite length_drop in Hk. rewrite drop_drop in Hpk.
    split; [lia|]. split; [split; [lia|]|].
    + by replace (Z.to_nat (start + Z.of_nat k)) with (Z.to_nat start + k)%nat by lia.
    + intros p Hp [_ Hocc].
      specialize (Hmin (Z.to_nat p - Z.to_nat start)%nat ltac:(lia)).
      rewrite drop_drop in Hmin.
      replace (Z.to_nat start + (Z.to_nat p - Z.to_nat start))%nat
        with (Z.to_nat p) in Hmin by lia. congruence.
  - left. split; [done|]. intros p Hp [Hrange Hocc].
    specialize (Hnone (Z.to_nat p - Z.to_nat start)%nat).
    rewrite length_drop, drop_drop in Hnone.
    replace (Z.to_nat start + (Z.to_nat p - Z.to_nat start))%nat
      with (Z.to_nat p) in Hnone by lia.
    rewrite Hnone in Hocc by lia. done.
Qed.

End Find.

Section ScanLoop.
Import Carver.

Variable image_ok : bytes → bool.
Variable data : bytes.
Variables (header marker : bytes) (ext : string) (base : Z).

Lemma scan_body_cands (pos : Z) (st : scan_state) :
  ∃ new,
    st_cands (scan_body image_ok data marker ext base pos st) = st_cands st ++ new
    ∧ (find data marker pos = -1 → new = [])
    ∧ (find data marker pos ≠ -1 →
       ∃ file, new = [Candidate pos (find data marker pos + PySeq.len marker) file]).
Proof.
  unfold scan_body. case_decide as Hend.
  - destruct (image_ok _); simpl; eexists; (split; [reflexivity|]);
      (split; [done | by eexists]).
  - exists []. rewrite app_nil_r. split; [done|]. split; [done|].
    intros Hne. congruence.
Qed.

Lemma scan_loop_spec (fuel : nat) (pos : Z) (st : scan_state) :
  0 ≤ pos → Z.max 1 (PySeq.len data + 2 - pos) ≤ Z.of_nat fuel →
  ∃ st' new,
    scan_loop image_ok data header marker ext base fuel pos st = Some st'
    ∧ st_cands st' = st_cands st ++ new
    ∧ tried_from header marker data pos new.
Proof.
  revert pos st. induction fuel as [|fuel IH]; intros pos st Hpos Hfuel; [lia|].
  simpl. destruct (find_spec data header pos Hpos) as [[Hr Hnone]|(Hr & Hocc & Hleft)].
  - rewrite Hr. rewrite decide_True by done.
    exists st, []. rewrite app_nil_r.
    split; [done|]. split; [done|]. split; [constructor|]. split; [|done].
    intros p. split.
    + by intros ?%elem_of_nil.
    + intros (Hp & Hoccp & _). by apply Hnone in Hoccp.
  - set (r := find data header pos) in *.
    assert (r ≤ PySeq.len data) as Hrlen by apply Hocc.
    rewrite decide_False by lia.
    destruct (scan_body_cands r st) as (first & Hfirst & Hnoend & Hend).
    destruct (IH (r + 1) (scan_body image_ok data marker ext base r st))
      as (st' & new & Hrun & Hcands & Hsorted & Hstarts & Hends); [lia | lia |].
    exists st', (first ++ new). rewrite Hrun, Hcands, Hfirst, <- app_assoc.
    split; [done|]. split; [done|].
    assert (Hbefore : ∀ p, pos ≤ p → occurs_at header data p → p = r ∨ r + 1 ≤ p).
    { intros p Hp Hoccp. destruct (decide (p < r)) as [Hlt|]; [|lia].
      exfalso. by apply (Hleft p). }
    destruct (decide (find data marker r = -1)) as [Hno|Hyes].
    + rewrite (Hnoend Hno). simpl. split; [done|]. split; [|done].
      intros p. rewrite Hstarts. split.
      * intros (Hp & Hoccp & Hm). split; [lia|]. done.
      * intros (Hp & Hoccp & Hm). split; [|done].
        destruct (Hbefore p Hp Hoccp) as [->|]; [congruence | done].
    + destruct (Hend Hyes) as [file ->]. unfold tried_from.
      change ([?c] ++ new) with (c :: new). rewrite fmap_cons.
      cbn [c_start]. split; [|split].
      * constructor; [done|]. apply Forall_forall. intros p Hp.
        apply (proj1 (Hstarts p)) in Hp. destruct Hp as [Hp _]. lia.
      * intros p. rewrite elem_of_cons, Hstarts. split.
        -- intros [->|(Hp & Hoccp & Hm)]; (split; [lia|done]).
        -- intros (Hp & Hoccp & Hm).
           destruct (Hbefore p Hp Hoccp) as [->|]; [by left|].
           right. done.
      * constructor; [done | done].
Qed.

End ScanLoop.

(** C6, as amended. For every byte buffer and every decoder verdict, both
    scans of the carver terminate, and each resumes its search one byte
    after the start of the previous match (not at the previous match's
    end): the candidates of one format are produced leftmost-first, with
    strictly increasing start offsets; they start at exactly the offsets
    where the format's start signature occurs and an end marker is found
    from there on, and each candidate ends with the first end marker found
    from its start. The byte ranges of successive candidates may
    overlap. *)
Theorem carver_tries_every_signature (image_ok : Carver.bytes → bool)
    (data : Carver.bytes) (media_dir : gmap string Carver.bytes) :
  ∃ count store png jpg,
    Carver.extract_images_from_binary image_ok data media_dir
    = Some (count, store, png, jpg)
    ∧ Carver.tried_from Carver.png_header Carver.iend_marker data 0 png
    ∧ Carver.tried_from Carver.jpg_header Carver.eoi_marker data 0 jpg.
Proof.
  unfold Carver.extract_images_from_binary, Carver.scan.
  assert (Hfuel : Z.max 1 (PySeq.len data + 2 - 0) ≤ Z.of_nat (length data + 2)).
  { unfold PySeq.len. lia. }
  destruct (scan_loop_spec image_ok data Carver.png_header Carver.iend_marker ".png" 0
              (length data + 2) 0 (Carver.ScanState 0 media_dir []) ltac:(lia) Hfuel)
    as (png & new_png & Hpng & Hcands_png & Htried_png).
  rewrite Hpng. simpl.
  destruct (scan_loop_spec image_ok data Carver.jpg_header Carver.eoi_marker ".jpg"
              (Carver.st_count png) (length data + 2) 0
              (Carver.ScanState 0 (Carver.st_store png) []) ltac:(lia) Hfuel)
    as (jpg & new_jpg & Hjpg & Hcands_jpg & Htried_jpg).
  rewrite Hjpg. simpl. simpl in Hcands_png, Hcands_jpg.
  eexists _, _, _, _. split; [reflexivity|].
  rewrite Hcands_png, Hcands_jpg. done.
Qed.

(** C6, as stated, fails: in a picture that embeds a thumbnail, the
    thumbnail's start signature at offset 4 lies inside the first
    candidate's range [0, 11); it is tried all the same, because the
    search resumes at offset 1, and the two JPEG candidates overlap,
    whether the decoder accepts the candidates or rejects them. *)
Lemma nested_signature_overlaps :
  let data :=
    [xff; xd8; xff; xe1; xff; xd8; xff; xdb; x00; xff; xd9; x00; xff; xd9] in
  (∃ count store png jpg,
     Carver.extract_images_from_binary (λ _, true) data ∅
     = Some (count, store, png, jpg)
     ∧ jpg = [Carver.Candidate 0 11 (Some "image_1.jpg");
              Carver.Candidate 4 11 (Some "image_2.jpg")]
     ∧ ¬ Carver.ranges_disjoint jpg)
  ∧ (∃ count store png jpg,
       Carver.extract_images_from_binary (λ _, false) data ∅
       = Some (count, store, png, jpg)
       ∧ jpg = [Carver.Candidate 0 11 None; Carver.Candidate 4 11 None]
       ∧ ¬ Carver.ranges_disjoint jpg).
Proof.
  split.
  - eexists _, _, _, _. split; [vm_compute; reflexivity|]. split; [reflexivity|].
    intros Hdisjoint.
    specialize (Hdisjoint 0%nat _ _ eq_refl eq_refl). simpl in Hdisjoint. lia.
  - eexists _, _, _, _. split; [vm_compute; reflexivity|]. split; [reflexivity|].
    intros Hdisjoint.
    specialize (Hdisjoint 0%nat _ _ eq_refl eq_refl). simpl in Hdisjoint. lia.
Qed.

(** ** Escaping and truncation of slide text *)

Section StringFacts.

Lemma str_app_cons (c : ascii) (s1 s2 : string) :
  String c s1 +:+ s2 = String c (s1 +:+ s2).
Proof. reflexivity. Qed.

Lemma str_app_nil (s : string) : EmptyString +:+ s = s.
Proof. reflexivity. Qed.

Lemma str_length_app (s1 s2 : string) :
  String.length (s1 +:+ s2) = (String.length s1 + String.length s2)%nat.
Proof.
  induction s1 as [|c s1 IH]; [done|].
  rewrite str_app_cons. simpl. by rewrite IH.
Qed.

Lemma str_app_assoc (s1 s2 s3 : string) :
  (s1 +:+ s2) +:+ s3 = s1 +:+ (s2 +:+ s3).
Proof.
  induction s1 as [|c s1 IH]; [done|].
  rewrite !str_app_cons. by rewrite IH.
Qed.


Lemma replace_char_app (old : ascii) (new s1 s2 : string) :
  PyStr.replace_char old new (s1 +:+ s2)
  = PyStr.replace_char old new s1 +:+ PyStr.replace_char old new s2.
Proof.
  induction s1 as [|c s1 IH]; [done|].
  rewrite str_app_cons. simpl.
  case_decide; rewrite IH; [by rewrite str_app_assoc | done].
Qed.

End StringFacts.

Section Sanitize.
Import Assembler.

(** The three replacements in sequence escape each character once: the
    ampersands that the later replacements introduce are not escaped
    again, because [&] is replaced first. *)
Lemma sanitize_escape_all (s : string) : sanitize s = escape_all s.
Proof.
  unfold sanitize. induction s as [|c s IH]; [done|].
  simpl. unfold escape_char.
  destruct (decide (c = "&"%char)) as [->|Hamp].
  { simpl. by rewrite <- IH. }
  simpl. destruct (decide (c = "<"%char)) as [->|Hlt].
  { simpl. by rewrite <- IH. }
  simpl. destruct (decide (c = ">"%char)) as [->|Hgt].
  { simpl. by rewrite <- IH. }
  simpl. by rewrite <- IH.
Qed.





(** The run texts of a slide part are the limited, sanitized title and the
    limited, sanitized first 8 body fragments. *)
Lemma create_placeholder_slide_texts slide_num title content images :
  let part := (create_placeholder_slide slide_num title content images).1 in
  sp_title part = title_text title
  ∧ ts_text <$> sp_texts part = body_text <$> take 8 content.
Proof.
  simpl. split; [done|].
  rewrite slice_to_take by (unfold PySeq.len; lia).
  unfold PySeq.enumerate.
  assert (Hgen : ∀ (l : list string) (a : Z),
    ts_text <$> ((λ '(i, para),
                    TextShape (i + 3) ("Text " +:+ PyStr.of_int (i + 1))
                      (1500000 + i * 600000) (body_text para))
                 <$> zip (seqZ a (PySeq.len l)) l)
    = body_text <$> l).
  { induction l as [|x l IH]; intros a; [done|].
    unfold PySeq.len in *. change (length (x :: l)) with (S (length l)).
    rewrite Nat2Z.inj_succ, seqZ_cons by lia. rewrite Z.pred_succ.
    simpl. f_equal. apply IH. }
  rewrite Hgen. f_equal.
  destruct (Z.le_gt_cases 8 (PySeq.len content)).
  - by rewrite Z.min_l by lia.
  - rewrite Z.min_r by lia. unfold PySeq.len in *.
    rewrite Nat2Z.id. rewrite !take_ge; [done | lia..].
Qed.

End Sanitize.




(** ** The image distributor *)

Section ForEach.
Import Exn.
Context {S A : Type}.

Lemma for_each_app (body : S → A → outcome S) (st : S) (l1 l2 : list A) :
  for_each body st (l1 ++ l2)
  = st' ← for_each body st l1; for_each body st' l2.
Proof.
  revert st. induction l1 as [|x l1 IH]; intros st; simpl; [done|].
  destruct (body st x) as [st'|e]; simpl; [apply IH | done].
Qed.

End ForEach.

Section Distribute.
Import Exn Segmenter Distributor.

Lemma NoDup_sorted_keys {V : Type} (m : gmap Z V) : NoDup (sorted_keys m).
Proof.
  unfold sorted_keys, PySeq.sorted. rewrite merge_sort_Permutation.
  apply NoDup_fst_map_to_list.
Qed.

Lemma length_sorted_keys {V : Type} (m : gmap Z V) :
  length (sorted_keys m) = size m.
Proof.
  unfold sorted_keys, PySeq.sorted.
  by rewrite merge_sort_Permutation, length_fmap, length_map_to_list.
Qed.

Lemma elem_of_sorted_keys {V : Type} (m : gmap Z V) (n : Z) :
  n ∈ sorted_keys m ↔ is_Some (m !! n).
Proof.
  unfold sorted_keys, PySeq.sorted. rewrite merge_sort_Permutation.
  rewrite list_elem_of_fmap. split.
  - intros [[n' v] [-> Hin]]. apply elem_of_map_to_list in Hin. by eexists.
  - intros [v Hv]. exists (n, v). split; [done|]. by apply elem_of_map_to_list.
Qed.

Lemma images_for_index_succ (n : Z) (k j : nat) :
  images_for_index n k (Z.of_nat (Datatypes.S j))
  = images_for_index n k (Z.of_nat j)
    ++ (if decide (Z.of_nat j mod n = Z.of_nat k)
        then [png_name (Z.of_nat j + 1)] else []).
Proof.
  unfold images_for_index. rewrite seqZ_S, filter_app, fmap_app. f_equal.
  replace (1 + Z.of_nat j) with (Z.of_nat j + 1) by lia.
  destruct (decide (Z.of_nat j mod n = Z.of_nat k)) as [Heq|Hne].
  - rewrite filter_cons_True; [done|].
    by replace (Z.of_nat j + 1 - 1) with (Z.of_nat j) by lia.
  - rewrite filter_cons_False; [done|].
    by replace (Z.of_nat j + 1 - 1) with (Z.of_nat j) by lia.
Qed.

Variable slides_content : gmap Z slide_data.
Hypothesis nonempty : slides_content ≠ ∅.

Lemma slide_count_pos : 0 < PySeq.len (sorted_keys slides_content).
Proof using nonempty.
  unfold PySeq.len. rewrite length_sorted_keys.
  destruct (decide (size slides_content = 0%nat)) as [Hz|]; [|lia].
  by apply map_size_empty_iff in Hz.
Qed.

Lemma distribute_prefix (j : nat) :
  ∃ m, for_each (distribute_body (sorted_keys slides_content)) slides_content
         (PySeq.range (Z.of_nat j)) = Return m
       ∧ distributed slides_content j m.
Proof using nonempty.
  pose proof slide_count_pos as Hn. unfold distributed.
  set (slide_numbers := sorted_keys slides_content) in *.
  set (n := PySeq.len slide_numbers) in *.
  induction j as [|j (m & Hrun & Hkeys & Hother)].
  - exists slides_content. split; [done|]. split; [|done].
    intros k num sd _ Hsd. rewrite Hsd. destruct sd. simpl.
    by rewrite app_nil_r.
  - unfold PySeq.range in *. rewrite seqZ_S, Z.add_0_l, for_each_app, Hrun.
    simpl. unfold distribute_body, pymod. fold n.
    rewrite decide_False by lia. simpl.
    pose proof (Z.mod_pos_bound (Z.of_nat j) n Hn) as Hidx.
    set (idx := Z.of_nat j mod n) in *.
    destruct (lookup_lt_is_Some_2 slide_numbers (Z.to_nat idx)) as [target Htarget].
    { subst n. unfold PySeq.len in *. lia. }
    unfold PySeq.item. rewrite (list_lookup_total_correct _ _ _ Htarget).
    eexists. split; [reflexivity|]. split.
    + intros k num sd Hk Hsd. rewrite images_for_index_succ. fold idx.
      destruct (decide (idx = Z.of_nat k)) as [Heq|Hne].
      * assert (num = target) as ->.
        { rewrite Heq, Nat2Z.id in Htarget. congruence. }
        rewrite lookup_alter_eq, (Hkeys k target sd Hk Hsd). simpl.
        unfold append_image. simpl. by rewrite app_assoc.
      * assert (target ≠ num) as Hdiff.
        { intros <-. apply Hne.
          pose proof (NoDup_lookup _ _ _ _ (NoDup_sorted_keys slides_content)
                        Htarget Hk). lia. }
        rewrite lookup_alter_ne by done. rewrite (Hkeys k num sd Hk Hsd).
        by rewrite app_nil_r.
    + intros num Hnone. destruct (decide (target = num)) as [->|Hdiff].
      * rewrite lookup_alter_eq, (Hother num Hnone). done.
      * rewrite lookup_alter_ne by done. by apply Hother.
Qed.

End Distribute.

(** C9, as amended. For every non-empty slide dictionary and every image
    count c >= 0 the distributor returns normally; image i, for i in 1..c,
    named [image_<i>.png] whatever the media store holds for i, is appended
    to the slide at index (i - 1) mod slideCount of the sorted slide
    numbers, the images of one slide in increasing order of i; titles,
    bodies and the set of slide numbers are unchanged. *)
Theorem distribute_images_round_robin (slides_content : gmap Z Segmenter.slide_data)
    (image_count : Z) :
  slides_content ≠ ∅ → 0 ≤ image_count →
  ∃ result,
    Distributor.distribute_images slides_content image_count = Exn.Return result
    ∧ (∀ (k : nat) slide_num sd,
         Segmenter.sorted_keys slides_content !! k = Some slide_num →
         slides_content !! slide_num = Some sd →
         result !! slide_num
         = Some (Segmenter.SlideData (Segmenter.title sd) (Segmenter.content sd)
                   (Segmenter.images sd
                    ++ (Distributor.png_name
                        <$> filter (λ i, (i - 1) mod PySeq.len (Segmenter.sorted_keys slides_content)
                                         = Z.of_nat k)
                                   (seqZ 1 image_count)))))
    ∧ (∀ slide_num, slides_content !! slide_num = None → result !! slide_num = None).
Proof.
  intros Hne Hc.
  destruct (distribute_prefix slides_content Hne (Z.to_nat image_count))
    as (m & Hrun & Hkeys & Hother).
  rewrite Z2Nat.id in Hrun, Hkeys by done.
  exists m. split; [exact Hrun|]. split; [exact Hkeys | exact Hother].
Qed.

Lemma distribute_images_round_robin_witness :
  ∃ result,
    Distributor.distribute_images
      (<[1 := Segmenter.SlideData "A" [] []]>
         (<[2 := Segmenter.SlideData "B" [] []]> ∅)) 3
    = Exn.Return result
    ∧ result !! 1
      = Some (Segmenter.SlideData "A" [] ["image_1.png"; "image_3.png"]).
Proof.
  destruct (distribute_images_round_robin
              (<[1 := Segmenter.SlideData "A" [] []]>
                 (<[2 := Segmenter.SlideData "B" [] []]> ∅)) 3)
    as (result & Hrun & Hkeys & _); [done | lia |].
  exists result. split; [exact Hrun|].
  apply (Hkeys 0%nat 1 (Segmenter.SlideData "A" [] [])); reflexivity.
Defined.

(** C9, as stated, fails: with two slides and one image, image 1 is not
    given to the slide at index 1 mod 2 = 1 of the sorted slide numbers but
    to the slide at index 0, and the image given to index 0 is not named
    [image_0.png]. *)
Lemma first_image_goes_to_first_slide :
  let slides_content : gmap Z Segmenter.slide_data :=
    <[1 := Segmenter.SlideData "A" [] []]>
      (<[2 := Segmenter.SlideData "B" [] []]> ∅) in
  ∃ result,
    Distributor.distribute_images slides_content 1 = Exn.Return result
    ∧ Segmenter.sorted_keys slides_content !! Z.to_nat (1 mod 2) = Some 2
    ∧ result !! 2 = Some (Segmenter.SlideData "B" [] [])
    ∧ Segmenter.sorted_keys slides_content !! Z.to_nat (0 mod 2) = Some 1
    ∧ result !! 1 = Some (Segmenter.SlideData "A" [] ["image_1.png"])
    ∧ Distributor.png_name 1 ≠ Distributor.png_name 0.
Proof.
  eexists. split; [vm_compute; reflexivity|].
  split_and!; vm_compute; (reflexivity || discriminate).
Qed.

(** ** The package assembler *)

Section Names.

Lemma of_int_inj (a b : Z) : PyStr.of_int a = PyStr.of_int b → a = b.
Proof.
  unfold PyStr.of_int. intros Heq.
  apply (f_equal NilEmpty.int_of_string) in Heq.
  rewrite !NilEmpty.isi in Heq. injection Heq as Heq.
  by apply DecimalZ.to_int_inj.
Qed.

Global Instance rid_name_inj : Inj (=) (=) Assembler.rid_name.
Proof.
  intros a b Heq. unfold Assembler.rid_name in Heq.
  apply (inj (String.app "rId")) in Heq. by apply of_int_inj.
Qed.

End Names.

Section Enumerate.
Context {A B : Type}.

Lemma fmap_zip_seqZ_fst (f : Z → B) (l : list A) (a : Z) :
  (λ '(i, _), f i) <$> zip (seqZ a (PySeq.len l)) l = f <$> seqZ a (PySeq.len l).
Proof.
  revert a. unfold PySeq.len. induction l as [|x l IH]; intros a; [done|].
  change (length (x :: l)) with (S (length l)).
  rewrite Nat2Z.inj_succ, seqZ_cons by lia. rewrite Z.pred_succ.
  simpl. f_equal. apply IH.
Qed.

Lemma fmap_zip_seqZ_snd (g : A → B) (l : list A) (a : Z) :
  (λ '(_, x), g x) <$> zip (seqZ a (PySeq.len l)) l = g <$> l.
Proof.
  revert a. unfold PySeq.len. induction l as [|x l IH]; intros a; [done|].
  change (length (x :: l)) with (S (length l)).
  rewrite Nat2Z.inj_succ, seqZ_cons by lia. rewrite Z.pred_succ.
  simpl. f_equal. apply IH.
Qed.

End Enumerate.

Section Counting.
Context {A B : Type} `{EqDecision B}.

Lemma filter_key_absent (g : A → B) (l : list A) (b : B) :
  b ∉ g <$> l → filter (λ y, g y = b) l = [].
Proof.
  induction l as [|y l IH]; intros Hb; [done|].
  rewrite fmap_cons, not_elem_of_cons in Hb. destruct Hb as [Hne Hb].
  rewrite filter_cons_False by congruence. by apply IH.
Qed.

(** In a list whose images under [g] are pairwise distinct, exactly one
    element has the image of a given member. *)
Lemma unique_by_key (g : A → B) (l : list A) (b : B) :
  NoDup (g <$> l) → b ∈ g <$> l →
  length (filter (λ y, g y = b) l) = 1%nat.
Proof.
  induction l as [|y l IH]; intros Hnd Hin.
  - by apply elem_of_nil in Hin.
  - rewrite fmap_cons in Hnd, Hin. apply NoDup_cons in Hnd as [Hy Hnd].
    destruct (decide (g y = b)) as [Heq|Hne].
    + rewrite filter_cons_True by done. simpl. f_equal.
      rewrite filter_key_absent; [done|]. by rewrite <- Heq.
    + rewrite filter_cons_False by done. apply IH; [done|].
      apply elem_of_cons in Hin as [Hb|Hin]; [congruence | done].
Qed.

End Counting.

Section Assembly.
Import Segmenter Assembler.

(** The picture references and the relationship entries of one slide
    are generated from the same images, at most 4, with the same
    sequential ids. *)
Lemma create_placeholder_slide_refs slide_num title content (images : list string) :
  let written := create_placeholder_slide slide_num title content images in
  let used := take 4 images in
  pic_embed <$> sp_pics written.1 = rid_name <$> seqZ 1 (PySeq.len used)
  ∧ rel_id <$> written.2 = rid_name <$> seqZ 1 (PySeq.len used)
  ∧ rel_target <$> written.2 = (λ img, "../media/" +:+ img) <$> used.
Proof.
  unfold create_placeholder_slide. simpl.
  assert (PySeq.slice_to images (Z.min 4 (PySeq.len images)) = take 4 images) as ->.
  { rewrite slice_to_take by (unfold PySeq.len; lia).
    destruct (Z.le_gt_cases 4 (PySeq.len images)).
    - by rewrite Z.min_l by lia.
    - rewrite Z.min_r by lia. unfold PySeq.len in *.
      rewrite Nat2Z.id. rewrite !take_ge; [done | lia..]. }
  unfold PySeq.enumerate. rewrite <- !list_fmap_compose.
  assert (Hids : rid_name <$> seqZ 1 (PySeq.len (take 4 images))
                 = (λ i, rid_name (i + 1)) <$> seqZ 0 (PySeq.len (take 4 images))).
  { change (seqZ 1 ?n) with (seqZ (1 + 0) n).
    rewrite <- fmap_add_seqZ, <- list_fmap_compose.
    apply list_fmap_ext. intros _ i _. simpl. f_equal. lia. }
  rewrite Hids. split_and!.
  - rewrite <- (fmap_zip_seqZ_fst (λ i, rid_name (i + 1)) (take 4 images) 0).
    apply list_fmap_ext. by intros _ [i img] _.
  - rewrite <- (fmap_zip_seqZ_fst (λ i, rid_name (i + 1)) (take 4 images) 0).
    apply list_fmap_ext. by intros _ [i img] _.
  - rewrite <- (fmap_zip_seqZ_snd (λ img, "../media/" +:+ img) (take 4 images) 0).
    apply list_fmap_ext. by intros _ [i img] _.
Qed.

Lemma copy_image_insert store media img_file :
  copy_image store media img_file = <[img_file := media_for store img_file]> media.
Proof. unfold copy_image, media_for. by destruct (store !! img_file). Qed.

(** The media directory after the copy loop over [l]. *)
Lemma copy_loop_lookup store (l : list string) media img :
  foldl (copy_image store) media l !! img
  = if decide (img ∈ l) then Some (media_for store img) else media !! img.
Proof.
  revert media. induction l as [|x l IH]; intros media.
  - simpl. by destruct (decide (img ∈ [])) as [?%elem_of_nil|].
  - change (foldl ?f media (x :: l)) with (foldl f (f media x) l).
    rewrite IH, copy_image_insert.
    destruct (decide (img ∈ l)) as [Hin|Hnin];
      destruct (decide (img ∈ x :: l)) as [Hin'|Hnin']; try done.
    + exfalso. apply Hnin'. by right.
    + apply elem_of_cons in Hin' as [->|?]; [|done].
      by rewrite lookup_insert_eq.
    + rewrite lookup_insert_ne; [done|]. intros ->. apply Hnin'. left.
Qed.

Lemma slide_for_images current_slides slide_num :
  ∃ title content images,
    slide_for current_slides slide_num
    = (create_placeholder_slide slide_num title content images, images)
    ∧ ∀ sd, current_slides !! slide_num = Some sd → images = Segmenter.images sd.
Proof.
  unfold slide_for. destruct (current_slides !! slide_num) as [sd|].
  - eexists _, _, _. split; [reflexivity|]. by intros ? [= <-].
  - eexists _, _, _. split; [reflexivity|]. done.
Qed.

End Assembly.

(** C1. In every package the assembler builds, (a) the [r:embed] ids of
    the pictures of a slide part and the Ids of the entries of that
    slide's relationship part are the same list rId1..rIdK, K <= 4, so each
    referenced id has exactly one relationship entry with that Id; (b)
    every relationship targets [../media/<name>] for a file <name> present
    in the package's media directory; and (c) for every slide number of
    the package's range that has a slide and every image file name that
    slide lists, the media directory holds a file of that name: the copy
    of the media store's file when the store has it, the generated
    placeholder for that name otherwise. *)
Theorem package_image_references_resolve (store : gmap string Carver.bytes)
    (old : Assembler.part_dir)
    (slides_content : gmap Z Segmenter.slide_data) (part_num start_slide end_slide : Z) :
  let pk :=
    Assembler.create_pptx_structure store old slides_content part_num start_slide
      end_slide in
  (∀ slide rels, (slide, rels) ∈ Assembler.pk_slides pk →
     (∃ K, 0 ≤ K ≤ 4
        ∧ Assembler.pic_embed <$> Assembler.sp_pics slide
          = Assembler.rid_name <$> seqZ 1 K
        ∧ Assembler.rel_id <$> rels = Assembler.rid_name <$> seqZ 1 K)
     ∧ (∀ pic, pic ∈ Assembler.sp_pics slide →
          length (filter (λ rel, Assembler.rel_id rel = Assembler.pic_embed pic) rels)
          = 1%nat)
     ∧ (∀ rel, rel ∈ rels →
          ∃ img, Assembler.rel_target rel = "../media/" +:+ img
                 ∧ Assembler.pk_media pk !! img = Some (Assembler.media_for store img)))
  ∧ (∀ slide_num sd img,
       start_slide ≤ slide_num ≤ end_slide →
       slides_content !! slide_num = Some sd →
       img ∈ Segmenter.images sd →
       Assembler.pk_media pk !! img
       = Some (match store !! img with
               | Some image_data => Assembler.Copied image_data
               | None => Assembler.PlaceholderImage img
               end)).
Proof.
  simpl. unfold Assembler.create_pptx_structure. simpl.
  set (slide_range := seqZ start_slide (end_slide + 1 - start_slide)).
  set (current := Segmenter.restrict_to slides_content slide_range).
  set (written := Assembler.slide_for current <$> slide_range).
  assert (Hmedia : ∀ img imgs part, (part, imgs) ∈ written → img ∈ imgs →
            foldl (Assembler.copy_image store) (Assembler.pd_media old)
              (remove_dups (mjoin written.*2)) !! img
            = Some (Assembler.media_for store img)).
  { intros img imgs part Hw Himg. rewrite copy_loop_lookup.
    rewrite decide_True; [done|]. apply elem_of_remove_dups.
    apply list_elem_of_join. exists imgs. split; [done|].
    apply list_elem_of_fmap. by exists (part, imgs). }
  split.
  - intros slide rels Hin.
    apply list_elem_of_fmap in Hin as ([[slide' rels'] imgs] & [= <- <-] & Hw).
    pose proof Hw as Hw'. unfold written in Hw'.
    apply list_elem_of_fmap in Hw' as (num & Heq & _).
    destruct (slide_for_images current num) as (t & c & images & Hsf & _).
    rewrite Hsf in Heq.
    pose proof (f_equal fst Heq) as Hpart. pose proof (f_equal snd Heq) as Himgs.
    cbn [fst snd] in Hpart, Himgs. subst imgs. clear Heq.
    pose proof (create_placeholder_slide_refs num t c images) as Hrefs.
    cbv zeta in Hrefs. rewrite <- Hpart in Hrefs.
    destruct Hrefs as (Hembed & Hids & Htargets). cbn [fst snd] in Hembed, Hids, Htargets.
    assert (NoDup (Assembler.rel_id <$> rels)) as Hnd.
    { rewrite Hids. apply NoDup_fmap_2; [apply _ | apply NoDup_seqZ]. }
    split_and!.
    + exists (PySeq.len (take 4 images)). split; [|done].
      unfold PySeq.len. rewrite length_take. lia.
    + intros pic Hpic. apply unique_by_key; [done|].
      rewrite Hids, <- Hembed. apply list_elem_of_fmap. by exists pic.
    + intros rel Hrel.
      assert (Assembler.rel_target rel ∈ Assembler.rel_target <$> rels) as Ht.
      { apply list_elem_of_fmap. by exists rel. }
      rewrite Htargets in Ht. apply list_elem_of_fmap in Ht as (img & Hrt & Himg).
      exists img. split; [done|].
      apply (Hmedia img images (slide, rels)); [done|].
      by apply subseteq_take in Himg.
  - intros slide_num sd img Hrange Hsd Himg.
    assert (slide_num ∈ slide_range) as Hnum.
    { apply elem_of_seqZ. lia. }
    assert (current !! slide_num = Some sd) as Hcur.
    { unfold current. rewrite restrict_to_lookup. by rewrite decide_True. }
    destruct (slide_for_images current slide_num) as (t & c & images & Hsf & Himgs).
    rewrite (Himgs sd Hcur) in Hsf.
    apply (Hmedia img (Segmenter.images sd)
             (Assembler.create_placeholder_slide slide_num t c (Segmenter.images sd)));
      [|done].
    unfold written. apply list_elem_of_fmap. by exists slide_num.
Qed.

Lemma package_image_references_resolve_witness :
  Assembler.pk_media
    (Assembler.create_pptx_structure (<["image_2.png" := [x89]]> ∅)
       Assembler.empty_dir
       (<[1 := Segmenter.SlideData "A" ["b"] ["image_1.png"; "image_2.png"]]> ∅)
       1 1 1)
  !! "image_1.png"
  = Some (Assembler.PlaceholderImage "image_1.png").
Proof.
  pose proof (package_image_references_resolve (<["image_2.png" := [x89]]> ∅)
                Assembler.empty_dir
                (<[1 := Segmenter.SlideData "A" ["b"] ["image_1.png"; "image_2.png"]]> ∅)
                1 1 1) as H.
  cbv zeta in H. destruct H as [_ H].
  apply (H 1 (Segmenter.SlideData "A" ["b"] ["image_1.png"; "image_2.png"])
           "image_1.png").
  - lia.
  - reflexivity.
  - simpl. left.
Defined.

(** ** The pipeline *)

Section PipelineFacts.
Import Exn Segmenter Distributor Pipeline.

Lemma sorted_keys_empty {V : Type} : sorted_keys (∅ : gmap Z V) = [].
Proof. unfold sorted_keys. by rewrite map_to_list_empty. Qed.

Lemma distribute_images_none (slides_content : gmap Z slide_data) (image_count : Z) :
  image_count ≤ 0 →
  distribute_images slides_content image_count = Return slides_content.
Proof.
  intros Hc. unfold distribute_images, PySeq.range. by rewrite seqZ_nil.
Qed.

Lemma distribute_images_no_slides (image_count : Z) :
  1 ≤ image_count →
  distribute_images ∅ image_count = Raise ZeroDivisionError.
Proof.
  intros Hc. unfold distribute_images, PySeq.range.
  rewrite seqZ_cons by lia. rewrite sorted_keys_empty. reflexivity.
Qed.

(** The [finally] clause runs whatever the [try] block did. *)
Lemma main_removes_work_dir a env image_count store text_paragraphs :
  extract_dir_given a = false →
  ∃ log, (main a env image_count store text_paragraphs).1 = log ++ [RemovedWorkDir].
Proof.
  intros Hdir. unfold main.
  destruct (main_try a env image_count store text_paragraphs) as [log result].
  rewrite Hdir. by exists log.
Qed.

(** An exception in the build or in the serialization of one archive
    ends the loop: the remaining indices are not visited. *)
Lemma archive_loop_stops_at_failure a env store slides_content slide_numbers spf
    (i : Z) (rest : list Z) (log : list event) :
  file_slide_numbers_of slide_numbers spf i ≠ [] →
  build_raises env (i + 1) = true ∨ zip_raises env (i + 1) = true →
  ∃ log',
    archive_loop a env store slides_content slide_numbers spf (i :: rest) log
    = (log', Raise OSError)
    ∧ written_parts log' = written_parts log.
Proof.
  intros Hne Hfail. simpl.
  destruct (file_slide_numbers_of slide_numbers spf i); [done|].
  destruct (build_raises env (i + 1)) eqn:Hb.
  - by exists log.
  - destruct Hfail as [?|Hz]; [done|]. unfold create_pptx. rewrite Hz.
    eexists. split; [reflexivity|].
    unfold written_parts. rewrite omap_app. simpl. by rewrite app_nil_r.
Qed.

End PipelineFacts.

(** C10. When the segmenter returns no slide group and the carver recovered
    at least one image, [distribute_images] takes [i % 0] and raises
    ZeroDivisionError; [main] calls it before its zero-slide check, so the
    run ends with that exception (after the clean-up of the [finally]
    clause) and the no-slide-content report is not made. The report, with
    return code 1, is made when the image count is zero. *)
Theorem zero_slides_with_images_crashes (a : Pipeline.args) (env : Pipeline.io_env)
    (image_count : Z) (store : gmap string Carver.bytes) (text_paragraphs : list string) :
  Segmenter.organize_text_into_slides text_paragraphs (Z.min 100 (Pipeline.max_slides a))
  = ∅ →
  (1 ≤ image_count →
   Distributor.distribute_images
     (Segmenter.organize_text_into_slides text_paragraphs
        (Z.min 100 (Pipeline.max_slides a))) image_count
   = Exn.Raise Exn.ZeroDivisionError
   ∧ Pipeline.main a env image_count store text_paragraphs
     = ((if Pipeline.extract_dir_given a then [] else [Pipeline.RemovedWorkDir]),
        Exn.Raise Exn.ZeroDivisionError))
  ∧ (image_count ≤ 0 →
     Pipeline.main a env image_count store text_paragraphs
     = (Pipeline.LoggedNoSlideContent
        :: (if Pipeline.extract_dir_given a then [] else [Pipeline.RemovedWorkDir]),
        Exn.Return 1)).
Proof.
  intros Hempty. unfold Pipeline.main, Pipeline.main_try. rewrite Hempty. split.
  - intros Hc. rewrite distribute_images_no_slides by done.
    split; [done|]. by destruct (Pipeline.extract_dir_given a).
  - intros Hc. rewrite distribute_images_none by done.
    rewrite sorted_keys_empty. simpl. by destruct (Pipeline.extract_dir_given a).
Qed.

Lemma zero_slides_with_images_crashes_witness :
  Pipeline.main (Pipeline.Args 100 15 10 false)
    (Pipeline.IoEnv (λ _, false) (λ _, false) (λ _, Assembler.empty_dir)) 1 ∅ []
  = ([Pipeline.RemovedWorkDir], Exn.Raise Exn.ZeroDivisionError).
Proof.
  apply (zero_slides_with_images_crashes (Pipeline.Args 100 15 10 false)
           (Pipeline.IoEnv (λ _, false) (λ _, false) (λ _, Assembler.empty_dir)) 1 ∅ []).
  - reflexivity.
  - lia.
Defined.

(** C8 fails on the code. A failure of the build or of the serialization
    of an archive is an exception, which [main] does not catch inside the
    loop: the loop ends there, no later archive is attempted, and [main]
    ends with the exception after the [finally] clause has removed the
    working directory. With two one-slide archives and a file system on
    which zipping archive 1 fails, the run builds package 1 and stops;
    on a file system that does not fail, the same run writes archives 1
    and 2. *)
Theorem failed_archive_aborts_batch :
  let a := Pipeline.Args 10 1 10 false in
  let paragraphs := TextFile.load_extracted_text_file TextFile.overview_details in
  let failing :=
    Pipeline.IoEnv (λ _, false) (λ part, bool_decide (part = 1))
      (λ _, Assembler.empty_dir) in
  let working :=
    Pipeline.IoEnv (λ _, false) (λ _, false) (λ _, Assembler.empty_dir) in
  (∃ pk, Pipeline.main a failing 0 ∅ paragraphs
         = ([Pipeline.BuiltPackage pk; Pipeline.RemovedWorkDir], Exn.Raise Exn.OSError)
         ∧ Assembler.pk_part_num pk = 1)
  ∧ Pipeline.written_parts (Pipeline.main a failing 0 ∅ paragraphs).1 = []
  ∧ Pipeline.written_parts (Pipeline.main a working 0 ∅ paragraphs).1 = [1; 2]
  ∧ (Pipeline.main a working 0 ∅ paragraphs).2 = Exn.Return 0.
Proof.
  split_and!.
  - eexists. split; vm_compute; reflexivity.
  - vm_compute; reflexivity.
  - vm_compute; reflexivity.
  - vm_compute; reflexivity.
Qed.

(** ** Stripping *)

Section Strip.

Lemma length_lstrip_le (s : string) :
(String.length (PyStr.lstrip s) ≤ String.length s)%nat.
Proof.
induction s as [|c s IH]; simpl; [done|]. destruct (PyStr.isspace c); simpl; lia.
Qed.

Lemma length_rstrip_le (s : string) :
(String.length (PyStr.rstrip s) ≤ String.length s)%nat.
Proof.
induction s as [|c s IH]; simpl; [done|].
destruct (PyStr.rstrip s); [destruct (PyStr.isspace c)|]; simpl in *; lia.
Qed.

Lemma length_strip_le (s : string) :
(String.length (PyStr.strip s) ≤ String.length s)%nat.
Proof.
unfold PyStr.strip. pose proof (length_rstrip_le (PyStr.lstrip s)).
pose proof (length_lstrip_le s). lia.
Qed.

End Strip.

(** * Further properties of the code *)

(** ** Slide parts *)

Section SlideParts.
Import Assembler.

Lemma mem_char_app (c : ascii) (s1 s2 : string) :
Chars.mem_char c (s1 +:+ s2) = Chars.mem_char c s1 || Chars.mem_char c s2.
Proof.
induction s1 as [|c' s1 IH]; [done|].
rewrite str_app_cons. simpl. rewrite IH. by rewrite orb_assoc.
Qed.

Lemma mem_char_take (c : ascii) (n : nat) (s : string) :
Chars.mem_char c s = false → Chars.mem_char c (PyStr.take n s) = false.
Proof.
revert s. induction n as [|n IH]; intros [|c' s]; simpl; try done.
intros [Hc Hs]%orb_false_elim. rewrite Hc. simpl. by apply IH.
Qed.

Lemma escape_all_no_angle (c : ascii) (s : string) :
c = "<"%char ∨ c = ">"%char → Chars.mem_char c (escape_all s) = false.
Proof.
intros Hc. induction s as [|c' s IH]; [done|].
simpl. rewrite mem_char_app, IH, orb_false_r. unfold escape_char.
destruct Hc as [-> | ->]; repeat case_decide; subst; simpl;
  rewrite ?orb_false_r; try done; by apply bool_decide_eq_false.
Qed.

Lemma limit_text_no_angle (c : ascii) (limit : nat) (s : string) :
c = "<"%char ∨ c = ">"%char →
Chars.mem_char c (limit_text limit (sanitize s)) = false.
Proof.
intros Hc. rewrite sanitize_escape_all.
pose proof (escape_all_no_angle c s Hc) as Hesc.
unfold limit_text, PyStr.slice_to. destruct (_ <? _); [|done].
rewrite mem_char_app, (mem_char_take _ _ _ Hesc).
by destruct Hc as [-> | ->].
Qed.

End SlideParts.

(** X1. No text run of a generated slide part contains a raw [<] or [>]:
    neither the title nor any body run, whether or not it was cut at the
    limit. *)
Theorem slide_text_has_no_angle_bracket (slide_num : Z) (title : string)
    (content images : list string) (c : ascii) :
  c = "<"%char ∨ c = ">"%char →
  let part := (Assembler.create_placeholder_slide slide_num title content images).1 in
  Chars.mem_char c (Assembler.sp_title part) = false
  ∧ Forall (λ shape, Chars.mem_char c (Assembler.ts_text shape) = false)
      (Assembler.sp_texts part).
Proof.
  intros Hc part.
  destruct (create_placeholder_slide_texts slide_num title content images)
    as [Htitle Htexts].
  fold part in Htitle, Htexts. split.
  - rewrite Htitle. by apply limit_text_no_angle.
  - apply Forall_fmap with (f := Assembler.ts_text)
      (P := λ t, Chars.mem_char c t = false).
    rewrite Htexts. apply Forall_fmap, Forall_forall. intros para _.
    by apply limit_text_no_angle.
Qed.

Lemma slide_text_has_no_angle_bracket_witness :
  Chars.mem_char "<"
    (Assembler.sp_title
       (Assembler.create_placeholder_slide 1 "a<b>c" ["x < y"] []).1) = false.
Proof.
  apply (slide_text_has_no_angle_bracket 1 "a<b>c" ["x < y"] [] "<"). by left.
Defined.

Section SlideShapes.
Import Assembler.

Lemma lookup_enumerate {A : Type} (l : list A) (i : nat) (p : Z * A) :
PySeq.enumerate l !! i = Some p ↔ p.1 = Z.of_nat i ∧ l !! i = Some p.2.
Proof.
unfold PySeq.enumerate, PySeq.len. destruct p as [k x]. simpl.
rewrite lookup_zip_with_Some. split.
- intros (k' & x' & [= -> ->] & Hk & Hx). apply lookup_seqZ in Hk. split; [lia|done].
- intros [-> Hx]. exists (Z.of_nat i), x. split; [done|]. split; [|done].
  apply lookup_seqZ. split; [lia|]. apply lookup_lt_Some in Hx. lia.
Qed.

Lemma take_slice_min {A : Type} (l : list A) (n : nat) :
PySeq.slice_to l (Z.min (Z.of_nat n) (PySeq.len l)) = take n l.
Proof.
rewrite slice_to_take by (unfold PySeq.len; lia).
destruct (Z.le_gt_cases (Z.of_nat n) (PySeq.len l)).
- rewrite Z.min_l by lia. by rewrite Nat2Z.id.
- rewrite Z.min_r by lia. unfold PySeq.len in *.
  rewrite Nat2Z.id. rewrite !take_ge; [done | lia..].
Qed.

Lemma seqZ_shift (a n : Z) : (λ i, i + a) <$> seqZ 0 n = seqZ a n.
Proof.
transitivity (Z.add a <$> seqZ 0 n).
- apply list_fmap_ext. intros; lia.
- rewrite fmap_add_seqZ. f_equal. lia.
Qed.

(** The ids of the text shapes are 3, 4, ... and those of the pictures
  20, 21, ..., one per fragment and per image kept. *)
Lemma create_placeholder_slide_ids slide_num title content (images : list string) :
let part := (create_placeholder_slide slide_num title content images).1 in
ts_id <$> sp_texts part = seqZ 3 (PySeq.len (take 8 content))
∧ pic_id <$> sp_pics part = seqZ 20 (PySeq.len (take 4 images)).
Proof.
unfold create_placeholder_slide. simpl.
pose proof (take_slice_min content 8) as H8.
pose proof (take_slice_min images 4) as H4.
change (Z.of_nat 8) with 8 in H8. change (Z.of_nat 4) with 4 in H4.
rewrite H8, H4.
unfold PySeq.enumerate. rewrite <- !list_fmap_compose. split.
- rewrite <- (seqZ_shift 3), <- (fmap_zip_seqZ_fst (λ i, i + 3) (take 8 content) 0).
  apply list_fmap_ext. by intros _ [i x] _.
- rewrite <- (seqZ_shift 20), <- (fmap_zip_seqZ_fst (λ i, i + 20) (take 4 images) 0).
  apply list_fmap_ext. by intros _ [i x] _.
Qed.

(** The [i]-th picture of a slide part. *)
Lemma create_placeholder_slide_pic slide_num title content (images : list string)
  (i : nat) (pic : picture) :
sp_pics (create_placeholder_slide slide_num title content images).1 !! i = Some pic →
(i < 4)%nat
∧ is_Some (images !! i)
∧ pic_x pic = 1388800 + (Z.of_nat i mod 2) * 4000000
∧ pic_y pic = 5000000 + (Z.of_nat i / 2) * 2000000.
Proof.
unfold create_placeholder_slide. simpl.
pose proof (take_slice_min images 4) as H4.
change (Z.of_nat 4) with 4 in H4. rewrite H4.
rewrite list_lookup_fmap. intros Hp.
destruct (PySeq.enumerate (take 4 images) !! i) as [[k img]|] eqn:Hen; [|done].
apply lookup_enumerate in Hen as [Hk Himg]. simpl in Hk, Himg. subst k.
injection Hp as <-. simpl.
apply lookup_take_Some in Himg as [Himg Hi].
split; [done|]. split; [by eexists|]. done.
Qed.

End SlideShapes.

(** X2. Within one generated slide part all shape ids are distinct: the
    group shape (1), the title (2), the text shapes (3, 4, ..., at most 8
    of them) and the pictures (20, 21, ..., at most 4). *)
Theorem slide_shape_ids_distinct (slide_num : Z) (title : string)
    (content images : list string) :
  let part := (Assembler.create_placeholder_slide slide_num title content images).1 in
  NoDup (Geometry.group_shape_id :: Geometry.title_shape_id
         :: (Assembler.ts_id <$> Assembler.sp_texts part)
         ++ (Assembler.pic_id <$> Assembler.sp_pics part))
  ∧ (length (Assembler.sp_texts part) ≤ 8)%nat
  ∧ (length (Assembler.sp_pics part) ≤ 4)%nat.
Proof.
  intros part.
  destruct (create_placeholder_slide_ids slide_num title content images)
    as [Hts Hpics]. fold part in Hts, Hpics.
  assert (length (Assembler.sp_texts part) ≤ 8)%nat as Hlt.
  { rewrite <- (length_fmap Assembler.ts_id), Hts, length_seqZ.
    unfold PySeq.len. rewrite length_take. lia. }
  assert (length (Assembler.sp_pics part) ≤ 4)%nat as Hlp.
  { rewrite <- (length_fmap Assembler.pic_id), Hpics, length_seqZ.
    unfold PySeq.len. rewrite length_take. lia. }
  split; [|done]. rewrite Hts, Hpics.
  assert (PySeq.len (take 8 content) ≤ 8) as H8
    by (unfold PySeq.len; rewrite length_take; lia).
  unfold Geometry.group_shape_id, Geometry.title_shape_id.
  apply NoDup_cons. split.
  { rewrite elem_of_cons, elem_of_app, !elem_of_seqZ. lia. }
  apply NoDup_cons. split.
  { rewrite elem_of_app, !elem_of_seqZ. lia. }
  apply NoDup_app. split_and!; [apply NoDup_seqZ | | apply NoDup_seqZ].
  intros x. rewrite !elem_of_seqZ. lia.
Qed.

(** X3. The pictures of a slide part are laid out on a grid of 2 columns,
    left to right and then downwards, no two at the same offset, all
    between the left and right edges of the slide area of
    12192000 x 6858000 declared in presentation.xml. None lies fully on the
    slide: the first two start at y = 5000000 and extend below the bottom
    edge, the third and the fourth start at y = 7000000, below it. *)
Theorem slide_pictures_grid (slide_num : Z) (title : string)
    (content images : list string) (i : nat) (pic : Assembler.picture) :
  Assembler.sp_pics
    (Assembler.create_placeholder_slide slide_num title content images).1 !! i
  = Some pic →
  Geometry.within_width pic
  ∧ ((i < 2)%nat → Geometry.overhangs_bottom pic)
  ∧ ((2 ≤ i)%nat → Geometry.below_slide pic)
  ∧ ∀ (j : nat) pic',
      Assembler.sp_pics
        (Assembler.create_placeholder_slide slide_num title content images).1 !! j
      = Some pic' →
      Assembler.pic_x pic' = Assembler.pic_x pic →
      Assembler.pic_y pic' = Assembler.pic_y pic → j = i.
Proof.
  intros Hpic.
  destruct (create_placeholder_slide_pic _ _ _ _ _ _ Hpic) as (Hi & _ & Hx & Hy).
  unfold Geometry.within_width, Geometry.overhangs_bottom, Geometry.below_slide,
    Geometry.slide_cx, Geometry.slide_cy, Geometry.pic_cx, Geometry.pic_cy.
  split_and!.
  - rewrite Hx.
    destruct i as [|[|[|[|i]]]]; [vm_compute; discriminate.. | lia].
  - rewrite Hx.
    destruct i as [|[|[|[|i]]]]; [vm_compute; discriminate.. | lia].
  - intros Hlt. rewrite Hy.
    destruct i as [|[|i]]; [vm_compute; split_and!; (reflexivity || discriminate).. | lia].
  - intros Hge. rewrite Hy.
    destruct i as [|[|[|[|i]]]]; [lia | lia | vm_compute; reflexivity.. | lia].
  - intros j pic' Hpic' Hxeq Hyeq.
    destruct (create_placeholder_slide_pic _ _ _ _ _ _ Hpic') as (Hj & _ & Hx' & Hy').
    rewrite Hx, Hx' in Hxeq. rewrite Hy, Hy' in Hyeq.
    destruct i as [|[|[|[|i]]]]; try lia;
      destruct j as [|[|[|[|j]]]]; try lia; try done;
      vm_compute in Hxeq, Hyeq; discriminate.
Qed.

Lemma slide_pictures_grid_witness :
  Geometry.below_slide
    (Assembler.Picture 22 "Picture 3" "rId3" 1388800 7000000).
Proof.
  apply (slide_pictures_grid 1 "t" [] ["a.png"; "b.png"; "c.png"] 2
           (Assembler.Picture 22 "Picture 3" "rId3" 1388800 7000000)).
  - reflexivity.
  - lia.
Defined.

(** ** Generated file names *)

Section Suffixes.

Lemma str_app_inv (s1 s2 e1 e2 : string) :
String.length e1 = String.length e2 →
s1 +:+ e1 = s2 +:+ e2 → s1 = s2 ∧ e1 = e2.
Proof.
intros Hlen. revert s2. induction s1 as [|c s1 IH]; intros [|c' s2] Heq.
- done.
- exfalso. rewrite str_app_nil in Heq. apply (f_equal String.length) in Heq.
  rewrite str_length_app in Heq. simpl in Heq. lia.
- exfalso. rewrite str_app_nil in Heq. apply (f_equal String.length) in Heq.
  rewrite str_length_app in Heq. simpl in Heq. lia.
- rewrite !str_app_cons in Heq. injection Heq as -> Heq.
  destruct (IH s2 Heq) as [-> ->]. done.
Qed.

Lemma file_name_inv (ext1 ext2 : string) (n1 n2 : Z) :
String.length ext1 = String.length ext2 →
CarverFiles.file_name ext1 n1 = CarverFiles.file_name ext2 n2 →
n1 = n2 ∧ ext1 = ext2.
Proof.
intros Hlen Heq. unfold CarverFiles.file_name in Heq.
apply (inj (String.app "image_")) in Heq.
apply str_app_inv in Heq as [Hn ->]; [|done].
split; [by apply of_int_inj | done].
Qed.

Lemma elem_of_enumerate {A : Type} (l : list A) (i : Z) (x : A) :
(i, x) ∈ PySeq.enumerate l ↔ 0 ≤ i ∧ l !! Z.to_nat i = Some x.
Proof.
rewrite list_elem_of_lookup. split.
- intros [k Hk]. apply lookup_enumerate in Hk as [Hi Hx]. simpl in *. subst i.
  split; [lia|]. by rewrite Nat2Z.id.
- intros [Hi Hx]. exists (Z.to_nat i). apply lookup_enumerate. simpl.
  split; [lia | done].
Qed.

End Suffixes.

(** ** Packages *)

Section PackageParts.
Import Segmenter Assembler.

Lemma lookup_fmap_enumerate {A B : Type} (f : Z * A → B) (l : list A) (i : nat) (x : A) :
l !! i = Some x → (f <$> PySeq.enumerate l) !! i = Some (f (Z.of_nat i, x)).
Proof.
intros Hx. rewrite list_lookup_fmap.
assert (PySeq.enumerate l !! i = Some (Z.of_nat i, x)) as ->; [|done].
by apply lookup_enumerate.
Qed.

Lemma length_enumerate {A : Type} (l : list A) :
length (PySeq.enumerate l) = length l.
Proof.
unfold PySeq.enumerate, PySeq.len.
rewrite length_zip_with, length_seqZ. lia.
Qed.

(** The slide written for a slide number: the slide group when the
  dictionary has one, the empty filler otherwise. *)
Lemma slide_for_restricted slides_content (slide_range : list Z) (slide_num : Z) :
slide_num ∈ slide_range →
(slide_for (restrict_to slides_content slide_range) slide_num).1
= match slides_content !! slide_num with
  | Some sd =>
      create_placeholder_slide slide_num (title sd) (content sd) (images sd)
  | None =>
      (SlidePart (title_text ("Recovered Slide " +:+ PyStr.of_int slide_num)) [] [],
       [])
  end.
Proof.
intros Hin. unfold slide_for. rewrite restrict_to_lookup, decide_True by done.
by destruct (slides_content !! slide_num).
Qed.

Lemma fmap_enumerate_rid {A B : Type} (g : Z * A → B) (h : B → string)
  (l : list A) :
(∀ i x, h (g (i, x)) = rid_name (1000 + i)) →
(h ∘ g) <$> PySeq.enumerate l = rid_name <$> seqZ 1000 (Z.of_nat (length l)).
Proof.
intros Hg. fold (PySeq.len l).
transitivity ((λ i, rid_name (1000 + i)) <$> seqZ 0 (PySeq.len l)).
- rewrite <- (fmap_zip_seqZ_fst (λ i, rid_name (1000 + i)) l 0).
  apply list_fmap_ext. intros _ [i x] _. simpl. apply Hg.
- rewrite (list_fmap_compose (Z.add 1000) rid_name), fmap_add_seqZ. done.
Qed.

End PackageParts.

(** The name of a slide file determines its number. *)
Lemma slide_file_name_inj (prefix suffix : string) (a b : Z) :
  prefix +:+ PyStr.of_int a +:+ suffix = prefix +:+ PyStr.of_int b +:+ suffix → a = b.
Proof.
  intros Heq. apply (inj (String.app prefix)) in Heq.
  apply str_app_inv in Heq as [Heq _]; [|done]. by apply of_int_inj.
Qed.

(** X4. In every package the parts that list the slides agree with the
    slide parts the call writes. For a range of n slide numbers the call
    writes n slide parts, n [<p:sldId>] entries with distinct ids 256,
    257, ..., n presentation relationships and n content-type overrides;
    the r:id of every [<p:sldId>] is the Id of exactly one presentation
    relationship, and that relationship's target [slides/slide<k>.xml] is
    overridden as [/ppt/slides/slide<k>.xml] and is the k-th slide part
    written. The slide files that an earlier call left in the directory
    stay there exactly when their number is outside 1..n, and then no
    presentation relationship and no override names them. *)
Theorem presentation_parts_agree (store : gmap string Carver.bytes)
    (old : Assembler.part_dir)
    (slides_content : gmap Z Segmenter.slide_data) (part_num start_slide end_slide : Z) :
  let pk :=
    Assembler.create_pptx_structure store old slides_content part_num start_slide
      end_slide in
  let n := Z.to_nat (end_slide + 1 - start_slide) in
  length (Assembler.pk_slides pk) = n
  ∧ length (Assembler.pk_overrides pk) = n
  ∧ (Assembler.pk_slide_ids pk).*1 = seqZ 256 (Z.of_nat n)
  ∧ (Assembler.pk_slide_ids pk).*2 = (Assembler.pk_pres_rels pk).*1
  ∧ NoDup (Assembler.pk_pres_rels pk).*1
  ∧ (∀ (i : nat) sid rid,
       Assembler.pk_slide_ids pk !! i = Some (sid, rid) →
       length (filter (λ rel, rel.1 = rid) (Assembler.pk_pres_rels pk)) = 1%nat
       ∧ ∃ target,
           Assembler.pk_pres_rels pk !! i = Some (rid, target)
           ∧ target = "slides/slide" +:+ PyStr.of_int (Z.of_nat i + 1) +:+ ".xml"
           ∧ Assembler.pk_overrides pk !! i = Some ("/ppt/" +:+ target)
           ∧ is_Some (Assembler.pk_slides pk !! i))
  ∧ (∀ k part,
       Assembler.pk_stale_slides pk !! k = Some part
       ↔ Assembler.pd_slides old !! k = Some part ∧ ¬ (1 ≤ k ≤ Z.of_nat n))
  ∧ (∀ k part,
       Assembler.pk_stale_slides pk !! k = Some part →
       (("slides/slide" +:+ PyStr.of_int k +:+ ".xml")
        ∉ (Assembler.pk_pres_rels pk).*2)
       ∧ (("/ppt/slides/slide" +:+ PyStr.of_int k +:+ ".xml")
          ∉ Assembler.pk_overrides pk)).
Proof.
  intros pk n. subst pk. unfold Assembler.create_pptx_structure. simpl.
  set (slide_range := seqZ start_slide (end_slide + 1 - start_slide)).
  assert (length slide_range = n) as Hlen by apply length_seqZ.
  assert (Hids : ((λ '(i, _), (256 + i, Assembler.rid_name (1000 + i)))
                  <$> PySeq.enumerate slide_range).*2
                 = Assembler.rid_name <$> seqZ 1000 (Z.of_nat n)).
  { rewrite <- list_fmap_compose, <- Hlen. by apply fmap_enumerate_rid; intros i x. }
  assert (Hrels : ((λ '(i, _), (Assembler.rid_name (1000 + i),
                      "slides/slide" +:+ PyStr.of_int (i + 1) +:+ ".xml"))
                   <$> PySeq.enumerate slide_range).*1
                  = Assembler.rid_name <$> seqZ 1000 (Z.of_nat n)).
  { rewrite <- list_fmap_compose, <- Hlen. by apply fmap_enumerate_rid; intros i x. }
  assert (Hnd : NoDup (Assembler.rid_name <$> seqZ 1000 (Z.of_nat n))).
  { apply NoDup_fmap_2; [apply _ | apply NoDup_seqZ]. }
  assert (Hstale : ∀ k part,
            filter (λ kv : Z * (Assembler.slide_part * list Assembler.relationship),
                      ¬ (1 ≤ kv.1 ≤ PySeq.len slide_range))
              (Assembler.pd_slides old) !! k = Some part
            ↔ Assembler.pd_slides old !! k = Some part ∧ ¬ (1 ≤ k ≤ Z.of_nat n)).
  { intros k part. rewrite map_lookup_filter_Some. unfold PySeq.len.
    by rewrite Hlen. }
  split_and!.
  - by rewrite !length_fmap.
  - by rewrite length_fmap, length_enumerate.
  - rewrite <- list_fmap_compose, <- Hlen. fold (PySeq.len slide_range).
    rewrite <- (seqZ_shift 256).
    rewrite <- (fmap_zip_seqZ_fst (λ i, i + 256) slide_range 0).
    apply list_fmap_ext. intros _ [i x] _. simpl. lia.
  - by rewrite Hids, Hrels.
  - by rewrite Hrels.
  - intros i sid rid Hi.
    rewrite list_lookup_fmap in Hi.
    destruct (PySeq.enumerate slide_range !! i) as [[k num]|] eqn:Hen; [|done].
    apply lookup_enumerate in Hen as [Hk Hnum]. simpl in Hk, Hnum. subst k.
    injection Hi as <- <-. split.
    + apply (unique_by_key fst); [by rewrite Hrels|].
      rewrite Hrels. apply list_elem_of_fmap. exists (1000 + Z.of_nat i).
      split; [done|]. apply elem_of_seqZ. apply lookup_lt_Some in Hnum. lia.
    + eexists. split_and!.
      * by rewrite (lookup_fmap_enumerate _ _ _ _ Hnum).
      * done.
      * by rewrite (lookup_fmap_enumerate _ _ _ _ Hnum).
      * rewrite !list_lookup_fmap, Hnum. by eexists.
  - exact Hstale.
  - intros k part [_ Hk]%Hstale. split.
    + intros (rel & Heq & Hrel)%list_elem_of_fmap.
      apply list_elem_of_fmap in Hrel as ([i num] & -> & Hin). simpl in Heq.
      apply elem_of_enumerate in Hin as [Hi Hx]. apply lookup_lt_Some in Hx.
      apply slide_file_name_inj in Heq. lia.
    + intros ([i num] & Heq & Hin)%list_elem_of_fmap.
      apply elem_of_enumerate in Hin as [Hi Hx]. apply lookup_lt_Some in Hx.
      apply slide_file_name_inj in Heq. lia.
Qed.

Lemma presentation_parts_agree_witness :
  length
    (filter (λ rel : string * string, rel.1 = "rId1001")
       (Assembler.pk_pres_rels
          (Assembler.create_pptx_structure ∅ Assembler.empty_dir ∅ 1 1 3)))
  = 1%nat.
Proof.
  pose proof (presentation_parts_agree ∅ Assembler.empty_dir ∅ 1 1 3) as H.
  cbv zeta in H. destruct H as (_ & _ & _ & _ & _ & H & _).
  apply (H 1%nat 257 "rId1001"). reflexivity.
Defined.

Section PackageSlides.
Import Segmenter Assembler.

Lemma package_slide_lookup (store : gmap string Carver.bytes) (old : part_dir)
  (slides_content : gmap Z slide_data) (part_num start_slide end_slide : Z) (k : nat) :
start_slide + Z.of_nat k ≤ end_slide →
pk_slides
  (create_pptx_structure store old slides_content part_num start_slide end_slide)
!! k
= Some
    match slides_content !! (start_slide + Z.of_nat k) with
    | Some sd =>
        create_placeholder_slide (start_slide + Z.of_nat k)
          (title sd) (content sd) (images sd)
    | None =>
        (SlidePart
           (title_text ("Recovered Slide " +:+ PyStr.of_int (start_slide + Z.of_nat k)))
           [] [],
         [])
    end.
Proof.
intros Hk. unfold create_pptx_structure. simpl.
rewrite !list_lookup_fmap.
rewrite lookup_seqZ_lt by lia. simpl. f_equal.
apply slide_for_restricted. apply elem_of_seqZ. lia.
Qed.

End PackageSlides.

(** X5. The k-th slide part of a package, counting from zero, is written
    for slide number [start_slide + k]: from that slide group's title,
    body and images when the dictionary has one, and otherwise as a filler
    titled "Recovered Slide <number>" with no text run, no picture and no
    relationship. *)
Theorem package_slide_parts (store : gmap string Carver.bytes)
    (old : Assembler.part_dir)
    (slides_content : gmap Z Segmenter.slide_data)
    (part_num start_slide end_slide : Z) (k : nat) :
  start_slide + Z.of_nat k ≤ end_slide →
  Assembler.pk_slides
    (Assembler.create_pptx_structure store old slides_content part_num start_slide
       end_slide)
  !! k
  = Some
      match slides_content !! (start_slide + Z.of_nat k) with
      | Some sd =>
          Assembler.create_placeholder_slide (start_slide + Z.of_nat k)
            (Segmenter.title sd) (Segmenter.content sd) (Segmenter.images sd)
      | None =>
          (Assembler.SlidePart
             (Assembler.title_text
                ("Recovered Slide " +:+ PyStr.of_int (start_slide + Z.of_nat k)))
             [] [],
           [])
      end.
Proof. apply package_slide_lookup. Qed.

Lemma package_slide_parts_witness :
  Assembler.pk_slides
    (Assembler.create_pptx_structure ∅ Assembler.empty_dir ∅ 1 5 6) !! 1%nat
  = Some (Assembler.SlidePart "Recovered Slide 6" [] [], []).
Proof.
  rewrite (package_slide_parts ∅ Assembler.empty_dir ∅ 1 5 6 1) by lia. reflexivity.
Defined.

Section PackageMedia.
Import Segmenter Assembler.

(** The names the copy loop runs over: the images of the slide groups of
  the range. *)
Lemma used_images_spec (slides_content : gmap Z slide_data)
  (start_slide end_slide : Z) (img : string) :
img ∈ mjoin ((slide_for
                (restrict_to slides_content
                   (seqZ start_slide (end_slide + 1 - start_slide)))
              <$> seqZ start_slide (end_slide + 1 - start_slide)).*2)
↔ ∃ slide_num sd,
    start_slide ≤ slide_num ≤ end_slide
    ∧ slides_content !! slide_num = Some sd
    ∧ img ∈ images sd.
Proof.
set (slide_range := seqZ start_slide (end_slide + 1 - start_slide)). split.
- intros (imgs & Himg & Himgs)%list_elem_of_join.
  apply list_elem_of_fmap in Himgs as ([part imgs'] & -> & Hw).
  apply list_elem_of_fmap in Hw as (num & Heq & Hnum). simpl in Himg.
  pose proof Hnum as Hrange. apply elem_of_seqZ in Hrange.
  unfold slide_for in Heq. rewrite restrict_to_lookup in Heq.
  rewrite decide_True in Heq by done.
  destruct (slides_content !! num) as [sd|] eqn:Hsd.
  + injection Heq as _ ->. exists num, sd. split; [lia|done].
  + injection Heq as _ ->. by apply elem_of_nil in Himg.
- intros (num & sd & Hrange & Hsd & Himg).
  assert (num ∈ slide_range) as Hnum by (apply elem_of_seqZ; lia).
  apply list_elem_of_join. exists (images sd). split; [done|].
  apply list_elem_of_fmap.
  exists (slide_for (restrict_to slides_content slide_range) num).
  split.
  + unfold slide_for. rewrite restrict_to_lookup, decide_True by done.
    by rewrite Hsd.
  + apply list_elem_of_fmap. by exists num.
Qed.

End PackageMedia.

(** X6. Every file in a package's media directory is either named in the
    image list of a slide group of the package's range, and is then that
    name's copy from the media store or its placeholder, or was in the
    directory before the call under a name that no slide group of the
    range uses, and is then unchanged. *)
Theorem package_media_used_or_stale (store : gmap string Carver.bytes)
    (old : Assembler.part_dir)
    (slides_content : gmap Z Segmenter.slide_data)
    (part_num start_slide end_slide : Z) (img : string) (file : Assembler.media_file) :
  Assembler.pk_media
    (Assembler.create_pptx_structure store old slides_content part_num start_slide
       end_slide)
  !! img = Some file →
  (file = Assembler.media_for store img
   ∧ ∃ slide_num sd,
       start_slide ≤ slide_num ≤ end_slide
       ∧ slides_content !! slide_num = Some sd
       ∧ img ∈ Segmenter.images sd)
  ∨ (Assembler.pd_media old !! img = Some file
     ∧ ∀ slide_num sd,
         start_slide ≤ slide_num ≤ end_slide →
         slides_content !! slide_num = Some sd →
         img ∉ Segmenter.images sd).
Proof.
  unfold Assembler.create_pptx_structure. simpl.
  rewrite copy_loop_lookup.
  destruct (decide _) as [Hin|Hnin].
  - intros [= <-]. left. split; [done|].
    rewrite elem_of_remove_dups in Hin. by apply used_images_spec in Hin.
  - intros Hold. right. split; [done|].
    intros slide_num sd Hrange Hsd Himg. apply Hnin.
    rewrite elem_of_remove_dups. apply used_images_spec. by exists slide_num, sd.
Qed.

Lemma package_media_used_or_stale_witness :
  Assembler.PlaceholderImage "image_1.png" = Assembler.media_for ∅ "image_1.png"
  ∧ ∃ slide_num sd,
      1 ≤ slide_num ≤ 1
      ∧ (<[1 := Segmenter.SlideData "A" [] ["image_1.png"]]> ∅
         : gmap Z Segmenter.slide_data) !! slide_num = Some sd
      ∧ "image_1.png" ∈ Segmenter.images sd.
Proof.
  destruct (package_media_used_or_stale ∅
              (Assembler.PartDir ∅ (<["old.png" := Assembler.Copied []]> ∅))
              (<[1 := Segmenter.SlideData "A" [] ["image_1.png"]]> ∅) 1 1 1
              "image_1.png" (Assembler.PlaceholderImage "image_1.png"))
    as [Hused|[Hstale _]].
  - reflexivity.
  - exact Hused.
  - vm_compute in Hstale. discriminate.
Defined.

(** ** The pipeline, end to end *)

Section PipelineRuns.
Import Exn Segmenter Distributor Assembler Pipeline.

Lemma split_plan_bounds (T S F : Z) :
1 ≤ T → 1 ≤ S → 1 ≤ F →
∃ spf N,
  split_plan T S F = Return (spf, N)
  ∧ 1 ≤ spf ∧ 1 ≤ N ∧ N ≤ F ∧ N ≤ T ∧ T ≤ N * spf ∧ (N - 1) * spf < T.
Proof.
intros HT HS HF.
set (s0 := Z.min S T).
assert (1 ≤ s0) as Hs0 by (subst s0; lia).
destruct (ceil_div_bounds T s0 HT Hs0) as (Hq1 & Hq2 & Hq3).
set (q := (T + s0 - 1) / s0) in *.
set (d := Z.min F q).
assert (1 ≤ d) as Hd by (subst d; lia).
destruct (ceil_div_bounds T d HT Hd) as (Hp1 & Hp2 & Hp3).
set (spf := (T + d - 1) / d) in *.
destruct (ceil_div_bounds T spf HT Hp1) as (Hn1 & Hn2 & Hn3).
set (N := (T + spf - 1) / spf) in *.
exists spf, N. split.
{ unfold split_plan, floordiv. fold s0.
  rewrite decide_False by lia. simpl. fold q d.
  rewrite decide_False by lia. simpl. fold spf.
  rewrite decide_False by lia. done. }
assert (N ≤ d) by nia. split_and!; [lia | lia | subst d; lia | nia | lia | lia].
Qed.

(** Two dictionaries with the same keys have the same sorted keys. *)
Lemma sorted_keys_ext {V W : Type} (m1 : gmap Z V) (m2 : gmap Z W) :
(∀ n, is_Some (m1 !! n) ↔ is_Some (m2 !! n)) → sorted_keys m1 = sorted_keys m2.
Proof.
intros Hdom. apply (Sorted_unique Z.le).
- apply Sorted_merge_sort. apply _.
- apply Sorted_merge_sort. apply _.
- apply NoDup_Permutation; [apply NoDup_sorted_keys..|].
  intros n. by rewrite !elem_of_sorted_keys.
Qed.

(** The distributor returns a dictionary with the keys it was given. *)
Lemma distribute_images_keys (slides_content : gmap Z slide_data) (image_count : Z) :
slides_content ≠ ∅ → 0 ≤ image_count →
∃ result,
  distribute_images slides_content image_count = Return result
  ∧ sorted_keys result = sorted_keys slides_content.
Proof.
intros Hne Hc.
destruct (distribute_prefix slides_content Hne (Z.to_nat image_count))
  as (m & Hrun & Hkeys & Hother).
rewrite Z2Nat.id in Hrun by done.
exists m. split; [exact Hrun|]. apply sorted_keys_ext. intros num. split.
- intros Hm. destruct (slides_content !! num) eqn:Hsc; [by eexists|].
  rewrite (Hother num Hsc) in Hm. by destruct Hm.
- intros [sd Hsd].
  assert (num ∈ sorted_keys slides_content) as Hin
    by (apply elem_of_sorted_keys; by eexists).
  apply list_elem_of_lookup in Hin as [k Hk].
  rewrite (Hkeys k num sd Hk Hsd). by eexists.
Qed.

Lemma sorted_keys_nonempty {V : Type} (m : gmap Z V) :
m ≠ ∅ → 1 ≤ PySeq.len (sorted_keys m).
Proof.
intros Hne. unfold PySeq.len. rewrite length_sorted_keys.
destruct (decide (size m = 0%nat)) as [Hz|]; [|lia].
by apply map_size_empty_iff in Hz.
Qed.

End PipelineRuns.

(** X7. A run on input that yields at least one slide group, with an
    image count c >= 0, caps slides-per-file >= 1 and max-files >= 1, and
    a file system that does not fail, returns 0 and writes exactly the
    archives 1..N, where 1 <= N <= max-files and N is at most the number
    of slide groups; with a temporary working directory its last action is
    to remove that directory. *)
Theorem main_succeeds (a : Pipeline.args) (env : Pipeline.io_env) (image_count : Z)
    (store : gmap string Carver.bytes) (text_paragraphs : list string) :
  Segmenter.organize_text_into_slides text_paragraphs (Z.min 100 (Pipeline.max_slides a))
  ≠ ∅ →
  0 ≤ image_count →
  1 ≤ Pipeline.slides_per_file a → 1 ≤ Pipeline.max_files a →
  (∀ n, Pipeline.build_raises env n = false) →
  (∀ n, Pipeline.zip_raises env n = false) →
  ∃ log N,
    Pipeline.main a env image_count store text_paragraphs
    = (log ++ (if Pipeline.extract_dir_given a then [] else [Pipeline.RemovedWorkDir]),
       Exn.Return 0)
    ∧ Pipeline.written_parts log = seqZ 1 N
    ∧ 1 ≤ N ∧ N ≤ Pipeline.max_files a
    ∧ N ≤ Z.of_nat (size (Segmenter.organize_text_into_slides text_paragraphs
                            (Z.min 100 (Pipeline.max_slides a)))).
Proof.
  intros Hne Hc HS HF Hb Hz. unfold Pipeline.main, Pipeline.main_try.
  set (sc := Segmenter.organize_text_into_slides _ _) in *.
  destruct (distribute_images_keys sc image_count Hne Hc) as (sc' & Hdist & Hkeys).
  rewrite Hdist, Hkeys.
  pose proof (sorted_keys_nonempty sc Hne) as HT.
  rewrite decide_False by lia.
  destruct (split_plan_bounds _ _ _ HT HS HF)
    as (spf & N & Hplan & Hspf & HN1 & HNF & HNT & Hcover & Hlast).
  rewrite Hplan.
  assert (Hslices : Forall (λ i, Pipeline.file_slide_numbers_of
                                   (Segmenter.sorted_keys sc) spf i ≠ [])
                      (PySeq.range N)).
  { apply Forall_forall. intros i Hi. apply elem_of_seqZ in Hi.
    intros Hnil. apply (f_equal PySeq.len) in Hnil.
    unfold Pipeline.file_slide_numbers_of in Hnil.
    rewrite length_slice_nonneg in Hnil by nia.
    change (PySeq.len []) with 0 in Hnil. nia. }
  destruct (archive_loop_writes_all a env store sc' (Segmenter.sorted_keys sc) spf
              (PySeq.range N) [] Hb Hz Hslices) as (log & Hrun & Hparts).
  rewrite Hrun. simpl. exists log, N.
  split; [by destruct (Pipeline.extract_dir_given a); rewrite ?app_nil_r|].
  split.
  { rewrite Hparts. simpl. unfold PySeq.range. apply seqZ_shift. }
  split_and!; [done | done |].
  unfold PySeq.len in HNT. rewrite length_sorted_keys in HNT. done.
Qed.

Lemma main_succeeds_witness :
  ∃ log N,
    Pipeline.main (Pipeline.Args 100 15 10 false)
      (Pipeline.IoEnv (λ _, false) (λ _, false) (λ _, Assembler.empty_dir)) 2 ∅ ["Hello world"]
    = (log ++ [Pipeline.RemovedWorkDir], Exn.Return 0)
    ∧ Pipeline.written_parts log = seqZ 1 N.
Proof.
  destruct (main_succeeds (Pipeline.Args 100 15 10 false)
              (Pipeline.IoEnv (λ _, false) (λ _, false) (λ _, Assembler.empty_dir)) 2 ∅ ["Hello world"])
    as (log & N & Hmain & Hparts & _); [by vm_compute | lia | simpl; lia | simpl; lia
                                        | done | done |].
  exists log, N. auto.
Defined.

(** X8. A cap of zero crashes the run: when at least one slide group
    exists and the image count is c >= 0, slides-per-file = 0, or
    max-files = 0 with slides-per-file >= 1, makes the splitter divide by
    zero; [main] ends with ZeroDivisionError and writes no archive. *)
Theorem main_zero_cap_crashes (a : Pipeline.args) (env : Pipeline.io_env)
    (image_count : Z) (store : gmap string Carver.bytes)
    (text_paragraphs : list string) :
  Segmenter.organize_text_into_slides text_paragraphs (Z.min 100 (Pipeline.max_slides a))
  ≠ ∅ →
  0 ≤ image_count →
  Pipeline.slides_per_file a = 0
  ∨ (1 ≤ Pipeline.slides_per_file a ∧ Pipeline.max_files a = 0) →
  Pipeline.main a env image_count store text_paragraphs
  = ((if Pipeline.extract_dir_given a then [] else [Pipeline.RemovedWorkDir]),
     Exn.Raise Exn.ZeroDivisionError).
Proof.
  intros Hne Hc Hcap. unfold Pipeline.main, Pipeline.main_try.
  set (sc := Segmenter.organize_text_into_slides _ _) in *.
  destruct (distribute_images_keys sc image_count Hne Hc) as (sc' & Hdist & Hkeys).
  rewrite Hdist, Hkeys.
  pose proof (sorted_keys_nonempty sc Hne) as HT.
  rewrite decide_False by lia.
  set (T := PySeq.len (Segmenter.sorted_keys sc)) in *.
  assert (Pipeline.split_plan T (Pipeline.slides_per_file a) (Pipeline.max_files a)
          = Exn.Raise Exn.ZeroDivisionError) as ->.
  { unfold Pipeline.split_plan, Exn.floordiv. destruct Hcap as [-> | [HS ->]].
    - rewrite Z.min_l by lia. by rewrite decide_True.
    - rewrite decide_False by lia. simpl.
      assert (1 ≤ Z.min (Pipeline.slides_per_file a) T) as Hs0 by lia.
      destruct (ceil_div_bounds T _ HT Hs0) as (Hq1 & _).
      rewrite Z.min_l by lia. by rewrite decide_True. }
  by destruct (Pipeline.extract_dir_given a).
Qed.

Lemma main_zero_cap_crashes_witness :
  Pipeline.main (Pipeline.Args 100 0 10 false)
    (Pipeline.IoEnv (λ _, false) (λ _, false) (λ _, Assembler.empty_dir)) 0 ∅ ["Hello world"]
  = ([Pipeline.RemovedWorkDir], Exn.Raise Exn.ZeroDivisionError).
Proof.
  apply (main_zero_cap_crashes (Pipeline.Args 100 0 10 false)
           (Pipeline.IoEnv (λ _, false) (λ _, false) (λ _, Assembler.empty_dir)) 0 ∅ ["Hello world"]).
  - by vm_compute.
  - lia.
  - left. reflexivity.
Defined.

(** ** Renumbering of slides per archive *)

Section Remapping.
Import Segmenter Assembler Pipeline.

Variable slides_content : gmap Z slide_data.

Abbreviation remap := (Renumbering.remap_entry slides_content).

Lemma remap_keys_above (l : list Z) (a k : Z) :
k < a + 1 →
(list_to_map (omap remap (zip (seqZ a (PySeq.len l)) l)) : gmap Z slide_data) !! k
= None.
Proof.
revert a. unfold PySeq.len. induction l as [|x l IH]; intros a Hk; [done|].
change (length (x :: l)) with (S (length l)).
rewrite Nat2Z.inj_succ, seqZ_cons by lia. rewrite Z.pred_succ.
change (zip (a :: ?s) (x :: l)) with ((a, x) :: zip s l).
rewrite omap_cons_eq. unfold Renumbering.remap_entry at 1.
destruct (slides_content !! x) as [v|]; simpl.
- rewrite lookup_insert_ne by lia. apply IH. lia.
- apply IH. lia.
Qed.

Lemma remap_lookup (l : list Z) (a : Z) (j : nat) (num : Z) :
l !! j = Some num →
(list_to_map (omap remap (zip (seqZ a (PySeq.len l)) l)) : gmap Z slide_data)
!! (a + Z.of_nat j + 1)
= slides_content !! num.
Proof.
revert a j. unfold PySeq.len. induction l as [|x l IH]; intros a j Hj; [done|].
change (length (x :: l)) with (S (length l)).
rewrite Nat2Z.inj_succ, seqZ_cons by lia. rewrite Z.pred_succ.
change (zip (a :: ?s) (x :: l)) with ((a, x) :: zip s l).
rewrite omap_cons_eq. unfold Renumbering.remap_entry at 1.
destruct j as [|j].
- injection Hj as ->. rewrite Z.add_0_r.
  destruct (slides_content !! num) as [v|] eqn:Hv; simpl.
  + by rewrite lookup_insert_eq.
  + apply (remap_keys_above l (Z.succ a)). lia.
- simpl in Hj.
  replace (a + Z.of_nat (S j) + 1) with (Z.succ a + Z.of_nat j + 1) by lia.
  destruct (slides_content !! x) as [v|]; simpl.
  + rewrite lookup_insert_ne by lia. by apply IH.
  + by apply IH.
Qed.

Lemma file_content_of_lookup (l : list Z) (j : nat) (num : Z) :
l !! j = Some num →
file_content_of slides_content l !! (Z.of_nat j + 1) = slides_content !! num.
Proof.
intros Hj. unfold file_content_of, PySeq.enumerate.
pose proof (remap_lookup l 0 j num Hj) as H. by rewrite Z.add_0_l in H.
Qed.

End Remapping.

Section ArchivePackages.
Import Exn Segmenter Assembler Pipeline.

(** Every package built by the loop is built for one of its indices, from
  that index's slice. *)
Lemma archive_loop_packages (a : args) (env : io_env) store slides_content
  (slide_numbers : list Z) (spf : Z) (indices : list Z) (log : list event)
  (pk : package) :
BuiltPackage pk
∈ (archive_loop a env store slides_content slide_numbers spf indices log).1 →
BuiltPackage pk ∈ log
∨ ∃ i, i ∈ indices
       ∧ pk = create_pptx_structure store (part_dir_before a env (i + 1))
                (file_content_of slides_content
                   (file_slide_numbers_of slide_numbers spf i))
                (i + 1) 1
                (PySeq.len (file_slide_numbers_of slide_numbers spf i)).
Proof.
revert log. induction indices as [|i rest IH]; intros log; simpl; [by left|].
destruct (file_slide_numbers_of slide_numbers spf i) as [|x xs] eqn:Hs.
{ intros [?|(j & Hj & ->)]%IH; [by left|].
  right. exists j. split; [by right | done]. }
destruct (build_raises env (i + 1)); [by left|].
assert (Hhere : ∃ j, j ∈ i :: rest
          ∧ create_pptx_structure store (part_dir_before a env (i + 1))
              (file_content_of slides_content (x :: xs)) (i + 1) 1
              (PySeq.len (x :: xs))
            = create_pptx_structure store (part_dir_before a env (j + 1))
                (file_content_of slides_content
                   (file_slide_numbers_of slide_numbers spf j))
                (j + 1) 1
                (PySeq.len (file_slide_numbers_of slide_numbers spf j))).
{ exists i. split; [left|]. by rewrite Hs. }
unfold create_pptx. destruct (zip_raises env (i + 1)); simpl.
- intros [Hin|Hin]%elem_of_app; [by left|].
  apply list_elem_of_singleton in Hin. injection Hin as ->.
  right. destruct Hhere as (j & Hj & Heq). by exists j.
- intros [Hin|(j & Hj & ->)]%IH.
  + assert (BuiltPackage pk ∈ log
            ∨ BuiltPackage pk
              = BuiltPackage
                  (create_pptx_structure store (part_dir_before a env (i + 1))
                     (file_content_of slides_content (x :: xs)) (i + 1) 1
                     (PySeq.len (x :: xs)))) as [?|Heq].
    { destruct (extract_dir_given a).
      - apply elem_of_app in Hin as [Hin|Hin];
          [|by apply list_elem_of_singleton in Hin].
        apply elem_of_app in Hin as [Hin|Hin]; [by left|].
        right. by apply list_elem_of_singleton in Hin.
      - apply elem_of_app in Hin as [Hin|Hin];
          [|by apply list_elem_of_singleton in Hin].
        apply elem_of_app in Hin as [Hin|Hin];
          [|by apply list_elem_of_singleton in Hin].
        apply elem_of_app in Hin as [Hin|Hin]; [by left|].
        right. by apply list_elem_of_singleton in Hin. }
    * by left.
    * injection Heq as ->. right. destruct Hhere as (j & Hj & Heq). by exists j.
  + right. exists j. split; [by right | done].
Qed.

(** The packages of a run. *)
Lemma main_packages (a : args) (env : io_env) (image_count : Z)
  (store : gmap string Carver.bytes) (text_paragraphs : list string) (pk : package) :
BuiltPackage pk ∈ (main a env image_count store text_paragraphs).1 →
∃ slides_content spf N i,
  Distributor.distribute_images
    (organize_text_into_slides text_paragraphs (Z.min 100 (max_slides a)))
    image_count
  = Return slides_content
  ∧ split_plan (PySeq.len (sorted_keys slides_content)) (slides_per_file a)
      (max_files a)
    = Return (spf, N)
  ∧ 0 ≤ i < N
  ∧ pk = create_pptx_structure store (part_dir_before a env (i + 1))
           (file_content_of slides_content
              (file_slide_numbers_of (sorted_keys slides_content) spf i))
           (i + 1) 1
           (PySeq.len (file_slide_numbers_of (sorted_keys slides_content) spf i)).
Proof.
unfold main, main_try.
set (sc := organize_text_into_slides _ _).
assert (Hfinally : ∀ log : list event,
          BuiltPackage pk
          ∈ (if extract_dir_given a then log else log ++ [RemovedWorkDir]) →
          BuiltPackage pk ∈ log).
{ intros log Hin. destruct (extract_dir_given a); [done|].
  apply elem_of_app in Hin as [Hin|Hin]; [done|].
  by apply list_elem_of_singleton in Hin. }
destruct (Distributor.distribute_images sc image_count) as [sc'|e] eqn:Hdist.
2:{ simpl. by intros ?%Hfinally%elem_of_nil. }
destruct (decide (PySeq.len (sorted_keys sc') = 0)).
{ simpl. intros Hin%Hfinally. by apply list_elem_of_singleton in Hin. }
destruct (split_plan _ _ _) as [[spf N]|e] eqn:Hplan.
2:{ simpl. by intros ?%Hfinally%elem_of_nil. }
pose proof (archive_loop_packages a env store sc' (sorted_keys sc') spf
              (PySeq.range N) [] pk) as Hloop.
destruct (archive_loop a env store sc' (sorted_keys sc') spf (PySeq.range N) [])
  as [log [r|e]]; simpl in *.
- intros Hin%Hfinally. destruct (Hloop Hin) as [?%elem_of_nil|(i & Hi & ->)]; [done|].
  apply elem_of_seqZ in Hi. exists sc', spf, N, i. split_and!; [done|done|lia|lia|done].
- intros Hin%Hfinally. destruct (Hloop Hin) as [?%elem_of_nil|(i & Hi & ->)]; [done|].
  apply elem_of_seqZ in Hi. exists sc', spf, N, i. split_and!; [done|done|lia|lia|done].
Qed.

End ArchivePackages.

(** X9. Every slide part that [main] writes for an archive comes from a
    slide group, never from the "Recovered Slide" filler: the package of
    the i-th slice of the sorted slide numbers gets as many slide parts
    as the slice has numbers, and slide j+1 is built from the title, body
    and images of the slide group whose number is the j-th element of the
    slice. With a temporary working directory the package directory holds
    no other slide file; with [--extract-dir] it also holds the slide
    files that were in [part_<i+1>] before the run under a number above
    the slice's length, and these are the only ones. *)
Theorem archive_slides_are_renumbered_groups (a : Pipeline.args)
    (env : Pipeline.io_env) (image_count : Z) (store : gmap string Carver.bytes)
    (text_paragraphs : list string) (pk : Assembler.package) :
  Pipeline.BuiltPackage pk
  ∈ (Pipeline.main a env image_count store text_paragraphs).1 →
  ∃ slides_content spf N i,
    Distributor.distribute_images
      (Segmenter.organize_text_into_slides text_paragraphs
         (Z.min 100 (Pipeline.max_slides a)))
      image_count
    = Exn.Return slides_content
    ∧ Pipeline.split_plan (PySeq.len (Segmenter.sorted_keys slides_content))
        (Pipeline.slides_per_file a) (Pipeline.max_files a)
      = Exn.Return (spf, N)
    ∧ 0 ≤ i < N
    ∧ Assembler.pk_part_num pk = i + 1
    ∧ let file_slide_numbers :=
        Pipeline.file_slide_numbers_of (Segmenter.sorted_keys slides_content) spf i in
      length (Assembler.pk_slides pk) = length file_slide_numbers
      ∧ (∀ (j : nat) num,
           file_slide_numbers !! j = Some num →
           ∃ sd,
             slides_content !! num = Some sd
             ∧ Assembler.pk_slides pk !! j
               = Some (Assembler.create_placeholder_slide (Z.of_nat j + 1)
                         (Segmenter.title sd) (Segmenter.content sd)
                         (Segmenter.images sd)))
      ∧ (∀ k part,
           Assembler.pk_stale_slides pk !! k = Some part
           ↔ Pipeline.extract_dir_given a = true
             ∧ Assembler.pd_slides (Pipeline.part_dirs env (i + 1)) !! k = Some part
             ∧ ¬ (1 ≤ k ≤ PySeq.len file_slide_numbers)).
Proof.
  intros (sc & spf & N & i & Hdist & Hplan & Hi & ->)%main_packages.
  exists sc, spf, N, i. split_and!; [done | done | lia | lia | done |].
  cbv zeta. set (l := Pipeline.file_slide_numbers_of (Segmenter.sorted_keys sc) spf i).
  split_and!.
  - unfold Assembler.create_pptx_structure. simpl.
    rewrite !length_fmap, length_seqZ. unfold PySeq.len. lia.
  - intros j num Hj.
    assert (is_Some (sc !! num)) as [sd Hsd].
    { apply elem_of_sorted_keys. apply (elem_of_slice _ (i * spf)
        (Z.min ((i + 1) * spf) (PySeq.len (Segmenter.sorted_keys sc)))).
      apply list_elem_of_lookup. by exists j. }
    exists sd. split; [done|].
    rewrite package_slide_lookup.
    + replace (1 + Z.of_nat j) with (Z.of_nat j + 1) by lia.
      by rewrite (file_content_of_lookup sc l j num Hj), Hsd.
    + apply lookup_lt_Some in Hj. unfold PySeq.len. lia.
  - intros k part. unfold Assembler.create_pptx_structure. simpl.
    rewrite map_lookup_filter_Some. simpl.
    replace (PySeq.len l + 1 - 1) with (PySeq.len l) by lia.
    assert (PySeq.len (seqZ 1 (PySeq.len l)) = PySeq.len l) as ->.
    { unfold PySeq.len. rewrite length_seqZ. lia. }
    unfold Pipeline.part_dir_before.
    destruct (Pipeline.extract_dir_given a); simpl.
    + split; [by intros [? ?] | by intros (_ & ? & ?)].
    + rewrite lookup_empty. split; [by intros [? ?] | by intros [? _]].
Qed.

Lemma archive_slides_are_renumbered_groups_witness :
  ∃ pk,
    Pipeline.BuiltPackage pk
    ∈ (Pipeline.main (Pipeline.Args 100 15 10 false)
         (Pipeline.IoEnv (λ _, false) (λ _, false) (λ _, Assembler.empty_dir))
         0 ∅ ["Hello world"]).1
    ∧ Assembler.pk_stale_slides pk = ∅.
Proof.
  assert (∃ pk rest,
            (Pipeline.main (Pipeline.Args 100 15 10 false)
               (Pipeline.IoEnv (λ _, false) (λ _, false) (λ _, Assembler.empty_dir))
               0 ∅ ["Hello world"]).1
            = Pipeline.BuiltPackage pk :: rest) as (pk & rest & Hlog).
  { eexists _, _. vm_compute. reflexivity. }
  exists pk.
  assert (Pipeline.BuiltPackage pk
          ∈ (Pipeline.main (Pipeline.Args 100 15 10 false)
               (Pipeline.IoEnv (λ _, false) (λ _, false) (λ _, Assembler.empty_dir))
               0 ∅ ["Hello world"]).1) as Hin.
  { rewrite Hlog. left. }
  split; [exact Hin|].
  destruct (archive_slides_are_renumbered_groups _ _ _ _ _ _ Hin)
    as (sc & spf & N & i & _ & _ & _ & _ & _ & _ & Hstale).
  apply map_eq. intros k. rewrite lookup_empty.
  destruct (Assembler.pk_stale_slides pk !! k) as [part|] eqn:Hk; [|done].
  apply Hstale in Hk as [Hk _]. discriminate.
Defined.

(** ** Files written by the carver *)

Section ScanFiles.
Import Carver CarverFiles.

Variable image_ok : bytes → bool.
Variable data : bytes.
Variables (header marker : bytes) (ext : string) (base : Z).

Abbreviation scan_adds := (CarverFiles.scan_adds image_ok data ext base).

Lemma scan_adds_nil (st : scan_state) : scan_adds st [] st.
Proof.
unfold CarverFiles.scan_adds. rewrite app_nil_r. simpl.
split_and!; [done | unfold PySeq.len; simpl; lia | done | done | constructor].
Qed.

Lemma scan_body_adds (pos : Z) (st : scan_state) :
∃ first, scan_adds st first (scan_body image_ok data marker ext base pos st).
Proof.
unfold scan_body. case_decide as Hend; [|exists []; apply scan_adds_nil].
destruct (image_ok _) eqn:Hok.
- eexists [_]. unfold CarverFiles.scan_adds. simpl. split; [reflexivity|].
  split; [unfold PySeq.len; simpl; lia|]. split.
  { intros [|k] name Hk; [|done]. injection Hk as <-.
    unfold file_name. do 3 f_equal. lia. }
  split; [done|]. constructor; [|constructor]. simpl. unfold blob. simpl.
  split; [done | by eexists].
- eexists [_]. unfold CarverFiles.scan_adds. simpl. split; [reflexivity|].
  split; [unfold PySeq.len; simpl; lia|]. split; [done|].
  split; [done|]. constructor; [|constructor]. simpl. unfold blob. simpl.
  rewrite Hok. split; [by intros [? ?] | done].
Qed.

Lemma scan_adds_trans (st1 st2 st3 : scan_state) (new1 new2 : list candidate) :
scan_adds st1 new1 st2 → scan_adds st2 new2 st3 →
scan_adds st1 (new1 ++ new2) st3.
Proof.
intros (Hc1 & Hn1 & Hnames1 & Hs1 & Hok1) (Hc2 & Hn2 & Hnames2 & Hs2 & Hok2).
unfold CarverFiles.scan_adds, written in *. rewrite omap_app.
split; [by rewrite Hc2, Hc1, app_assoc|].
split; [unfold PySeq.len in *; rewrite length_app; lia|].
split.
{ intros k name Hk. apply lookup_app_Some in Hk as [Hk|[Hge Hk]].
  - by apply Hnames1.
  - rewrite (Hnames2 _ _ Hk), Hn1. unfold PySeq.len. f_equal. lia. }
split; [by rewrite Hs2, Hs1, foldl_app|].
by apply Forall_app.
Qed.

Lemma scan_loop_adds (fuel : nat) (pos : Z) (st st' : scan_state) :
scan_loop image_ok data header marker ext base fuel pos st = Some st' →
∃ new, scan_adds st new st'.
Proof.
revert pos st. induction fuel as [|fuel IH]; intros pos st Hrun; [done|].
simpl in Hrun. case_decide.
- injection Hrun as <-. exists []. apply scan_adds_nil.
- destruct (scan_body_adds (find data header pos) st) as [first Hfirst].
  destruct (IH _ _ Hrun) as [new Hnew].
  exists (first ++ new). by apply (scan_adds_trans _ _ _ _ _ Hfirst).
Qed.

End ScanFiles.

Section CarverResult.
Import Carver CarverFiles.

Lemma names_by_index (l : list string) (f : Z → string) (a : Z) :
(∀ (k : nat) name, l !! k = Some name → name = f (a + Z.of_nat k)) →
l = f <$> seqZ a (PySeq.len l).
Proof.
intros Hl. apply list_eq. intros k. rewrite list_lookup_fmap.
destruct (l !! k) as [name|] eqn:Hk.
- rewrite lookup_seqZ_lt by (apply lookup_lt_Some in Hk; unfold PySeq.len; lia).
  simpl. f_equal. by apply Hl.
- rewrite lookup_seqZ_ge; [done|].
  apply lookup_ge_None in Hk. unfold PySeq.len. lia.
Qed.

Lemma write_candidate_other (data : bytes) (l : list candidate)
  (store : gmap string bytes) (name : string) :
name ∉ written l → foldl (write_candidate data) store l !! name = store !! name.
Proof.
revert store. induction l as [|c l IH]; intros store Hn; [done|].
simpl. unfold written in Hn. rewrite omap_cons_eq in Hn.
unfold write_candidate at 2. destruct (c_file c) as [f|].
- apply not_elem_of_cons in Hn as [Hne Hn].
  rewrite IH by done. by rewrite lookup_insert_ne.
- by apply IH.
Qed.

Lemma write_candidate_lookup (data : bytes) (l : list candidate)
  (store : gmap string bytes) (c : candidate) (name : string) :
NoDup (written l) → c ∈ l → c_file c = Some name →
foldl (write_candidate data) store l !! name = Some (blob data c).
Proof.
revert store. induction l as [|x l IH]; intros store Hnd Hin Hname.
- by apply elem_of_nil in Hin.
- unfold written in Hnd. rewrite omap_cons_eq in Hnd. simpl.
  apply elem_of_cons in Hin as [<-|Hin].
  + rewrite Hname in Hnd. apply NoDup_cons in Hnd as [Hfresh _].
    rewrite write_candidate_other by done.
    unfold write_candidate. rewrite Hname. by rewrite lookup_insert_eq.
  + apply IH; [|done|done]. destruct (c_file x); [|done].
    by apply NoDup_cons in Hnd as [_ ?].
Qed.

Lemma elem_of_written (l : list candidate) (name : string) :
name ∈ written l ↔ ∃ c, c ∈ l ∧ c_file c = Some name.
Proof. unfold written. apply list_elem_of_omap. Qed.

(** The result of the carver, with what each scan added. *)
Lemma extract_images_result (image_ok : bytes → bool) (data : bytes)
  (media_dir : gmap string bytes) :
∃ png_st jpg_st,
  extract_images_from_binary image_ok data media_dir
  = Some (st_count png_st + st_count jpg_st, st_store jpg_st,
          st_cands png_st, st_cands jpg_st)
  ∧ CarverFiles.scan_adds image_ok data ".png" 0 (ScanState 0 media_dir [])
      (st_cands png_st) png_st
  ∧ CarverFiles.scan_adds image_ok data ".jpg" (st_count png_st)
      (ScanState 0 (st_store png_st) []) (st_cands jpg_st) jpg_st
  ∧ tried_from png_header iend_marker data 0 (st_cands png_st)
  ∧ tried_from jpg_header eoi_marker data 0 (st_cands jpg_st).
Proof.
unfold extract_images_from_binary, scan.
assert (Hfuel : Z.max 1 (PySeq.len data + 2 - 0) ≤ Z.of_nat (length data + 2)).
{ unfold PySeq.len. lia. }
destruct (scan_loop_spec image_ok data png_header iend_marker ".png" 0
            (length data + 2) 0 (ScanState 0 media_dir []) ltac:(lia) Hfuel)
  as (png & new_png & Hpng & Hcands_png & Htried_png).
destruct (scan_loop_adds _ _ _ _ _ _ _ _ _ _ Hpng) as [new_png' Hadds_png].
rewrite Hpng. simpl.
destruct (scan_loop_spec image_ok data jpg_header eoi_marker ".jpg"
            (st_count png) (length data + 2) 0
            (ScanState 0 (st_store png) []) ltac:(lia) Hfuel)
  as (jpg & new_jpg & Hjpg & Hcands_jpg & Htried_jpg).
destruct (scan_loop_adds _ _ _ _ _ _ _ _ _ _ Hjpg) as [new_jpg' Hadds_jpg].
rewrite Hjpg. simpl. simpl in Hcands_png, Hcands_jpg.
exists png, jpg. split; [done|].
assert (new_png' = st_cands png) as <- by (by destruct Hadds_png as [-> _]).
assert (new_jpg' = st_cands jpg) as <- by (by destruct Hadds_jpg as [-> _]).
assert (new_png = new_png') as <- by (destruct Hadds_png as [H _]; simpl in H; congruence).
assert (new_jpg = new_jpg') as <- by (destruct Hadds_jpg as [H _]; simpl in H; congruence).
done.
Qed.

End CarverResult.

Section CarverTheorems.
Import Carver CarverFiles.

(** The names written by the two scans: distinct, PNG first. *)
Lemma carver_names (image_ok : bytes → bool) (data : bytes)
  (media_dir : gmap string bytes) (png_st jpg_st : scan_state) :
CarverFiles.scan_adds image_ok data ".png" 0 (ScanState 0 media_dir [])
  (st_cands png_st) png_st →
CarverFiles.scan_adds image_ok data ".jpg" (st_count png_st)
  (ScanState 0 (st_store png_st) []) (st_cands jpg_st) jpg_st →
let P := PySeq.len (written (st_cands png_st)) in
let J := PySeq.len (written (st_cands jpg_st)) in
st_count png_st = P ∧ st_count jpg_st = J
∧ written (st_cands png_st) = file_name ".png" <$> seqZ 1 P
∧ written (st_cands jpg_st) = file_name ".jpg" <$> seqZ (P + 1) J
∧ NoDup (written (st_cands png_st ++ st_cands jpg_st))
∧ st_store jpg_st
  = foldl (write_candidate data) media_dir (st_cands png_st ++ st_cands jpg_st).
Proof.
intros (_ & Hn1 & Hnames1 & Hs1 & _) (_ & Hn2 & Hnames2 & Hs2 & _) P J.
simpl in *. fold P in Hn1. fold J in Hn2.
assert (written (st_cands png_st) = file_name ".png" <$> seqZ 1 P) as Hpng.
{ apply (names_by_index _ (file_name ".png") 1). intros k name Hk.
  rewrite (Hnames1 k name Hk). f_equal. lia. }
assert (written (st_cands jpg_st) = file_name ".jpg" <$> seqZ (P + 1) J) as Hjpg.
{ apply (names_by_index _ (file_name ".jpg") (P + 1)). intros k name Hk.
  rewrite (Hnames2 k name Hk). f_equal. lia. }
split_and!; [lia | lia | done | done | |].
- unfold written in *. rewrite omap_app, Hpng, Hjpg.
  apply NoDup_app. split_and!.
  + apply NoDup_fmap_2; [|apply NoDup_seqZ].
    intros a b Hab. by apply file_name_inv in Hab as [? _].
  + intros name (a & -> & _)%list_elem_of_fmap (b & Hab & _)%list_elem_of_fmap.
    by apply file_name_inv in Hab as [_ ?].
  + apply NoDup_fmap_2; [|apply NoDup_seqZ].
    intros a b Hab. by apply file_name_inv in Hab as [? _].
- by rewrite Hs2, Hs1, foldl_app.
Qed.

(** A buffer without any occurrence of [marker] has [find] return [-1]
  from every origin. *)
Lemma find_absent (data marker : bytes) (p : Z) :
(∀ q, ¬ occurs_at marker data q) → 0 ≤ p → find data marker p = -1.
Proof.
intros Habsent Hp. destruct (find_spec data marker p Hp) as [[Hr _]|(_ & Hocc & _)].
- done.
- by apply Habsent in Hocc.
Qed.

Lemma tried_from_absent (header marker data : bytes) (cands : list candidate) :
(∀ q, ¬ occurs_at marker data q) → tried_from header marker data 0 cands →
cands = [].
Proof.
intros Habsent (_ & Hstarts & _). destruct cands as [|c cands]; [done|].
exfalso. destruct (proj1 (Hstarts (c_start c))) as (Hp & _ & Hfind).
- rewrite fmap_cons. left.
- apply Hfind. by apply find_absent.
Qed.

End CarverTheorems.

(** X10. The carver always returns. The count it returns is the number of
    files it wrote: the accepted PNG candidates are written, in scan
    order, as image_1.png .. image_P.png, the accepted JPEG candidates as
    image_<P+1>.jpg .. image_<P+J>.jpg, the count is P + J, and a
    candidate is written exactly when the decoder accepts its bytes.
    After the call the media directory holds a file under exactly these
    names and the names it held before; a file under any other name is
    the one that was there before. *)
Theorem carver_numbers_files (image_ok : Carver.bytes → bool) (data : Carver.bytes)
    (media_dir : gmap string Carver.bytes) :
  ∃ count store png jpg,
    Carver.extract_images_from_binary image_ok data media_dir
    = Some (count, store, png, jpg)
    ∧ let P := PySeq.len (CarverFiles.written png) in
      let J := PySeq.len (CarverFiles.written jpg) in
      count = P + J
      ∧ CarverFiles.written png = CarverFiles.file_name ".png" <$> seqZ 1 P
      ∧ CarverFiles.written jpg = CarverFiles.file_name ".jpg" <$> seqZ (P + 1) J
      ∧ (∀ name, is_Some (store !! name)
                 ↔ name ∈ CarverFiles.written png ++ CarverFiles.written jpg
                   ∨ is_Some (media_dir !! name))
      ∧ (∀ name, name ∉ CarverFiles.written png ++ CarverFiles.written jpg →
                 store !! name = media_dir !! name)
      ∧ Forall (λ c, is_Some (Carver.c_file c)
                     ↔ image_ok (CarverFiles.blob data c) = true) (png ++ jpg).
Proof.
  destruct (extract_images_result image_ok data media_dir)
    as (png_st & jpg_st & Hrun & Hpng & Hjpg & _ & _).
  destruct (carver_names image_ok data media_dir png_st jpg_st Hpng Hjpg)
    as (HP & HJ & Hnp & Hnj & Hnd & Hstore).
  eexists _, _, _, _. split; [exact Hrun|]. cbv zeta.
  assert (Hwritten : CarverFiles.written (Carver.st_cands png_st)
                     ++ CarverFiles.written (Carver.st_cands jpg_st)
                     = CarverFiles.written
                         (Carver.st_cands png_st ++ Carver.st_cands jpg_st)).
  { unfold CarverFiles.written. by rewrite omap_app. }
  rewrite Hwritten.
  split_and!; [lia | done | done | | |].
  - intros name. rewrite Hstore.
    destruct (decide (name ∈ CarverFiles.written
                        (Carver.st_cands png_st ++ Carver.st_cands jpg_st)))
      as [Hin|Hnin].
    + split; [by left|]. intros _.
      apply elem_of_written in Hin as (c & Hc & Hname).
      rewrite (write_candidate_lookup data _ media_dir c name Hnd Hc Hname).
      by eexists.
    + rewrite write_candidate_other by done. split; [by right|].
      by intros [?|?].
  - intros name Hnin. rewrite Hstore. by apply write_candidate_other.
  - apply Forall_app. split; [apply Hpng | apply Hjpg].
Qed.

(** X11. After carving, every accepted candidate has its bytes in the
    media directory under its file name: the bytes [data[start:end]],
    which the decoder accepted, where [start] is an offset at which the
    format's start signature occurs in the buffer and [end] is the end of
    the first end marker found from [start]. Every file in the directory
    is such a file or is a file that was there before the call, under a
    name the carver did not write. *)
Theorem carver_files_are_validated_slices (image_ok : Carver.bytes → bool)
    (data : Carver.bytes) (media_dir : gmap string Carver.bytes) :
  ∃ count store png jpg,
    Carver.extract_images_from_binary image_ok data media_dir
    = Some (count, store, png, jpg)
    ∧ (∀ c name,
         c ∈ png ++ jpg → Carver.c_file c = Some name →
         store !! name
         = Some (PySeq.slice data (Carver.c_start c) (Carver.c_end c))
         ∧ image_ok (PySeq.slice data (Carver.c_start c) (Carver.c_end c)) = true)
    ∧ (∀ name blob,
         store !! name = Some blob →
         (∃ c, c ∈ png ++ jpg ∧ Carver.c_file c = Some name
               ∧ blob = PySeq.slice data (Carver.c_start c) (Carver.c_end c))
         ∨ (media_dir !! name = Some blob
            ∧ ∀ c, c ∈ png ++ jpg → Carver.c_file c ≠ Some name))
    ∧ Forall (λ c, Carver.occurs_at Carver.png_header data (Carver.c_start c)
                   ∧ Carver.c_end c
                     = Carver.find data Carver.iend_marker (Carver.c_start c) + 8) png
    ∧ Forall (λ c, Carver.occurs_at Carver.jpg_header data (Carver.c_start c)
                   ∧ Carver.c_end c
                     = Carver.find data Carver.eoi_marker (Carver.c_start c) + 2) jpg.
Proof.
  destruct (extract_images_result image_ok data media_dir)
    as (png_st & jpg_st & Hrun & Hpng & Hjpg & Htp & Htj).
  destruct (carver_names image_ok data media_dir png_st jpg_st Hpng Hjpg)
    as (_ & _ & _ & _ & Hnd & Hstore).
  eexists _, _, _, _. split; [exact Hrun|].
  assert (Forall (λ c, is_Some (Carver.c_file c)
                       ↔ image_ok (CarverFiles.blob data c) = true)
            (Carver.st_cands png_st ++ Carver.st_cands jpg_st)) as Hok.
  { apply Forall_app. split; [apply Hpng | apply Hjpg]. }
  split_and!.
  - intros c name Hc Hname. split.
    + rewrite Hstore. by apply write_candidate_lookup.
    + rewrite Forall_forall in Hok. apply (Hok c Hc). by eexists.
  - intros name blob. rewrite Hstore. intros Hsome.
    destruct (decide (name ∈ CarverFiles.written
                        (Carver.st_cands png_st ++ Carver.st_cands jpg_st)))
      as [Hin|Hnin].
    + left. apply elem_of_written in Hin as (c & Hc & Hname).
      rewrite (write_candidate_lookup data _ media_dir c name Hnd Hc Hname) in Hsome.
      injection Hsome as <-. by exists c.
    + right. rewrite write_candidate_other in Hsome by done. split; [done|].
      intros c Hc Hname. apply Hnin, elem_of_written. by exists c.
  - destruct Htp as (_ & Hstarts & Hends).
    apply Forall_forall. intros c Hc. split.
    + apply (Hstarts (Carver.c_start c)). apply list_elem_of_fmap. by exists c.
    + rewrite Forall_forall in Hends. by rewrite (Hends c Hc).
  - destruct Htj as (_ & Hstarts & Hends).
    apply Forall_forall. intros c Hc. split.
    + apply (Hstarts (Carver.c_start c)). apply list_elem_of_fmap. by exists c.
    + rewrite Forall_forall in Hends. by rewrite (Hends c Hc).
Qed.

(** X12. A start signature without an end marker recovers nothing: when
    the PNG end marker occurs nowhere in the buffer the PNG scan has no
    candidate, likewise for JPEG, and when neither occurs the carver
    returns the count 0 and leaves the media directory as it was. *)
Theorem carver_needs_end_marker (image_ok : Carver.bytes → bool) (data : Carver.bytes)
    (media_dir : gmap string Carver.bytes) :
  ∃ count store png jpg,
    Carver.extract_images_from_binary image_ok data media_dir
    = Some (count, store, png, jpg)
    ∧ ((∀ q, ¬ Carver.occurs_at Carver.iend_marker data q) → png = [])
    ∧ ((∀ q, ¬ Carver.occurs_at Carver.eoi_marker data q) → jpg = [])
    ∧ ((∀ q, ¬ Carver.occurs_at Carver.iend_marker data q) →
       (∀ q, ¬ Carver.occurs_at Carver.eoi_marker data q) →
       count = 0 ∧ store = media_dir).
Proof.
  destruct (extract_images_result image_ok data media_dir)
    as (png_st & jpg_st & Hrun & Hpng & Hjpg & Htp & Htj).
  destruct (carver_names image_ok data media_dir png_st jpg_st Hpng Hjpg)
    as (HP & HJ & _ & _ & _ & Hstore).
  eexists _, _, _, _. split; [exact Hrun|]. split_and!.
  - intros Habs. by apply (tried_from_absent _ _ _ _ Habs Htp).
  - intros Habs. by apply (tried_from_absent _ _ _ _ Habs Htj).
  - intros Hi He.
    rewrite (tried_from_absent _ _ _ _ Hi Htp) in *.
    rewrite (tried_from_absent _ _ _ _ He Htj) in *.
    split; [rewrite HP, HJ; done | by rewrite Hstore].
Qed.

Lemma carver_needs_end_marker_witness :
  Carver.extract_images_from_binary (λ _, true) (Carver.png_header ++ [x00; x01])
    (<["image_1.png" := [x00]]> ∅)
  = Some (0, <["image_1.png" := [x00]]> ∅, [], []).
Proof.
  destruct (carver_needs_end_marker (λ _, true) (Carver.png_header ++ [x00; x01])
              (<["image_1.png" := [x00]]> ∅))
    as (count & store & png & jpg & Hrun & Hpng & Hjpg & Hboth).
  assert (Hi : ∀ q, ¬ Carver.occurs_at Carver.iend_marker
                        (Carver.png_header ++ [x00; x01]) q).
  { intros q [Hq Hocc]. unfold PySeq.len in Hq. simpl in Hq.
    assert (∃ k : nat, (k ≤ 10)%nat ∧ Z.to_nat q = k) as (k & Hk & Hqk)
      by (exists (Z.to_nat q); lia).
    rewrite Hqk in Hocc.
    do 11 (destruct k as [|k]; [vm_compute in Hocc; discriminate|]). lia. }
  assert (He : ∀ q, ¬ Carver.occurs_at Carver.eoi_marker
                        (Carver.png_header ++ [x00; x01]) q).
  { intros q [Hq Hocc]. unfold PySeq.len in Hq. simpl in Hq.
    assert (∃ k : nat, (k ≤ 10)%nat ∧ Z.to_nat q = k) as (k & Hk & Hqk)
      by (exists (Z.to_nat q); lia).
    rewrite Hqk in Hocc.
    do 11 (destruct k as [|k]; [vm_compute in Hocc; discriminate|]). lia. }
  destruct (Hboth Hi He) as [-> ->]. rewrite (Hpng Hi), (Hjpg He) in Hrun.
  exact Hrun.
Defined.

(** X13. The distributor names image k [image_<k>.png], whatever was
    carved. After carving P PNG files and J JPEG files, the assembler
    finds the carved file under that name for k in 1..P and copies it. For
    every other k, in particular for each of the J carved JPEG files
    (k in P+1..P+J, stored as image_<k>.jpg), the carver wrote no file of
    that name: the assembler uses what the media directory held under it
    before the run, and a generated placeholder when it held nothing, as
    in a new working directory. *)
Theorem carved_jpegs_are_not_packaged (image_ok : Carver.bytes → bool)
    (data : Carver.bytes) (media_dir : gmap string Carver.bytes) :
  ∃ count store png jpg,
    Carver.extract_images_from_binary image_ok data media_dir
    = Some (count, store, png, jpg)
    ∧ let P := PySeq.len (CarverFiles.written png) in
      (∀ k, 1 ≤ k ≤ P →
         ∃ blob, Assembler.media_for store (Distributor.png_name k)
                 = Assembler.Copied blob
                 ∧ image_ok blob = true)
      ∧ (∀ k, ¬ (1 ≤ k ≤ P) →
           Assembler.media_for store (Distributor.png_name k)
           = Assembler.media_for media_dir (Distributor.png_name k))
      ∧ (∀ k, ¬ (1 ≤ k ≤ P) →
           media_dir !! Distributor.png_name k = None →
           Assembler.media_for store (Distributor.png_name k)
           = Assembler.PlaceholderImage (Distributor.png_name k))
      ∧ (∀ k, P < k ≤ count →
           is_Some (store !! CarverFiles.file_name ".jpg" k)).
Proof.
  destruct (extract_images_result image_ok data media_dir)
    as (png_st & jpg_st & Hrun & Hpng & Hjpg & _ & _).
  destruct (carver_names image_ok data media_dir png_st jpg_st Hpng Hjpg)
    as (HP & HJ & Hnp & Hnj & Hnd & Hstore).
  eexists _, _, _, _. split; [exact Hrun|]. cbv zeta.
  set (P := PySeq.len (CarverFiles.written (Carver.st_cands png_st))) in *.
  set (J := PySeq.len (CarverFiles.written (Carver.st_cands jpg_st))) in *.
  assert (Hwritten : CarverFiles.written (Carver.st_cands png_st ++ Carver.st_cands jpg_st)
                     = CarverFiles.written (Carver.st_cands png_st)
                       ++ CarverFiles.written (Carver.st_cands jpg_st)).
  { unfold CarverFiles.written. apply omap_app. }
  assert (Hin : ∀ name, name ∈ CarverFiles.written
                          (Carver.st_cands png_st ++ Carver.st_cands jpg_st) →
                ∃ c, c ∈ Carver.st_cands png_st ++ Carver.st_cands jpg_st
                     ∧ Carver.st_store jpg_st !! name = Some (CarverFiles.blob data c)
                     ∧ image_ok (CarverFiles.blob data c) = true).
  { intros name (c & Hc & Hname)%elem_of_written. exists c. split; [done|].
    rewrite Hstore. split; [by apply write_candidate_lookup|].
    assert (Forall (λ c, is_Some (Carver.c_file c)
                         ↔ image_ok (CarverFiles.blob data c) = true)
              (Carver.st_cands png_st ++ Carver.st_cands jpg_st)) as Hok.
    { apply Forall_app. split; [apply Hpng | apply Hjpg]. }
    rewrite Forall_forall in Hok. apply (Hok c Hc). by eexists. }
  assert (Hother : ∀ k, ¬ (1 ≤ k ≤ P) →
            Carver.st_store jpg_st !! Distributor.png_name k
            = media_dir !! Distributor.png_name k).
  { intros k Hk. rewrite Hstore. apply write_candidate_other.
    rewrite Hwritten, Hnp, Hnj. intros [Hin'|Hin']%elem_of_app.
    + apply list_elem_of_fmap in Hin' as (k' & Heq & Hk').
      apply file_name_inv in Heq as [-> _]; [|done].
      apply elem_of_seqZ in Hk'. lia.
    + apply list_elem_of_fmap in Hin' as (k' & Heq & _).
      by apply file_name_inv in Heq as [_ ?]. }
  split_and!.
  - intros k Hk.
    destruct (Hin (Distributor.png_name k)) as (c & _ & Hlook & Hok).
    { rewrite Hwritten, Hnp. apply elem_of_app. left.
      apply list_elem_of_fmap. exists k. split; [done|]. apply elem_of_seqZ. lia. }
    exists (CarverFiles.blob data c). unfold Assembler.media_for. by rewrite Hlook.
  - intros k Hk. unfold Assembler.media_for. by rewrite Hother.
  - intros k Hk Hnone. unfold Assembler.media_for. by rewrite Hother, Hnone.
  - intros k Hk.
    destruct (Hin (CarverFiles.file_name ".jpg" k)) as (c & _ & Hlook & _).
    { rewrite Hwritten, Hnj. apply elem_of_app. right.
      apply list_elem_of_fmap. exists k. split; [done|]. apply elem_of_seqZ. lia. }
    by eexists.
Qed.

(** ** The segmenter's working set *)

Section Preprocess.
Import Segmenter.

Lemma filter_paragraphs_spec (seen : gset string) (paragraphs : list string) :
let kept := filter_paragraphs seen paragraphs in
(kept `sublist_of` paragraphs)
∧ NoDup kept
∧ Forall (λ p, (p ∉ seen) ∧ 5 ≤ PyStr.len (PyStr.strip p)) kept
∧ ∀ p, p ∈ paragraphs → 5 ≤ PyStr.len (PyStr.strip p) → p ∉ seen → p ∈ kept.
Proof.
revert seen. induction paragraphs as [|para rest IH]; intros seen; simpl.
{ split_and!; [done | constructor | constructor |]. by intros p ?%elem_of_nil. }
destruct (PyStr.len (PyStr.strip para) <? 5) eqn:Hshort.
{ apply Z.ltb_lt in Hshort.
  destruct (IH seen) as (Hsub & Hnd & Hall & Hcomplete).
  split_and!; [by apply sublist_cons | done | done |].
  intros p [->|Hin]%elem_of_cons Hlen Hseen; [lia | by apply Hcomplete]. }
apply Z.ltb_ge in Hshort. case_decide as Hseen.
{ destruct (IH seen) as (Hsub & Hnd & Hall & Hcomplete).
  split_and!; [by apply sublist_cons | done | done |].
  intros p [->|Hin]%elem_of_cons Hlen Hp; [done | by apply Hcomplete]. }
destruct (IH ({[para]} ∪ seen)) as (Hsub & Hnd & Hall & Hcomplete).
split_and!.
- by apply sublist_skip.
- apply NoDup_cons. split; [|done]. intros Hin.
  rewrite Forall_forall in Hall. destruct (Hall para Hin) as [Hnot _].
  apply Hnot, elem_of_union. left. by apply elem_of_singleton.
- constructor; [done|]. eapply Forall_impl; [exact Hall|].
  intros p [Hp Hlen]. split; [|done].
  intros Hin. apply Hp, elem_of_union. by right.
- intros p Hin Hlen Hp. destruct (decide (p = para)) as [->|Hne]; [left|].
  right. apply elem_of_cons in Hin as [->|Hin]; [done|].
  apply Hcomplete; [done | done |].
  intros [Heq%elem_of_singleton|Hin']%elem_of_union; done.
Qed.

Lemma sublist_slice {A : Type} (l : list A) (a b : Z) :
PySeq.slice l a b `sublist_of` l.
Proof.
unfold PySeq.slice. etrans; [apply sublist_take | apply sublist_drop].
Qed.

Lemma preprocess_sublist (paragraphs : list string) (max_slides : Z) :
preprocess paragraphs max_slides `sublist_of` filter_paragraphs ∅ paragraphs.
Proof.
unfold preprocess. destruct (_ <? _); [apply sublist_slice | done].
Qed.

End Preprocess.

(** X14. The fragments the segmenter works on are a subsequence of its
    input, in input order, without duplicates, each with at least 5
    characters once stripped; for maxSlides >= 0 there are at most
    8 * maxSlides of them; and when fewer than that pass the filter, every
    input fragment of at least 5 stripped characters is among them. *)
Theorem preprocess_keeps_distinct_long_fragments (paragraphs : list string)
    (max_slides : Z) :
  let kept := Segmenter.preprocess paragraphs max_slides in
  (kept `sublist_of` paragraphs)
  ∧ NoDup kept
  ∧ Forall (λ p, 5 ≤ PyStr.len (PyStr.strip p)) kept
  ∧ (0 ≤ max_slides → PySeq.len kept ≤ max_slides * 8)
  ∧ (PySeq.len (Segmenter.filter_paragraphs ∅ paragraphs) ≤ max_slides * 8 →
     ∀ p, p ∈ paragraphs → 5 ≤ PyStr.len (PyStr.strip p) → p ∈ kept).
Proof.
  intros kept.
  destruct (filter_paragraphs_spec ∅ paragraphs) as (Hsub & Hnd & Hall & Hcomplete).
  pose proof (preprocess_sublist paragraphs max_slides) as Hpre. fold kept in Hpre.
  split_and!.
  - by etrans.
  - by eapply sublist_NoDup.
  - apply Forall_forall. intros p Hp. rewrite Forall_forall in Hall.
    apply (Hall p). by eapply elem_of_sublist.
  - intros Hmax. subst kept. unfold Segmenter.preprocess.
    destruct (_ <? _) eqn:Hcmp.
    + rewrite slice_to_take by lia. unfold PySeq.len. rewrite length_take. lia.
    + by apply Z.ltb_ge in Hcmp.
  - intros Hfit p Hin Hlen. subst kept. unfold Segmenter.preprocess.
    destruct (_ <? _) eqn:Hcmp; [apply Z.ltb_lt in Hcmp; lia|].
    apply Hcomplete; [done | done | apply not_elem_of_empty].
Qed.

Lemma preprocess_keeps_distinct_long_fragments_witness :
  "Second line" ∈ Segmenter.preprocess ["First line"; "ab"; "First line"; "Second line"] 10.
Proof.
  pose proof (preprocess_keeps_distinct_long_fragments
                ["First line"; "ab"; "First line"; "Second line"] 10) as H.
  cbv zeta in H. destruct H as (_ & _ & _ & _ & H).
  apply H.
  - vm_compute. discriminate.
  - do 3 right. left.
  - vm_compute. discriminate.
Defined.

(** ** Boundaries *)

Section TitleIndices.
Import Segmenter Boundaries.

Lemma foldl_preserves_elem {S A : Type} (P : S → Prop) (f : S → A → S) (st : S)
  (l : list A) :
P st → (∀ st x, x ∈ l → P st → P (f st x)) → P (foldl f st l).
Proof.
revert st. induction l as [|x l IH]; intros st H0 Hstep; simpl; [done|].
apply IH.
- apply Hstep; [left | done].
- intros st' y Hy. apply Hstep. by right.
Qed.

Lemma enumerate_fst {A : Type} (l : list A) :
(PySeq.enumerate l).*1 = seqZ 0 (PySeq.len l).
Proof.
unfold PySeq.enumerate.
transitivity ((λ i : Z, i) <$> seqZ 0 (PySeq.len l)); [|apply list_fmap_id].
rewrite <- (fmap_zip_seqZ_fst (λ i, i) l 0).
apply list_fmap_ext. by intros _ [i x] _.
Qed.

(** The initial pass keeps, in order, the indices that pass the test. *)
Lemma initial_title_indices_filter (paragraphs : list string) :
initial_title_indices paragraphs
= (filter (λ x, boundary_test paragraphs x = true) (PySeq.enumerate paragraphs)).*1.
Proof.
unfold initial_title_indices.
assert (Hgen : ∀ (xs : list (Z * string)) acc,
  foldl (λ title_indices '(i, para),
           if is_likely_title para
              || ((0 <? i) && (PyStr.len para <? 50)
                  && (PyStr.len (PySeq.item paragraphs (i - 1)) <? 3))
           then title_indices ++ [i] else title_indices) acc xs
  = acc ++ (filter (λ x, boundary_test paragraphs x = true) xs).*1).
{ induction xs as [|[i para] xs IH]; intros acc; simpl.
  - by rewrite app_nil_r.
  - rewrite IH.
    change (is_likely_title para || _) with (boundary_test paragraphs (i, para)).
    destruct (boundary_test paragraphs (i, para)) eqn:Hc.
    + rewrite filter_cons_True by done. by rewrite <- app_assoc.
    + rewrite filter_cons_False; [done|]. by rewrite Hc. }
by rewrite Hgen.
Qed.

Lemma item_lookup {A : Type} `{Inhabited A} (l : list A) (i : Z) (x : A) :
0 ≤ i → l !! Z.to_nat i = Some x → PySeq.item l i = x.
Proof. intros _ Hx. unfold PySeq.item. by apply list_lookup_total_correct. Qed.

Lemma widen_title_indices_spec (paragraphs : list string) (title_indices : list Z) :
let widened := widen_title_indices paragraphs title_indices in
(NoDup title_indices → NoDup widened)
∧ (∀ i, i ∈ widened →
     i ∈ title_indices ∨ 0 ≤ i < PySeq.len paragraphs)
∧ (∀ i, i ∈ title_indices → i ∈ widened).
Proof.
unfold widen_title_indices.
apply (foldl_preserves_elem
         (λ acc, (NoDup title_indices → NoDup acc)
                 ∧ (∀ i, i ∈ acc → i ∈ title_indices ∨ 0 ≤ i < PySeq.len paragraphs)
                 ∧ (∀ i, i ∈ title_indices → i ∈ acc))).
{ split_and!; [done | by left | done]. }
intros acc [i para] Hin (Hnd & Hrange & Hkeep).
apply elem_of_enumerate in Hin as [Hi Hpara].
destruct (_ || _); [|done]. destruct (decide (i ∈ acc)) as [Hmem|Hmem]; [done|].
split_and!.
- intros Hnd0. apply NoDup_app. split_and!; [by apply Hnd | | apply NoDup_singleton].
  intros j Hj ->%list_elem_of_singleton. done.
- intros j [Hj| ->%list_elem_of_singleton]%elem_of_app; [by apply Hrange|].
  right. apply lookup_lt_Some in Hpara. unfold PySeq.len. lia.
- intros j Hj. apply elem_of_app. left. by apply Hkeep.
Qed.

Lemma widen_keeps (i : Z) (ys : list (Z * string)) (acc : list Z) :
i ∈ acc →
i ∈ foldl (λ title_indices '(i, para),
             if PyStr.endswith (PyStr.strip para) ":"
                || PyStr.endswith (PyStr.strip para) "."
             then if decide (i ∈ title_indices) then title_indices
                  else title_indices ++ [i]
             else title_indices) acc ys.
Proof.
revert acc. induction ys as [|[k q] ys IHys]; intros acc Hacc; simpl; [done|].
apply IHys. destruct (_ || _); [|done].
destruct (decide (k ∈ acc)); [done|]. apply elem_of_app. by left.
Qed.

Lemma widen_title_indices_complete (paragraphs : list string) (title_indices : list Z)
  (i : Z) (para : string) :
0 ≤ i → paragraphs !! Z.to_nat i = Some para → ends_sentence para = true →
i ∈ widen_title_indices paragraphs title_indices.
Proof.
intros Hi Hpara Hends. unfold widen_title_indices.
assert ((i, para) ∈ PySeq.enumerate paragraphs) as Hin
  by (by apply elem_of_enumerate).
revert title_indices. induction (PySeq.enumerate paragraphs) as [|[j p] xs IH];
  intros acc; [by apply elem_of_nil in Hin|].
simpl. apply elem_of_cons in Hin as [[= <- <-]|Hin]; [|by apply IH].
unfold ends_sentence in Hends. rewrite Hends.
apply widen_keeps. destruct (decide (i ∈ acc)); [done|].
apply elem_of_app. right. left.
Qed.

Lemma Sorted_le_NoDup_lt (l : list Z) :
Sorted Z.le l → NoDup l → StronglySorted Z.lt l.
Proof.
intros Hs%Sorted_StronglySorted Hnd; [|intros x y z; lia].
induction Hs as [|x l Hs IH Hall]; [constructor|].
apply NoDup_cons in Hnd as [Hx Hnd]. constructor; [by apply IH|].
apply Forall_forall. intros y Hy. rewrite Forall_forall in Hall.
specialize (Hall y Hy). assert (x ≠ y) by (by intros ->). lia.
Qed.

End TitleIndices.

Section TitleIndicesSpec.

Lemma title_indices_spec (paragraphs : list string) (max_slides : Z) :
let title_indices := Segmenter.title_indices_of paragraphs max_slides in
StronglySorted Z.lt title_indices
∧ Forall (λ i, 0 ≤ i < PySeq.len paragraphs) title_indices
∧ (∀ (k : nat) para,
     paragraphs !! k = Some para → Segmenter.is_likely_title para = true →
     Z.of_nat k ∈ title_indices)
∧ (PySeq.len (Segmenter.initial_title_indices paragraphs) < max_slides / 2 →
   ∀ (k : nat) para,
     paragraphs !! k = Some para → Boundaries.ends_sentence para = true →
     Z.of_nat k ∈ title_indices).
Proof.
intros title_indices. subst title_indices. unfold Segmenter.title_indices_of.
set (initial := Segmenter.initial_title_indices paragraphs).
assert (Hinit_nd : NoDup initial).
{ subst initial. rewrite initial_title_indices_filter.
  eapply sublist_NoDup; [|apply fmap_sublist, sublist_filter].
  rewrite enumerate_fst. apply NoDup_seqZ. }
assert (Hinit_range : ∀ i, i ∈ initial → 0 ≤ i < PySeq.len paragraphs).
{ intros i Hi. subst initial. rewrite initial_title_indices_filter in Hi.
  apply list_elem_of_fmap in Hi as ([j para] & -> & Hin).
  apply list_elem_of_filter in Hin as [_ Hin].
  apply elem_of_enumerate in Hin as [Hj Hpara]. simpl.
  apply lookup_lt_Some in Hpara. unfold PySeq.len. lia. }
assert (Hinit_titles : ∀ (k : nat) para,
          paragraphs !! k = Some para → Segmenter.is_likely_title para = true →
          Z.of_nat k ∈ initial).
{ intros k para Hk Htitle. subst initial. rewrite initial_title_indices_filter.
  apply list_elem_of_fmap. exists (Z.of_nat k, para). split; [done|].
  apply list_elem_of_filter. split.
  - unfold Boundaries.boundary_test. simpl. by rewrite Htitle.
  - apply elem_of_enumerate. split; [lia|]. by rewrite Nat2Z.id. }
destruct (widen_title_indices_spec paragraphs initial) as (Hw_nd & Hw_range & Hw_keep).
set (chosen := if PySeq.len initial <? max_slides / 2
               then Segmenter.widen_title_indices paragraphs initial else initial).
assert (NoDup chosen ∧ (∀ i, i ∈ chosen → 0 ≤ i < PySeq.len paragraphs)
        ∧ (∀ i, i ∈ initial → i ∈ chosen)) as (Hnd & Hrange & Hkeep).
{ subst chosen. destruct (_ <? _); [|done].
  split_and!; [by apply Hw_nd | | done].
  intros i Hi. destruct (Hw_range i Hi) as [?|?]; [by apply Hinit_range | done]. }
assert (Hperm : PySeq.sorted chosen ≡ₚ chosen) by apply merge_sort_Permutation.
split_and!.
- apply Sorted_le_NoDup_lt; [apply Sorted_merge_sort; apply _ | by rewrite Hperm].
- apply Forall_forall. intros i Hi. rewrite Hperm in Hi. by apply Hrange.
- intros k para Hk Htitle. rewrite Hperm. apply Hkeep. by eapply Hinit_titles.
- intros Hfew k para Hk Hends. rewrite Hperm. subst chosen.
  apply Z.ltb_lt in Hfew. rewrite Hfew.
  apply (widen_title_indices_complete paragraphs initial (Z.of_nat k) para);
    [lia | by rewrite Nat2Z.id | done].
Qed.


End TitleIndicesSpec.

(** X15. The boundary indices the segmenter computes are valid and
    ordered: strictly increasing, each an index of a fragment of the
    working set. They include the index of every likely title, and, when
    fewer than maxSlides // 2 boundaries were found by the initial pass,
    the index of every fragment that ends in [:] or [.]. *)
Theorem title_indices_valid (paragraphs : list string) (max_slides : Z) :
  let title_indices := Segmenter.title_indices_of paragraphs max_slides in
  StronglySorted Z.lt title_indices
  ∧ Forall (λ i, 0 ≤ i < PySeq.len paragraphs) title_indices
  ∧ (∀ (k : nat) para,
       paragraphs !! k = Some para → Segmenter.is_likely_title para = true →
       Z.of_nat k ∈ title_indices)
  ∧ (PySeq.len (Segmenter.initial_title_indices paragraphs) < max_slides / 2 →
     ∀ (k : nat) para,
       paragraphs !! k = Some para → Boundaries.ends_sentence para = true →
       Z.of_nat k ∈ title_indices).
Proof. apply title_indices_spec. Qed.

Lemma title_indices_valid_witness :
  Z.of_nat 1 ∈ Segmenter.title_indices_of ["Agenda:"; "First point."; "plain text"] 10.
Proof.
  pose proof (title_indices_valid ["Agenda:"; "First point."; "plain text"] 10) as H.
  cbv zeta in H. destruct H as (_ & _ & _ & H).
  apply (H ltac:(vm_compute; reflexivity) 1%nat "First point."); reflexivity.
Defined.

(** X16. On the segmenter's working set the secondary signal (a fragment
    under 50 characters that follows a fragment under 3 characters) never
    fires, because the filter has removed every fragment under 5
    characters: the initial pass marks exactly the likely titles. *)
Theorem initial_boundaries_are_likely_titles (paragraphs : list string)
    (max_slides i : Z) :
  i ∈ Segmenter.initial_title_indices (Segmenter.preprocess paragraphs max_slides)
  ↔ 0 ≤ i
    ∧ ∃ para, Segmenter.preprocess paragraphs max_slides !! Z.to_nat i = Some para
              ∧ Segmenter.is_likely_title para = true.
Proof.
  set (kept := Segmenter.preprocess paragraphs max_slides).
  assert (Hlong : ∀ (k : nat) p, kept !! k = Some p → 5 ≤ PyStr.len p).
  { intros k p Hk.
    destruct (filter_paragraphs_spec ∅ paragraphs) as (_ & _ & Hall & _).
    rewrite Forall_forall in Hall.
    destruct (Hall p) as [_ Hlen].
    { eapply elem_of_sublist; [|apply preprocess_sublist].
      apply list_elem_of_lookup. by exists k. }
    pose proof (length_strip_le p). unfold PyStr.len in *. lia. }
  rewrite initial_title_indices_filter, list_elem_of_fmap. split.
  - intros ([j para] & -> & Hin). apply list_elem_of_filter in Hin as [Htest Hin].
    apply elem_of_enumerate in Hin as [Hj Hpara]. simpl. split; [done|].
    exists para. split; [done|].
    unfold Boundaries.boundary_test in Htest. simpl in Htest.
    apply orb_true_iff in Htest as [?|Hsecond]; [done|].
    exfalso. apply andb_true_iff in Hsecond as [Hsecond Hprev].
    apply andb_true_iff in Hsecond as [Hpos _].
    apply Z.ltb_lt in Hpos, Hprev.
    destruct (lookup_lt_is_Some_2 kept (Z.to_nat (j - 1))) as [prev Hprev'].
    { apply lookup_lt_Some in Hpara. lia. }
    rewrite (item_lookup kept (j - 1) prev) in Hprev by (done || lia).
    specialize (Hlong _ _ Hprev'). lia.
  - intros (Hi & para & Hpara & Htitle). exists (i, para). split; [done|].
    apply list_elem_of_filter. split.
    + unfold Boundaries.boundary_test. simpl. by rewrite Htitle.
    + by apply elem_of_enumerate.
Qed.

(** ** Where the text of the slide groups comes from *)

Section FromInput.
Import Segmenter Boundaries.

Lemma item_elem_of {A : Type} `{Inhabited A} (l : list A) (i : Z) :
0 ≤ i < PySeq.len l → PySeq.item l i ∈ l.
Proof.
intros Hi. unfold PySeq.item.
destruct (lookup_lt_is_Some_2 l (Z.to_nat i)) as [x Hx].
{ unfold PySeq.len in Hi. lia. }
rewrite (list_lookup_total_correct _ _ _ Hx).
apply list_elem_of_lookup. by eexists.
Qed.

Lemma Forall_slice_elem {A : Type} (l : list A) (a b : Z) :
Forall (λ x, x ∈ l) (PySeq.slice l a b).
Proof. apply Forall_forall. intros x Hx. by apply elem_of_slice in Hx. Qed.

Lemma from_input_insert (paragraphs : list string) (m : gmap Z slide_data)
  (n : Z) (t : string) (body : list string) :
from_input paragraphs m →
Forall (λ p, p ∈ paragraphs) body →
t ∈ paragraphs ∨ t = slide_title n →
from_input paragraphs (<[n := SlideData t body []]> m).
Proof.
intros Hm Hbody Ht k sd Hk. destruct (decide (n = k)) as [->|Hne].
- rewrite lookup_insert_eq in Hk. injection Hk as <-. done.
- rewrite lookup_insert_ne in Hk by done. by apply Hm.
Qed.

Lemma chunk_body_from_input paragraphs pps st i :
from_input paragraphs st.1 →
from_input paragraphs (chunk_body paragraphs pps st i).1.
Proof.
destruct st as [m cs]. unfold chunk_body. simpl. intros Hinv.
pose proof (Forall_slice_elem paragraphs i (i + pps)) as Hslice.
destruct (PySeq.slice paragraphs i (i + pps)) as [|first rest]; [done|].
case_decide; [done|]. simpl.
apply Forall_cons in Hslice as [Hfirst Hrest].
apply from_input_insert; [done | |].
- case_decide; [done | by constructor].
- destruct (_ <? _); [by left | by right].
Qed.

Lemma title_body_from_input paragraphs title_indices st i :
Forall (λ j, 0 ≤ j < PySeq.len paragraphs) title_indices →
0 ≤ i < PySeq.len title_indices →
from_input paragraphs st.1 →
from_input paragraphs (title_body paragraphs title_indices st i).1.
Proof.
destruct st as [m cs]. unfold title_body. simpl. intros Hvalid Hi Hinv.
pose proof (Forall_slice_elem paragraphs (PySeq.item title_indices i + 1)
              (if i + 1 <? PySeq.len title_indices
               then PySeq.item title_indices (i + 1)
               else PySeq.len paragraphs)) as Hslice.
destruct (PySeq.slice paragraphs _ _) as [|x xs]; [done|]. simpl.
apply from_input_insert; [done | done |]. left.
apply item_elem_of. rewrite Forall_forall in Hvalid. apply Hvalid.
by apply item_elem_of.
Qed.

Lemma segment_loops_from_input_strong (paragraphs : list string) (max_slides : Z) :
StronglySorted Z.lt (title_indices_of paragraphs max_slides) →
Forall (λ j, 0 ≤ j < PySeq.len paragraphs) (title_indices_of paragraphs max_slides) →
from_input paragraphs (segment_loops paragraphs max_slides).1.
Proof.
intros _ Hvalid. unfold segment_loops.
assert (from_input paragraphs (∅ : gmap Z slide_data)) as H0.
{ intros n sd Hn. by rewrite lookup_empty in Hn. }
destruct (uses_chunks _).
- apply (foldl_preserves (λ st, from_input paragraphs st.1)); [done|].
  intros. by apply chunk_body_from_input.
- apply (foldl_preserves_elem (λ st, from_input paragraphs st.1)); [done|].
  intros st i Hi Hst. apply title_body_from_input; [done | | done].
  apply elem_of_seqZ in Hi. lia.
Qed.

End FromInput.

(** X17. The segmenter invents no text. In every slide group it returns,
    each body fragment is one of the input fragments (of at least 5
    characters once stripped), the title is an input fragment or the text
    "Slide <n>" of the group's own number n, and the image list is
    empty. *)
Theorem segmenter_text_comes_from_input (paragraphs : list string)
    (max_slides n : Z) (sd : Segmenter.slide_data) :
  Segmenter.organize_text_into_slides paragraphs max_slides !! n = Some sd →
  Forall (λ p, p ∈ paragraphs ∧ 5 ≤ PyStr.len (PyStr.strip p)) (Segmenter.content sd)
  ∧ (Segmenter.title sd ∈ paragraphs
     ∨ Segmenter.title sd = Segmenter.slide_title n)
  ∧ Segmenter.images sd = [].
Proof.
  intros Hn%organize_lookup.
  set (kept := Segmenter.preprocess paragraphs max_slides) in *.
  destruct (title_indices_spec kept max_slides) as (Hsorted & Hvalid & _).
  pose proof (segment_loops_from_input_strong kept max_slides Hsorted Hvalid n sd Hn)
    as (Hbody & Htitle & Himages).
  destruct (filter_paragraphs_spec ∅ paragraphs) as (Hsub & _ & Hall & _).
  pose proof (preprocess_sublist paragraphs max_slides) as Hpre. fold kept in Hpre.
  assert (Hkept : ∀ p, p ∈ kept → p ∈ paragraphs ∧ 5 ≤ PyStr.len (PyStr.strip p)).
  { intros p Hp. assert (p ∈ Segmenter.filter_paragraphs ∅ paragraphs) as Hf
      by (by eapply elem_of_sublist).
    split; [by eapply elem_of_sublist|].
    rewrite Forall_forall in Hall. by apply (Hall p). }
  split_and!; [|destruct Htitle as [?%Hkept|?]; [left; tauto | by right] | done].
  eapply Forall_impl; [exact Hbody|]. intros p Hp. by apply Hkept.
Qed.

Lemma segmenter_text_comes_from_input_witness :
  Segmenter.images (Segmenter.SlideData "Hello world" [] []) = [].
Proof.
  apply (segmenter_text_comes_from_input ["Hello world"] 10 1
           (Segmenter.SlideData "Hello world" [] [])). reflexivity.
Defined.

Section EmptyResult.
Import Segmenter.

Lemma segment_loops_nil (max_slides : Z) : (segment_loops [] max_slides).1 = ∅.
Proof.
unfold segment_loops, title_indices_of. simpl.
by destruct (_ <? _).
Qed.

Lemma organize_nil_working_set (paragraphs : list string) (max_slides : Z) :
preprocess paragraphs max_slides = [] →
organize_text_into_slides paragraphs max_slides = ∅.
Proof.
intros Hpre. unfold organize_text_into_slides. rewrite Hpre, segment_loops_nil.
simpl. destruct (_ <? _); [|done].
apply map_eq. intros n. rewrite restrict_to_lookup, lookup_empty.
by destruct (decide _).
Qed.

Lemma filter_paragraphs_short (seen : gset string) (paragraphs : list string) :
Forall (λ p, PyStr.len (PyStr.strip p) < 5) paragraphs →
filter_paragraphs seen paragraphs = [].
Proof.
induction 1 as [|p rest Hp _ IH]; simpl; [done|].
apply Z.ltb_lt in Hp. by rewrite Hp.
Qed.

End EmptyResult.

(** X18. The segmenter returns no slide group when no input fragment has
    5 characters once stripped (in particular on empty input), and,
    whatever the input, when maxSlides is 0. *)
Theorem segmenter_returns_nothing (paragraphs : list string) (max_slides : Z) :
  Forall (λ p, PyStr.len (PyStr.strip p) < 5) paragraphs ∨ max_slides = 0 →
  Segmenter.organize_text_into_slides paragraphs max_slides = ∅.
Proof.
  intros Hcase. apply organize_nil_working_set. unfold Segmenter.preprocess.
  destruct Hcase as [Hshort | ->].
  - rewrite (filter_paragraphs_short ∅ paragraphs Hshort).
    destruct (_ <? _); [|done].
    unfold PySeq.slice_to, PySeq.slice. by rewrite drop_nil, take_nil.
  - destruct (_ <? _) eqn:Hcmp.
    + by rewrite slice_to_take, take_0 by lia.
    + apply Z.ltb_ge in Hcmp. unfold PySeq.len in Hcmp.
      destruct (Segmenter.filter_paragraphs ∅ paragraphs); [done | simpl in Hcmp; lia].
Qed.

Lemma segmenter_returns_nothing_witness :
  Segmenter.organize_text_into_slides ["ab"; "  x  "; ""] 100 = ∅.
Proof.
  apply (segmenter_returns_nothing ["ab"; "  x  "; ""] 100). left.
  repeat constructor.
Defined.

(** ** How many images a slide receives *)

Section Balanced.
Import Exn Segmenter Distributor.

Lemma turn_count_step (n k c : Z) :
0 < n → 0 ≤ k < n → 0 ≤ c →
(c + 1 + n - 1 - k) / n
= (c + n - 1 - k) / n + (if decide (c mod n = k) then 1 else 0).
Proof.
intros Hn Hk Hc.
pose proof (Z.div_mod c n ltac:(lia)) as Hdm.
pose proof (Z.mod_pos_bound c n Hn) as Hr.
set (q := c / n) in *. set (r := c mod n) in *.
assert (Hlow : (c + n - 1 - k) / n = if decide (k + 1 ≤ r) then q + 1 else q).
{ destruct (decide (k + 1 ≤ r)).
  - symmetry. apply (Z.div_unique_pos _ n _ (r - 1 - k)); lia.
  - symmetry. apply (Z.div_unique_pos _ n _ (r + n - 1 - k)); lia. }
assert (Hhigh : (c + 1 + n - 1 - k) / n = if decide (k ≤ r) then q + 1 else q).
{ destruct (decide (k ≤ r)).
  - symmetry. apply (Z.div_unique_pos _ n _ (r - k)); lia.
  - symmetry. apply (Z.div_unique_pos _ n _ (r + n - k)); lia. }
rewrite Hlow, Hhigh.
destruct (decide (k + 1 ≤ r)), (decide (k ≤ r)), (decide (r = k)); lia.
Qed.

(** The number of images among [1..c] whose turn falls on index [k]. *)
Lemma length_images_for_index (n : Z) (k c : nat) :
0 < n → Z.of_nat k < n →
Z.of_nat (length (images_for_index n k (Z.of_nat c)))
= (Z.of_nat c + n - 1 - Z.of_nat k) / n.
Proof.
intros Hn Hk. induction c as [|c IH].
- simpl. symmetry. apply Z.div_small. lia.
- rewrite images_for_index_succ, length_app, Nat2Z.inj_add, IH.
  rewrite Nat2Z.inj_succ.
  replace (Z.succ (Z.of_nat c) + n - 1 - Z.of_nat k)
    with (Z.of_nat c + 1 + n - 1 - Z.of_nat k) by lia.
  rewrite turn_count_step by lia. by case_decide.
Qed.

End Balanced.

(** X19. The distributor spreads the images evenly: with n slides and
    c >= 0 images, the slide at index k of the sorted slide numbers
    receives exactly (c + n - 1 - k) // n new images, which is c // n or
    that plus one, the earlier slides getting the extra ones. *)
Theorem distribute_images_is_balanced (slides_content : gmap Z Segmenter.slide_data)
    (image_count : Z) :
  slides_content ≠ ∅ → 0 ≤ image_count →
  let n := PySeq.len (Segmenter.sorted_keys slides_content) in
  ∃ result,
    Distributor.distribute_images slides_content image_count = Exn.Return result
    ∧ ∀ (k : nat) slide_num sd,
        Segmenter.sorted_keys slides_content !! k = Some slide_num →
        slides_content !! slide_num = Some sd →
        ∃ sd',
          result !! slide_num = Some sd'
          ∧ PySeq.len (Segmenter.images sd')
            = PySeq.len (Segmenter.images sd) + (image_count + n - 1 - Z.of_nat k) / n
          ∧ image_count / n ≤ (image_count + n - 1 - Z.of_nat k) / n
          ∧ (image_count + n - 1 - Z.of_nat k) / n ≤ image_count / n + 1.
Proof.
  intros Hne Hc n.
  destruct (distribute_prefix slides_content Hne (Z.to_nat image_count))
    as (m & Hrun & Hkeys & _).
  rewrite Z2Nat.id in Hrun by done.
  setoid_rewrite Z2Nat.id in Hkeys; [|done].
  exists m. split; [exact Hrun|]. intros k num sd Hk Hsd.
  pose proof (slide_count_pos slides_content Hne) as Hn. fold n in Hn.
  assert (Z.of_nat k < n) as Hkn.
  { apply lookup_lt_Some in Hk. subst n. unfold PySeq.len. lia. }
  eexists. split; [exact (Hkeys k num sd Hk Hsd)|]. simpl. split.
  - pose proof (length_images_for_index n k (Z.to_nat image_count) Hn Hkn) as Hlen.
    rewrite Z2Nat.id in Hlen by done. rewrite <- Hlen.
    unfold PySeq.len. rewrite length_app, Nat2Z.inj_add. reflexivity.
  - split.
    + apply Z.div_le_mono; lia.
    + replace (image_count / n + 1) with ((image_count + 1 * n) / n)
        by (rewrite Z.div_add by lia; done).
      apply Z.div_le_mono; lia.
Qed.

Lemma distribute_images_is_balanced_witness :
  ∃ result,
    Distributor.distribute_images
      (<[1 := Segmenter.SlideData "A" [] []]>
         (<[2 := Segmenter.SlideData "B" [] []]> ∅)) 3
    = Exn.Return result
    ∧ ∃ sd', result !! 2 = Some sd' ∧ PySeq.len (Segmenter.images sd') = 1.
Proof.
  destruct (distribute_images_is_balanced
              (<[1 := Segmenter.SlideData "A" [] []]>
                 (<[2 := Segmenter.SlideData "B" [] []]> ∅)) 3)
    as (result & Hrun & Hcount); [done | lia |].
  exists result. split; [exact Hrun|].
  destruct (Hcount 1%nat 2 (Segmenter.SlideData "B" [] []))
    as (sd' & Hsd' & Hlen & _); [reflexivity | reflexivity |].
  exists sd'. split; [done|]. rewrite Hlen. reflexivity.
Defined.

(** ** The text-file loader *)

Section Stripped.
Import PyStr.

(** A text is stripped on the left when it is empty or starts with a
  character that is not white space. *)
Lemma lstrip_fixed (s : string) :
match s with
| EmptyString => True
| String c _ => isspace c = false
end → lstrip s = s.
Proof. destruct s as [|c s]; simpl; [done|]. by intros ->. Qed.

Lemma lstrip_head (s : string) :
match lstrip s with
| EmptyString => True
| String c _ => isspace c = false
end.
Proof.
induction s as [|c s IH]; simpl; [done|].
destruct (isspace c) eqn:Hc; [done|]. simpl. done.
Qed.

Lemma rstrip_head (s : string) :
match s with
| EmptyString => True
| String c _ => isspace c = false
end →
match rstrip s with
| EmptyString => s = EmptyString
| String c _ => isspace c = false
end.
Proof.
destruct s as [|c s]; simpl; [done|]. intros Hc.
destruct (rstrip s); [by rewrite Hc | done].
Qed.

Lemma rstrip_idemp (s : string) : rstrip (rstrip s) = rstrip s.
Proof.
induction s as [|c s IH]; simpl; [done|].
destruct (rstrip s) as [|c' r] eqn:Hr.
- destruct (isspace c) eqn:Hc; simpl; [done|]. by rewrite Hc.
- simpl in *. by rewrite IH.
Qed.

Lemma strip_idemp (s : string) : strip (strip s) = strip s.
Proof.
unfold strip. rewrite (lstrip_fixed (rstrip (lstrip s))).
- apply rstrip_idemp.
- pose proof (rstrip_head (lstrip s) (lstrip_head s)) as H.
  by destruct (rstrip (lstrip s)).
Qed.

End Stripped.

(** X20. Every paragraph the text-file loader returns is non-empty and
    has no white space at either end: stripping it again changes
    nothing. *)
Theorem loaded_paragraphs_are_stripped (content : string) :
  Forall (λ p, p ≠ EmptyString ∧ PyStr.strip p = p)
    (TextFile.load_extracted_text_file content).
Proof.
  unfold TextFile.load_extracted_text_file. apply Forall_forall. intros p Hp.
  apply list_elem_of_omap in Hp as (piece & _ & Hpiece).
  case_decide as Hne; [done|]. injection Hpiece as <-.
  split; [done | apply strip_idemp].
Qed.

(** ** The text extractor *)

Section ExtractorLemmas.
Import PyStr Chars Extractor.

Lemma unique_spec (seen : gset string) (text_content : list string) :
NoDup (unique seen text_content)
∧ ∀ t, t ∈ unique seen text_content ↔ t ∈ text_content ∧ t ∉ seen.
Proof.
revert seen. induction text_content as [|text rest IH]; intros seen; simpl.
{ split; [constructor|]. intros t. split; [by intros ?%elem_of_nil|].
  by intros [?%elem_of_nil _]. }
destruct (decide (text ∈ seen)) as [Hseen|Hseen].
- destruct (IH seen) as [Hnd Hin]. split; [done|]. intros t.
  rewrite Hin, elem_of_cons. split.
  + intros [Ht Hnot]. split; [by right | done].
  + intros [[->|Ht] Hnot]; done.
- destruct (IH ({[text]} ∪ seen)) as [Hnd Hin]. split.
  + apply NoDup_cons. split; [|done]. rewrite Hin.
    intros [_ Hnot]. apply Hnot, elem_of_union. left. by apply elem_of_singleton.
  + intros t. rewrite !elem_of_cons, Hin, elem_of_union, elem_of_singleton.
    split.
    * intros [->|[Ht Hnot]]; [by split; [left|] |].
      split; [by right|]. intros Hs. apply Hnot. by right.
    * intros [[->|Ht] Hnot]; [by left|].
      destruct (decide (t = text)) as [->|Hne]; [by left|].
      right. split; [done|]. by intros [?|?].
Qed.

Lemma all_chars_rev_app (P : ascii → bool) (s1 s2 : string) :
all_chars P s1 = true → all_chars P s2 = true →
all_chars P (String.rev_app s1 s2) = true.
Proof.
revert s2. induction s1 as [|c s1 IH]; intros s2; simpl; [done|].
intros [Hc Hs1]%andb_prop Hs2. apply IH; [done|]. simpl. by rewrite Hc.
Qed.

Lemma all_chars_lstrip (P : ascii → bool) (s : string) :
all_chars P s = true → all_chars P (lstrip s) = true.
Proof.
induction s as [|c s IH]; simpl; [done|].
intros Hall. destruct (isspace c); [|done].
apply andb_prop in Hall as [_ Hs]. by apply IH.
Qed.

Lemma all_chars_rstrip (P : ascii → bool) (s : string) :
all_chars P s = true → all_chars P (rstrip s) = true.
Proof.
induction s as [|c s IH]; simpl; [done|].
intros [Hc Hs]%andb_prop. specialize (IH Hs).
destruct (rstrip s) as [|c' r].
- destruct (isspace c); simpl; [done|]. by rewrite Hc.
- simpl in *. by rewrite Hc.
Qed.

Lemma all_chars_strip (P : ascii → bool) (s : string) :
all_chars P s = true → all_chars P (strip s) = true.
Proof. intros. by apply all_chars_rstrip, all_chars_lstrip. Qed.

Lemma findall_plain_chars (cur s : string) :
all_chars plain_char cur = true →
Forall (λ m, all_chars plain_char m = true) (findall_plain cur s).
Proof.
assert (Hrun : ∀ cur, all_chars plain_char cur = true →
                      Forall (λ m, all_chars plain_char m = true) (plain_run cur)).
{ intros cur' Hcur'. unfold plain_run. destruct (_ <=? _)%nat; [|constructor].
  constructor; [|constructor]. by apply all_chars_rev_app. }
revert cur. induction s as [|c s IH]; intros cur Hcur; simpl; [by apply Hrun|].
destruct (plain_char c) eqn:Hc.
- apply IH. simpl. by rewrite Hc.
- apply Forall_app. split; [by apply Hrun | by apply IH].
Qed.

(** No text made of class characters looks like code. *)
Lemma plain_text_not_xml (t : string) :
all_chars plain_char t = true → startswith t "<?xml" = false.
Proof.
destruct t as [|c t]; [done|]. cbn [all_chars]. intros [Hc _]%andb_prop.
unfold startswith. cbn [String.prefix].
destruct (Ascii.ascii_dec "<" c) as [<-|]; [|done]. by vm_compute in Hc.
Qed.

Lemma prefix_app_long (pat x post : string) :
(String.length pat ≤ String.length x)%nat →
String.prefix pat (x +:+ post) = String.prefix pat x.
Proof.
revert x. induction pat as [|a pat IH]; intros x Hlen.
{ by destruct x, post. }
destruct x as [|c x]; [simpl in Hlen; lia|].
rewrite str_app_cons. cbn [String.prefix].
destruct (Ascii.ascii_dec a c); [|done]. apply IH. simpl in Hlen. lia.
Qed.

Lemma prefix_self_app (pat post : string) : String.prefix pat (pat +:+ post) = true.
Proof.
induction pat as [|a pat IH]; [by destruct post|].
rewrite str_app_cons. cbn [String.prefix]. by destruct (Ascii.ascii_dec a a).
Qed.

Lemma find_sub_prefix (pat s : string) :
String.prefix pat s = true → find_sub pat s = Some 0%nat.
Proof. destruct s as [|c s]; cbn [find_sub]; by intros ->. Qed.

(** The first occurrence stays the first one whatever follows it. *)
Lemma first_after_find (pat s post : string) :
first_after pat s →
find_sub pat (s +:+ pat +:+ post) = Some (String.length s).
Proof.
unfold first_after. induction s as [|c s IH].
{ intros _. rewrite str_app_nil. apply find_sub_prefix, prefix_self_app. }
assert (String c s +:+ pat +:+ post = String c (s +:+ pat) +:+ post) as ->.
{ by rewrite !str_app_cons, str_app_assoc. }
rewrite str_app_cons. intros Hfirst.
pose proof (prefix_app_long pat (String c (s +:+ pat)) post) as Hlong.
rewrite str_app_cons in *. cbn [find_sub] in *.
rewrite Hlong by (simpl; rewrite str_length_app; lia).
destruct (String.prefix pat (String c (s +:+ pat))); [done|].
destruct (find_sub pat (s +:+ pat)) as [n|] eqn:Hfind; [|done].
simpl in Hfirst. injection Hfirst as ->.
rewrite str_app_assoc, IH by done. done.
Qed.

Lemma drop_app_length (x post : string) : drop (String.length x) (x +:+ post) = post.
Proof. induction x as [|c x IH]; [by destruct post|]. by rewrite str_app_cons. Qed.

Lemma take_app_length (x post : string) : take (String.length x) (x +:+ post) = x.
Proof.
induction x as [|c x IH]; [by destruct post|].
rewrite str_app_cons. simpl. by rewrite IH.
Qed.

Lemma findall_tags_skip (x post : string) :
findall_tags (String.length x) (x +:+ post) = findall_tags 0 post.
Proof.
induction x as [|c x IH]; [by rewrite str_app_nil|].
rewrite str_app_cons. simpl. exact IH.
Qed.

(** Nothing is matched before the first opening tag. *)
Lemma findall_tags_before (pre rest : string) :
first_after "<a:t" pre →
findall_tags 0 (pre +:+ "<a:t" +:+ rest) = findall_tags 0 ("<a:t" +:+ rest).
Proof.
unfold first_after. induction pre as [|c pre IH]; [done|].
rewrite !(str_app_cons c pre). intros Hfirst.
assert (String.prefix "<a:t" (String c (pre +:+ "<a:t")) = false
        ∧ find_sub "<a:t" (pre +:+ "<a:t") = Some (String.length pre))
  as [Hnot Hrest].
{ cbn [find_sub] in Hfirst.
  destruct (String.prefix "<a:t" (String c (pre +:+ "<a:t"))); [done|].
  split; [done|].
  destruct (find_sub "<a:t" (pre +:+ "<a:t")) as [n|]; [|done].
  simpl in Hfirst. by injection Hfirst as ->. }
cbn [findall_tags]. unfold tag_match.
pose proof (prefix_app_long "<a:t" (String c (pre +:+ "<a:t")) rest) as Hlong.
rewrite str_app_cons, str_app_assoc in Hlong.
rewrite Hlong, Hnot by (simpl; rewrite str_length_app; simpl; lia).
by apply IH.
Qed.

(** The match at an opening tag. *)
Lemma tag_match_at (attrs body post : string) :
first_after ">" attrs → first_after "</a:t>" body →
tag_match ("<a:t" +:+ attrs +:+ ">" +:+ body +:+ "</a:t>" +:+ post)
= Some (body, (4 + String.length attrs + 1 + String.length body + 6)%nat).
Proof.
intros Hattrs Hbody. unfold tag_match.
rewrite prefix_self_app.
assert (Hdrop : ∀ x, drop 4 ("<a:t" +:+ x) = x) by done. rewrite Hdrop.
rewrite (first_after_find ">" attrs _ Hattrs).
change (S (String.length attrs)) with (1 + String.length attrs)%nat.
replace (drop (1 + String.length attrs) (attrs +:+ ">" +:+ body +:+ "</a:t>" +:+ post))
  with (body +:+ "</a:t>" +:+ post).
2:{ rewrite <- (str_app_assoc attrs ">").
    replace (1 + String.length attrs)%nat with (String.length (attrs +:+ ">"))
      by (rewrite str_length_app; simpl; lia).
    by rewrite drop_app_length. }
rewrite (first_after_find "</a:t>" body post Hbody).
by rewrite take_app_length.
Qed.

Lemma findall_tags_element (pre attrs body post : string) :
first_after "<a:t" pre → first_after ">" attrs → first_after "</a:t>" body →
findall_tags 0 (pre +:+ "<a:t" +:+ attrs +:+ ">" +:+ body +:+ "</a:t>" +:+ post)
= body :: findall_tags 0 post.
Proof.
intros Hpre Hattrs Hbody. rewrite (findall_tags_before pre _ Hpre).
pose proof (tag_match_at attrs body post Hattrs Hbody) as Hmatch.
remember ("<a:t" +:+ attrs +:+ ">" +:+ body +:+ "</a:t>" +:+ post) as s eqn:Hs.
destruct s as [|c s]; [done|].
cbn [findall_tags]. rewrite Hmatch. f_equal.
rewrite str_app_cons in Hs. injection Hs as _ ->.
replace (Nat.pred (4 + String.length attrs + 1 + String.length body + 6))
  with (String.length (("a:t" +:+ attrs +:+ ">" +:+ body +:+ "</a:t>")))
  by (rewrite !str_length_app; simpl; lia).
rewrite <- (findall_tags_skip ("a:t" +:+ attrs +:+ ">" +:+ body +:+ "</a:t>") post).
by rewrite !str_app_assoc.
Qed.

Lemma tag_texts_clean (matches : list string) :
Forall (λ t, strip t = t ∧ 3 ≤ len t ∧ startswith t "<?xml" = false)
  (tag_texts matches).
Proof.
apply Forall_forall. intros t (m & _ & Ht)%list_elem_of_omap. simpl in Ht.
destruct (len (strip m) <? 3) eqn:Hlen; [done|].
destruct (startswith (strip m) "<?xml") eqn:Hxml; [done|].
injection Ht as <-. apply Z.ltb_ge in Hlen.
split; [apply strip_idemp | done].
Qed.

Lemma plain_texts_clean (plain_matches : list string) :
Forall (λ m, all_chars plain_char m = true) plain_matches →
Forall (λ t, strip t = t ∧ 3 ≤ len t ∧ startswith t "<?xml" = false)
  (plain_texts plain_matches).
Proof.
intros Hplain. apply Forall_forall. intros t (m & Hm & Ht)%list_elem_of_omap.
destruct (10 <=? len (strip m)) eqn:Hlen; [|done].
injection Ht as <-. apply Z.leb_le in Hlen.
split; [apply strip_idemp|]. split; [lia|].
apply plain_text_not_xml, all_chars_strip.
rewrite Forall_forall in Hplain. by apply Hplain.
Qed.

End ExtractorLemmas.

(** X21. The extractor returns no fragment twice, and every fragment it
    returns is stripped of white space at both ends, has at least 3
    characters and does not start with the XML declaration marker. *)
Theorem extracted_fragments_are_clean (text_data : string) :
  NoDup (Extractor.extract_text_from_binary text_data)
  ∧ Forall (λ t, PyStr.strip t = t ∧ 3 ≤ PyStr.len t
                 ∧ Extractor.startswith t "<?xml" = false)
      (Extractor.extract_text_from_binary text_data).
Proof.
  unfold Extractor.extract_text_from_binary.
  split; [apply unique_spec|].
  apply Forall_forall. intros t [Ht _]%unique_spec. revert t Ht.
  apply Forall_forall, Forall_app. split; [apply tag_texts_clean|].
  apply plain_texts_clean, findall_plain_chars. done.
Qed.

(** X22. The extractor finds the text of an [a:t] element: when the
    decoded file reads pre <a:t attrs > body </a:t> post, where no
    earlier "<a:t" starts in [pre], [attrs] has no ">" and [body] has no
    closing tag, the stripped [body] is among the fragments, provided it
    has at least 3 characters and does not start with the XML declaration
    marker. [attrs] is any text without ">", so the element may be any tag
    whose name starts with a:t. *)
Theorem extractor_finds_tagged_text (pre attrs body post : string) :
  Extractor.first_after "<a:t" pre →
  Extractor.first_after ">" attrs →
  Extractor.first_after "</a:t>" body →
  3 ≤ PyStr.len (PyStr.strip body) →
  Extractor.startswith (PyStr.strip body) "<?xml" = false →
  PyStr.strip body
  ∈ Extractor.extract_text_from_binary
      (pre +:+ "<a:t" +:+ attrs +:+ ">" +:+ body +:+ "</a:t>" +:+ post).
Proof.
  intros Hpre Hattrs Hbody Hlen Hxml.
  unfold Extractor.extract_text_from_binary.
  apply unique_spec. split; [|apply not_elem_of_empty].
  apply elem_of_app. left.
  rewrite (findall_tags_element pre attrs body post Hpre Hattrs Hbody).
  unfold Extractor.tag_texts. cbn [omap list_omap].
  rewrite Hxml. apply Z.ltb_ge in Hlen. rewrite Hlen. cbn [orb]. left.
Qed.

Lemma extractor_finds_tagged_text_witness :
  "Quarterly results"
  ∈ Extractor.extract_text_from_binary
      ("<a:r><a:rPr/>" +:+ "<a:t" +:+ " x='1'" +:+ ">" +:+ " Quarterly results "
       +:+ "</a:t>" +:+ "</a:r>").
Proof.
  apply (extractor_finds_tagged_text
           "<a:r><a:rPr/>" " x='1'" " Quarterly results " "</a:r>");
    [reflexivity | reflexivity | reflexivity | vm_compute; discriminate | reflexivity].
Defined.

Section Composition.
Import Segmenter.

Lemma filter_paragraphs_clean (seen : gset string) (paragraphs : list string) :
NoDup paragraphs →
Forall (λ p, (p ∉ seen) ∧ PyStr.strip p = p) paragraphs →
filter_paragraphs seen paragraphs = filter (λ p, 5 ≤ PyStr.len p) paragraphs.
Proof.
revert seen. induction paragraphs as [|para rest IH]; intros seen Hnd Hall; [reflexivity|].
apply NoDup_cons in Hnd as [Hfresh Hnd].
apply Forall_cons in Hall as [[Hseen Hstrip] Hall].
cbn [filter_paragraphs]. rewrite Hstrip, filter_cons.
destruct (PyStr.len para <? 5) eqn:Hshort.
- apply Z.ltb_lt in Hshort.
  rewrite (decide_False (P := 5 ≤ PyStr.len para)) by lia. by apply IH.
- apply Z.ltb_ge in Hshort.
  rewrite (decide_True (P := 5 ≤ PyStr.len para)) by done.
  rewrite (decide_False (P := para ∈ seen)) by done. f_equal.
  apply IH; [done|]. apply Forall_forall. intros p Hp.
  rewrite Forall_forall in Hall. destruct (Hall p Hp) as [Hnot Hp'].
  split; [|done]. intros [Heq%elem_of_singleton|Hin]%elem_of_union; [|done].
  by subst.
Qed.

End Composition.

(** X23. On the fragments the extractor returns, the segmenter's filter
    only drops what is shorter than 5 characters: its working set is the
    first 8 * max_slides extracted fragments of at least 5 characters, in
    the extractor's order. *)
Theorem working_set_of_extracted_text (text_data : string) (max_slides : Z) :
  0 ≤ max_slides →
  Segmenter.preprocess (Extractor.extract_text_from_binary text_data) max_slides
  = take (Z.to_nat (max_slides * 8))
      (filter (λ p, 5 ≤ PyStr.len p) (Extractor.extract_text_from_binary text_data)).
Proof.
  intros Hmax. unfold Segmenter.preprocess.
  rewrite (filter_paragraphs_clean ∅ (Extractor.extract_text_from_binary text_data)).
  - set (kept := filter _ _).
    destruct (max_slides * 8 <? PySeq.len kept) eqn:Hcap.
    + apply slice_to_take. lia.
    + apply Z.ltb_ge in Hcap. unfold PySeq.len in Hcap.
      rewrite take_ge by lia. done.
  - unfold Extractor.extract_text_from_binary. apply unique_spec.
  - unfold Extractor.extract_text_from_binary.
    apply Forall_forall. intros p [Hp _]%unique_spec.
    split; [apply not_elem_of_empty|]. revert p Hp.
    apply Forall_forall, Forall_app. split.
    + eapply Forall_impl; [apply tag_texts_clean|]. by intros p (? & _).
    + eapply Forall_impl;
        [apply plain_texts_clean, findall_plain_chars; done|].
      by intros p (? & _).
Qed.

Lemma working_set_of_extracted_text_witness :
  Segmenter.preprocess
    (Extractor.extract_text_from_binary "<a:t>Agenda</a:t><a:t>Q1</a:t>") 1
  = ["Agenda"].
Proof.
  rewrite (working_set_of_extracted_text "<a:t>Agenda</a:t><a:t>Q1</a:t>" 1) by lia.
  vm_compute. reflexivity.
Defined.
